(** * Metrics bookkeeping, early stopping and logging of protein-transformer

    A shallow embedding of [log.py] (metrics accumulator, early-stopping
    evaluator, CSV row writer, per-batch training and evaluation logs) and
    of [get_model_name], [title_to_fn] and the list of plots of [main] from
    [scripts/plot.py], together with the properties of these functions.

    Python floats are IEEE binary64 and are modelled by Rocq's primitive
    floats.  The metrics store is the dictionary of dictionaries of the
    source, modelled by [gmap]s with string keys; Python lists are heap
    objects addressed by reference, because [update_loss_trackers] stores
    an alias of a history list in the store. *)

From Stdlib Require Import Floats ZArith QArith Ascii String List Bool Lia.
From Stdlib Require DecimalString.
From stdpp Require Import base option list gmap strings.

Set Warnings "-register-all,-inexact-float".
Local Open Scope Z_scope.

(** ** A fragment of Python: values, exceptions, store *)

Module Py.

(** Values that the metrics dictionary can hold.  A list is a heap object,
    [VRef l] is a reference to it. *)
Inductive val :=
  | VNone
  | VInt (n : Z)
  | VFloat (x : float)
  | VRef (l : nat)
  | VDict (d : gmap string val).

(** A cell of a CSV row: a stored value or a string literal. *)
Inductive cell :=
  | CVal (v : val)
  | CStr (s : string).

Inductive exn :=
  | KeyError (k : string)
  | IndexError
  | TypeError
  | AttributeError
  | ZeroDivisionError
  | OverflowError
  | EarlyStoppingCondition
  | SystemExit (code : Z)
  | Unmodelled.

Inductive outcome (A : Type) :=
  | Ret (a : A)
  | Raise (e : exn).
Arguments Ret {A} a.
Arguments Raise {A} e.

(** An argument of [str.format]: the formatting itself is left to Python,
    the event keeps the template and the values it is applied to.
    [FMean xs] stands for [np.mean(xs)], which is not evaluated. *)
Inductive farg :=
  | FNum (x : float)
  | FVal (v : val)
  | FStr (s : string)
  | FLr (v : option val)
  | FMean (xs : list val).

(** What the functions send to the outside world, oldest first. *)
Inductive event :=
  | EPrint (template : string) (args : list farg)
  | EPbar (template : string) (args : list farg)
  | EWandbLog (entries : list (string * val)) (commit : option bool)
  | EWandbCloud (key : string) (commit : option bool)
  | ECsvRow (row : list cell).

Record store := Store {
  metrics : gmap string val;
  heap : list (list val);
  trace : list event
}.

Definition with_metrics (m : gmap string val) (s : store) : store :=
  Store m (heap s) (trace s).
Definition with_heap (h : list (list val)) (s : store) : store :=
  Store (metrics s) h (trace s).
Definition with_trace (t : list event) (s : store) : store :=
  Store (metrics s) (heap s) t.

(** Computations that read and write the store and may raise.  The store
    survives an exception: what was mutated before the raise stays mutated. *)
Definition M (A : Type) : Type := store -> outcome A * store.

Definition ret {A} (a : A) : M A := fun s => (Ret a, s).
Definition raise {A} (e : exn) : M A := fun s => (Raise e, s).
Definition bind {A B} (m : M A) (f : A -> M B) : M B :=
  fun s => match m s with
           | (Ret a, s') => f a s'
           | (Raise e, s') => (Raise e, s')
           end.
Definition lift {A} (o : outcome A) : M A := fun s => (o, s).

Global Instance M_ret : MRet M := @ret.
Global Instance M_bind : MBind M := fun A B f m => bind m f.

(** *** Numbers *)

(** [float(z)] for an int: correctly rounded, [OverflowError] beyond the
    binary64 range. *)
Definition float_of_Z (z : Z) : outcome float :=
  let f := SF2Prim (binary_normalize prec emax z 0 false) in
  if is_infinity f then Raise OverflowError else Ret f.

Definition SF_of_Z (z : Z) : spec_float :=
  match z with
  | Z0 => S754_zero false
  | Zpos p => S754_finite false p 0
  | Zneg p => S754_finite true p 0
  end.

(** [a / b] on two ints: the correctly rounded quotient. *)
Definition int_truediv (a b : Z) : outcome float :=
  if Z.eqb b 0 then Raise ZeroDivisionError
  else
    let f := SF2Prim (SFdiv prec emax (SF_of_Z a) (SF_of_Z b)) in
    if is_infinity f then Raise OverflowError else Ret f.

(** [a / b] on two floats: Python raises where IEEE returns inf or nan. *)
Definition float_truediv (a b : float) : outcome float :=
  if PrimFloat.eqb b 0%float then Raise ZeroDivisionError else Ret (a / b)%float.

(** Binary arithmetic on numbers: ints stay ints under [+] and [-], an
    int meeting a float is converted first; anything else is a [TypeError]. *)
Definition arith (fz : Z -> Z -> outcome val) (ff : float -> float -> outcome val)
    (a b : val) : outcome val :=
  match a, b with
  | VInt x, VInt y => fz x y
  | VInt x, VFloat y =>
      match float_of_Z x with Ret x' => ff x' y | Raise e => Raise e end
  | VFloat x, VInt y =>
      match float_of_Z y with Ret y' => ff x y' | Raise e => Raise e end
  | VFloat x, VFloat y => ff x y
  | _, _ => Raise TypeError
  end.

(** [a + b] *)
Definition py_add : val -> val -> outcome val :=
  arith (fun x y => Ret (VInt (x + y))) (fun x y => Ret (VFloat (x + y)%float)).

(** [a - b] *)
Definition py_sub : val -> val -> outcome val :=
  arith (fun x y => Ret (VInt (x - y))) (fun x y => Ret (VFloat (x - y)%float)).

(** [a / b] *)
Definition py_truediv : val -> val -> outcome val :=
  arith (fun x y => match int_truediv x y with
                    | Ret q => Ret (VFloat q)
                    | Raise e => Raise e
                    end)
        (fun x y => match float_truediv x y with
                    | Ret q => Ret (VFloat q)
                    | Raise e => Raise e
                    end).

(** Exact comparison of [m1 * 2^e1] with [m2 * 2^e2]. *)
Definition dyadic_compare (m1 e1 m2 e2 : Z) : comparison :=
  let e := Z.min e1 e2 in
  Z.compare (m1 * 2 ^ (e1 - e)) (m2 * 2 ^ (e2 - e)).

(** Python compares an int with a float by their exact values. *)
Definition Z_compare_float (z : Z) (x : float) : option comparison :=
  match Prim2SF x with
  | S754_nan => None
  | S754_infinity s => Some (if s then Gt else Lt)
  | S754_zero _ => Some (Z.compare z 0)
  | S754_finite s m e =>
      Some (dyadic_compare z 0 (if s then Zneg m else Zpos m) e)
  end.

(** [a < b]. *)
Definition py_lt (a b : val) : outcome bool :=
  match a, b with
  | VFloat x, VFloat y => Ret (PrimFloat.ltb x y)
  | VInt x, VInt y => Ret (Z.ltb x y)
  | VInt x, VFloat y =>
      Ret (match Z_compare_float x y with Some Lt => true | _ => false end)
  | VFloat x, VInt y =>
      Ret (match Z_compare_float y x with Some Gt => true | _ => false end)
  | VRef _, VRef _ => Raise Unmodelled
  | _, _ => Raise TypeError
  end.

(** [float(v)]. *)
Definition py_float (v : val) : outcome float :=
  match v with
  | VFloat x => Ret x
  | VInt z => float_of_Z z
  | _ => Raise TypeError
  end.

(** [np.sqrt(v)] on a scalar. *)
Definition np_sqrt (v : val) : outcome val :=
  match v with
  | VFloat x => Ret (VFloat (PrimFloat.sqrt x))
  | VInt z =>
      if Z.leb (- 2 ^ 63) z && Z.ltb z (2 ^ 63) then
        match float_of_Z z with
        | Ret f => Ret (VFloat (PrimFloat.sqrt f))
        | Raise e => Raise e
        end
      else Raise Unmodelled
  | VNone | VDict _ => Raise TypeError
  | VRef _ => Raise Unmodelled
  end.

(** A value formatted with a fixed-point specification such as [.6f]. *)
Definition fmt_fixed (v : val) : outcome farg :=
  match v with
  | VFloat _ | VInt _ => Ret (FVal v)
  | _ => Raise TypeError
  end.

(** Truth value of an optional scalar tensor: [None] and zero are false,
    everything else (NaN included) is true. *)
Definition truthy (o : option float) : bool :=
  match o with
  | None => false
  | Some x => negb (PrimFloat.eqb x 0%float)
  end.

(** Truth value of an optional int. *)
Definition truthy_int (o : option Z) : bool :=
  match o with
  | None => false
  | Some z => negb (Z.eqb z 0)
  end.

(** [round(x, ndigits)] for [ndigits >= 0]: the decimal expansion of [x]
    rounded half-even at [ndigits] places, converted back to the nearest
    float; non-finite arguments and zeros are returned unchanged. *)
Definition py_round (x : float) (ndigits : Z) : float :=
  match Prim2SF x with
  | S754_finite s m e =>
      let p := 10 ^ ndigits in
      let num := Zpos m * p * 2 ^ (Z.max e 0) in
      let den := 2 ^ (Z.max (- e) 0) in
      let q0 := num / den in
      let r := num mod den in
      let q := if Z.ltb den (2 * r) || (Z.eqb den (2 * r) && Z.odd q0)
               then q0 + 1 else q0 in
      match q with
      | Zpos q' =>
          SF2Prim (SFdiv prec emax (S754_finite s q' 0) (SF_of_Z p))
      | _ => if s then (- 0)%float else 0%float
      end
  | _ => x
  end.

(** *** Dictionaries and lists *)

(** [metrics[k]] *)
Definition getitem (k : string) : M val :=
  fun s => match metrics s !! k with
           | Some v => (Ret v, s)
           | None => (Raise (KeyError k), s)
           end.

(** [metrics[k] = v] *)
Definition setitem (k : string) (v : val) : M unit :=
  fun s => (Ret tt, with_metrics (<[k := v]> (metrics s)) s).

(** Rebinding [metrics] to a freshly built dictionary. *)
Definition put_metrics (m : gmap string val) : M unit :=
  fun s => (Ret tt, with_metrics m s).

(** [d[k]] where [d] is the value of [metrics[mode]]. *)
Definition subscript (d : val) (k : string) : outcome val :=
  match d with
  | VDict d => match d !! k with
               | Some v => Ret v
               | None => Raise (KeyError k)
               end
  | _ => Raise TypeError
  end.

(** [metrics[mode][k]] *)
Definition getitem2 (mode k : string) : M val :=
  d ← getitem mode ; lift (subscript d k).

(** [metrics[mode][k] = v]: the inner dictionary is updated in place. *)
Definition setitem2 (mode k : string) (v : val) : M unit :=
  d ← getitem mode;
  match d with
  | VDict d => setitem mode (VDict (<[k := v]> d))
  | _ => raise TypeError
  end.

(** [metrics[mode][k] += x] *)
Definition iadd2 (mode k : string) (x : val) : M unit :=
  v ← getitem2 mode k;
  r ← lift (py_add v x);
  setitem2 mode k r.

(** [metrics[mode][k] /= n] *)
Definition itruediv2 (mode k : string) (n : val) : M unit :=
  v ← getitem2 mode k;
  r ← lift (py_truediv v n);
  setitem2 mode k r.

(** A list display [[x1, ..., xn]] allocates a fresh list object. *)
Definition new_list (xs : list val) : M val :=
  fun s => (Ret (VRef (length (heap s))), with_heap (heap s ++ [xs]) s).

(** The elements of the list object [v] refers to. *)
Definition list_read (v : val) : M (list val) :=
  fun s => match v with
           | VRef l => match heap s !! l with
                       | Some xs => (Ret xs, s)
                       | None => (Raise Unmodelled, s)
                       end
           | VDict _ => (Raise Unmodelled, s)
           | _ => (Raise TypeError, s)
           end.

(** [v.append(x)] *)
Definition list_append (v : val) (x : val) : M unit :=
  fun s => match v with
           | VRef l => match heap s !! l with
                       | Some xs => (Ret tt, with_heap (<[l := xs ++ [x]]> (heap s)) s)
                       | None => (Raise Unmodelled, s)
                       end
           | _ => (Raise AttributeError, s)
           end.

(** [v[-1]] *)
Definition list_last (v : val) : M val :=
  xs ← list_read v;
  match last xs with
  | Some x => ret x
  | None => raise IndexError
  end.

Definition emit (e : event) : M unit :=
  fun s => (Ret tt, with_trace (trace s ++ [e]) s).

End Py.

(** ** log.py *)

Module Log.
Import Py.

(** The command-line options the functions read. *)
Record args_t := Args {
  train_only : bool;
  combined_loss : bool;
  early_stopping : option Z;
  lr_scheduling : bool;
  cluster : bool;
  log_structure_step : Z;
  log_wandb_step : Z
}.

(** The branch [mode == "train_epoch"] of [print_status], the one
    [do_train_batch_logging] calls. *)
Definition print_status_train_epoch (args : args_t) : M unit :=
  lrs ← getitem "history-lr";
  cur_lr ← list_last lrs;
  training_losses ← getitem2 "train" "batch-history";
  train_drmsd_loss ← getitem2 "train" "batch-drmsd";
  train_mse_loss ← getitem2 "train" "batch-mse";
  train_comb_loss ← getitem2 "train" "batch-combined";
  batch_time ← getitem2 "train" "batch-time";
  loss ← (if combined_loss args then ret train_comb_loss
          else getitem2 "train" "batch-ln-drmsd");
  lr_string ← (if lr_scheduling args
               then _ ← lift (fmt_fixed cur_lr); ret (FLr (Some cur_lr))
               else ret (FLr None));
  speed ← getitem2 "train" "speed";
  losses ← list_read training_losses;
  let n := length losses in
  (if negb (cluster args) && Nat.ltb 32 n then
     d ← lift (py_float train_drmsd_loss);
     m ← lift (py_float train_mse_loss);
     c ← lift (py_float train_comb_loss);
     lnd ← getitem2 "train" "batch-ln-drmsd";
     lnd' ← lift (fmt_fixed lnd);
     emit (EPbar ("\r  - (Train) drmsd = {0:.6f}, ln-drmsd = {lnd:0.6f}, rmse = {3:.6f}, 32avg = {1:.6f}"
                    +:+ ", comb = {4:.6f}{2}, res/sec = {speed}")
             [FNum d; FMean (drop (n - 32)%nat losses); lr_string;
              FNum (PrimFloat.sqrt m); FNum c; lnd'; FVal speed])
   else if negb (cluster args) then
     d ← lift (py_float train_drmsd_loss);
     m ← lift (py_float train_mse_loss);
     c ← lift (py_float train_comb_loss);
     lnd ← getitem2 "train" "batch-ln-drmsd";
     lnd' ← lift (fmt_fixed lnd);
     emit (EPbar ("\r  - (Train) drmsd = {0:.6f}, ln-drmsd = {lnd:0.6f}, rmse = {2:.6f}, comb = "
                    +:+ "{3:.6f}{1}, res/sec = {speed}")
             [FNum d; lr_string; FNum (PrimFloat.sqrt m); FNum c; lnd'; FVal speed])
   else ret tt);;
  (if cluster args && Nat.ltb 32 n then
     l ← lift (py_float loss);
     emit (EPrint "Loss = {0:.6f}, 32avg = {1:.6f}{2}, speed = {speed}"
             [FNum l; FMean (drop (n - 32)%nat losses); lr_string; FVal speed])
   else if cluster args && Nat.leb n 32 then
     l ← lift (py_float loss);
     emit (EPrint "Loss = {0:.6f}, 32avg = {1:.6f}{2}, speed = {speed}"
             [FNum l; FMean losses; lr_string; FVal speed])
   else ret tt).

(** [update_loss_trackers(args, epoch_i, metrics)] *)
Definition update_loss_trackers (args : args_t) (epoch_i : Z) : M unit :=
  let mode := if train_only args then "train" else "valid" in
  let loss_str := if combined_loss args then "combined" else "drmsd" in
  loss_to_compare ← getitem2 mode ("epoch-" +:+ loss_str);
  losses_to_compare ← getitem2 mode ("epoch-history-" +:+ loss_str);
  best ← getitem "best_valid_loss_so_far";
  improved ← lift (py_lt loss_to_compare best);
  (if improved : bool then
     setitem "best_valid_loss_so_far" loss_to_compare;;
     setitem "epoch_last_improved" (VInt epoch_i)
   else
     match early_stopping args with
     | Some patience =>
         if truthy_int (Some patience) then
           last_improved ← getitem "epoch_last_improved";
           gap ← lift (py_sub (VInt epoch_i) last_improved);
           exceeded ← lift (py_lt (VInt patience) gap);
           if exceeded : bool then
             emit (EPrint "No improvement for {} epochs. Stopping model training early."
                     [FVal (VInt patience)]);;
             raise EarlyStoppingCondition
           else ret tt
         else ret tt
     | None => ret tt
     end);;
  setitem "loss_to_compare" loss_to_compare;;
  setitem "losses_to_compare" losses_to_compare.

(** [log_batch(log_writer, metrics, start_time, mode, end_of_epoch, t)];
    [now] is what [time.time()] returns when it is read. *)
Definition log_batch (now : float) (start_time : float) (mode : string)
    (end_of_epoch : bool) (t : option float) : M unit :=
  let t := match t with
           | Some t' => if truthy (Some t') then t' else now
           | None => now
           end in
  m ← getitem mode;
  let be := if end_of_epoch then "epoch" else "batch" in
  c_drmsd ← lift (subscript m (be +:+ "-drmsd"));
  c_ln_drmsd ← lift (subscript m (be +:+ "-ln-drmsd"));
  mse ← lift (subscript m (be +:+ "-mse"));
  c_rmse ← lift (np_sqrt mse);
  c_rmsd ← lift (subscript m (be +:+ "-rmsd"));
  c_combined ← lift (subscript m (be +:+ "-combined"));
  lrs ← getitem "history-lr";
  c_lr ← list_last lrs;
  let c_time := VFloat (py_round (t - start_time)%float 4) in
  c_speed ← lift (subscript m "speed");
  emit (ECsvRow [CVal c_drmsd; CVal c_ln_drmsd; CVal c_rmse; CVal c_rmsd;
                 CVal c_combined; CVal c_lr; CStr mode; CStr "epoch";
                 CVal c_time; CVal c_speed]).

(** [(src_seq != 0).any(dim=-1).sum().item()]: the rows, along the last
    dimension, that hold a non-zero entry. *)
Definition num_res (src_seq : list (list Z)) : Z :=
  Z.of_nat (length (filter (fun row => existsb (fun x => negb (Z.eqb x 0)) row = true) src_seq)).

(** [update_metrics(metrics, mode, drmsd, ln_drmsd, mse, combined, src_seq,
    rmsd, tracking_loss, batch_level)]; the losses are scalar tensors, read
    with [.item()]; [now1] and [now2] are the two readings of [time.time()]. *)
Definition update_metrics (now1 now2 : float) (mode : string)
    (drmsd ln_drmsd mse combined : float) (src_seq : list (list Z))
    (rmsd tracking_loss : option float) (batch_level : bool) : M unit :=
  (if batch_level then
     setitem2 mode "batch-drmsd" (VFloat drmsd);;
     setitem2 mode "batch-ln-drmsd" (VFloat ln_drmsd);;
     setitem2 mode "batch-mse" (VFloat mse);;
     setitem2 mode "batch-combined" (VFloat combined);;
     match rmsd with
     | Some r => if truthy (Some r) then setitem2 mode "batch-rmsd" (VFloat r) else ret tt
     | None => ret tt
     end
   else ret tt);;
  iadd2 mode "epoch-drmsd" (VFloat drmsd);;
  iadd2 mode "epoch-ln-drmsd" (VFloat ln_drmsd);;
  iadd2 mode "epoch-mse" (VFloat mse);;
  iadd2 mode "epoch-combined" (VFloat combined);;
  match rmsd with
  | Some r => if truthy (Some r) then iadd2 mode "epoch-rmsd" (VFloat r) else ret tt
  | None => ret tt
  end;;
  batch_time ← getitem2 mode "batch-time";
  elapsed ← lift (py_sub (VFloat now1) batch_time);
  rate ← lift (py_truediv (VInt (num_res src_seq)) elapsed);
  rate' ← lift (py_float rate);
  setitem2 mode "speed" (VFloat (py_round rate' 2));;
  setitem2 mode "batch-time" (VFloat now2);;
  speed_history ← getitem2 mode "speed-history";
  speed ← getitem2 mode "speed";
  list_append speed_history speed;;
  match tracking_loss with
  | Some l =>
      if truthy (Some l) then
        batch_history ← getitem2 mode "batch-history";
        list_append batch_history (VFloat l)
      else ret tt
  | None => ret tt
  end.

(** [reset_metrics_for_epoch(metrics, mode)]; a chained assignment stores
    into its targets from left to right. *)
Definition reset_metrics_for_epoch (now : float) (mode : string) : M unit :=
  setitem2 mode "epoch-drmsd" (VInt 0);; setitem2 mode "batch-drmsd" (VInt 0);;
  setitem2 mode "epoch-ln-drmsd" (VInt 0);; setitem2 mode "batch-ln-drmsd" (VInt 0);;
  setitem2 mode "epoch-mse" (VInt 0);; setitem2 mode "batch-mse" (VInt 0);;
  setitem2 mode "epoch-combined" (VInt 0);; setitem2 mode "batch-combined" (VInt 0);;
  (if String.eqb mode "train" then
     setitem2 mode "epoch-rmsd" VNone;; setitem2 mode "batch-rmsd" VNone
   else
     setitem2 mode "epoch-rmsd" (VInt 0);; setitem2 mode "batch-rmsd" (VInt 0));;
  fresh ← new_list [];
  setitem2 mode "batch-history" fresh;;
  setitem2 mode "batch-time" (VFloat now);;
  fresh' ← new_list [];
  setitem2 mode "speed-history" fresh'.

(** [update_metrics_end_of_epoch(metrics, mode, n_batches)] *)
Definition update_metrics_end_of_epoch (mode : string) (n_batches : Z) : M unit :=
  itruediv2 mode "epoch-drmsd" (VInt n_batches);;
  itruediv2 mode "epoch-ln-drmsd" (VInt n_batches);;
  itruediv2 mode "epoch-mse" (VInt n_batches);;
  itruediv2 mode "epoch-combined" (VInt n_batches);;
  (if String.eqb mode "train" then setitem2 mode "epoch-rmsd" VNone
   else itruediv2 mode "epoch-rmsd" (VInt n_batches));;
  history ← getitem2 mode "epoch-history-combined";
  mean ← getitem2 mode "epoch-combined";
  list_append history mean;;
  history' ← getitem2 mode "epoch-history-drmsd";
  mean' ← getitem2 mode "epoch-drmsd";
  list_append history' mean'.

(** [init_metrics(args)]: builds the dictionary and makes it the store's. *)
Definition init_metrics (args : args_t) : M unit :=
  train_d ← new_list []; train_c ← new_list [];
  valid_d ← new_list []; valid_c ← new_list [];
  test_d ← new_list []; test_c ← new_list [];
  lrs ← new_list [];
  let split d c : val :=
    VDict (<["epoch-history-drmsd" := d]> (<["epoch-history-combined" := c]> ∅)) in
  put_metrics
    (<["train" := split train_d train_c]>
       (<["valid" := split valid_d valid_c]>
          (<["test" := split test_d test_c]>
             (<["history-lr" := lrs]>
                (<["epoch_last_improved" := VInt (-1)]>
                   (<["best_valid_loss_so_far" := VFloat infinity]> ∅))))));;
  (if negb (lr_scheduling args) then
     lrs' ← new_list [VInt 0]; setitem "history-lr" lrs'
   else ret tt).

(** [prepare_log_header(args)]; the last character of the source's string
    is the line feed. *)
Definition prepare_log_header (args : args_t) : string :=
  if combined_loss args
  then "drmsd,ln_drmsd,rmse,rmsd,combined,lr,mode,granularity,time,speed" +:+ String "010"%char EmptyString
  else "drmsd,ln_drmsd,rmse,rmsd,lr,mode,granularity,time,speed" +:+ String "010"%char EmptyString.

(** [log_structure(pred_coords, gold_item)]: two uploads of point clouds
    that torch and numpy cut out of the coordinates; the clouds themselves
    are not modelled. *)
Definition log_structure : M unit :=
  emit (EWandbCloud "backbone_cloud" (Some false));;
  emit (EWandbCloud "structure_cloud" None).

(** [do_train_batch_logging(metrics, d_loss, ln_d_loss, m_loss, c_loss,
    src_seq, loss, optimizer, args, log_writer, pbar, start_time,
    pred_coords, tgt_coords, step)]; [cur_lr] is [optimizer.cur_lr], and
    [now1], [now2], [now3] are the readings of [time.time()] in call order. *)
Definition do_train_batch_logging (now1 now2 now3 : float)
    (d_loss ln_d_loss m_loss c_loss : float) (src_seq : list (list Z))
    (loss : float) (cur_lr : float) (args : args_t) (start_time : float)
    (step : Z) : M unit :=
  let do_log_str := Z.eqb step 0 || Z.eqb (log_structure_step args mod step) 0 in
  update_metrics now1 now2 "train" d_loss ln_d_loss m_loss c_loss src_seq
    None (Some loss) true;;
  (if Z.eqb step 0 || Z.eqb (log_wandb_step args mod step) 0 then
     speed ← getitem2 "train" "speed";
     emit (EWandbLog [("Train RMSE", VFloat (PrimFloat.sqrt m_loss));
                      ("Train DRMSD", VFloat d_loss);
                      ("Train ln-DRMSD", VFloat ln_d_loss);
                      ("Train Combined Loss", VFloat c_loss);
                      ("Train Speed", speed)]
             (Some (negb (lr_scheduling args) && negb do_log_str)))
   else ret tt);;
  (if lr_scheduling args then
     lrs ← getitem "history-lr";
     list_append lrs (VFloat cur_lr);;
     if Z.eqb step 0 || Z.eqb (log_wandb_step args mod step) 0 then
       emit (EWandbLog [("Learning Rate", VFloat cur_lr)] (Some (negb do_log_str)))
     else ret tt
   else ret tt);;
  log_batch now3 start_time "train" false None;;
  print_status_train_epoch args;;
  (if PrimFloat.is_nan loss then
     emit (EPrint "A nan loss has occurred. Exiting training." []);;
     raise (SystemExit 1)
   else ret tt);;
  (if do_log_str then log_structure else ret tt).

End Log.

(** ** scripts/plot.py *)

Module Plot.

Local Open Scope string_scope.

(** Titles are ASCII strings: [main] builds them from the metric names, the
    model's file name and a decimal number. *)

Definition LF : ascii := "010"%char.

(** [s.replace(old, new)] scans [s] from the left; after a match it jumps
    over the matched characters.  [skip] counts the characters of a match
    that are still to be jumped over. *)
Fixpoint replace_from (old new : string) (skip : nat) (s : string) : string :=
  match s with
  | EmptyString => EmptyString
  | String c rest =>
      match skip with
      | S k => replace_from old new k rest
      | O =>
          if String.prefix old s
          then new +:+ replace_from old new (String.length old - 1) rest
          else String c (replace_from old new 0 rest)
      end
  end.

(** With an empty [old], Python puts [new] around every character. *)
Fixpoint intersperse (new s : string) : string :=
  match s with
  | EmptyString => new
  | String c rest => new +:+ String c (intersperse new rest)
  end.

Definition replace (old new s : string) : string :=
  match old with
  | EmptyString => intersperse new s
  | _ => replace_from old new 0 s
  end.

(** [s.find(c)] for a character: the first index, or -1. *)
Fixpoint find (c : ascii) (s : string) : Z :=
  match s with
  | EmptyString => -1
  | String c' rest =>
      if Ascii.eqb c' c then 0
      else match find c rest with
           | Zneg _ => -1
           | i => i + 1
           end
  end.

Fixpoint drop_chars (n : nat) (s : string) : string :=
  match n, s with
  | S k, String _ rest => drop_chars k rest
  | _, _ => s
  end.

(** [s[k:]]; a negative [k] counts from the end. *)
Definition slice_from (k : Z) (s : string) : string :=
  if Z.ltb k 0 then drop_chars (Z.to_nat (Z.of_nat (String.length s) + k)) s
  else drop_chars (Z.to_nat k) s.

Definition is_upper (c : ascii) : bool :=
  let n := nat_of_ascii c in Nat.leb 65 n && Nat.leb n 90.

Definition lower_char (c : ascii) : ascii :=
  if is_upper c then ascii_of_nat (nat_of_ascii c + 32) else c.

(** [s.lower()] *)
Fixpoint lower (s : string) : string :=
  match s with
  | EmptyString => EmptyString
  | String c rest => String (lower_char c) (lower rest)
  end.

Definition replace_chars : string := " ,=[]().$".

(** [title_to_fn(title)] *)
Definition title_to_fn (title : string) : string :=
  let title := replace ", " "_" (replace ", )" "_" (replace " = [" "_" title)) in
  let title := slice_from (find LF title + 1) title in
  let title := fold_left (fun t rc => replace (String rc EmptyString) "_" t)
                 (list_ascii_of_string replace_chars) title in
  lower title.

End Plot.

(** ** Runs *)

Module Run.
Import Py Log.

(** The arguments of one call of [update_metrics]. *)
Record batch := Batch {
  b_now1 : float;
  b_now2 : float;
  b_drmsd : float;
  b_ln_drmsd : float;
  b_mse : float;
  b_combined : float;
  b_src_seq : list (list Z);
  b_rmsd : option float;
  b_tracking_loss : option float;
  b_batch_level : bool
}.

(** The four operations on the metrics state. *)
Inductive op :=
  | Reset (now : float) (mode : string)
  | Update (mode : string) (b : batch)
  | Finalize (mode : string) (n_batches : Z)
  | Evaluate (args : args_t) (epoch_i : Z).

Definition run_op (o : op) : M unit :=
  match o with
  | Reset now mode => reset_metrics_for_epoch now mode
  | Update mode b =>
      update_metrics (b_now1 b) (b_now2 b) mode (b_drmsd b) (b_ln_drmsd b)
        (b_mse b) (b_combined b) (b_src_seq b) (b_rmsd b) (b_tracking_loss b)
        (b_batch_level b)
  | Finalize mode n_batches => update_metrics_end_of_epoch mode n_batches
  | Evaluate args epoch_i => update_loss_trackers args epoch_i
  end.

(** Operations in sequence; an exception ends the run. *)
Fixpoint run_ops (os : list op) : M unit :=
  match os with
  | [] => ret tt
  | o :: os' => run_op o;; run_ops os'
  end.

(** The split and the metric the early-stopping evaluator looks at. *)
Definition compared_mode (args : args_t) : string :=
  if train_only args then "train" else "valid".
Definition compared_key (args : args_t) : string :=
  "epoch-" +:+ (if combined_loss args then "combined" else "drmsd").

Definition compared_history (args : args_t) : string :=
  "epoch-history-" +:+ (if combined_loss args then "combined" else "drmsd").

(** What the evaluator prints before it raises. *)
Definition stop_message (patience : Z) : event :=
  EPrint "No improvement for {} epochs. Stopping model training early."
    [FVal (VInt patience)].

(** Modelled from the spec: the training loop (train.py is not part of the
    sources).  Once per completed epoch, with consecutive epoch indices, it
    has the epoch mean of the compared metric in the store and applies the
    evaluator; [StopTraining] ends the loop.  The result is the epoch at
    which the evaluator raised, if it did. *)
Fixpoint train_epochs (args : args_t) (epoch_i : Z) (means : list val) : M (option Z) :=
  match means with
  | [] => ret None
  | mean :: rest => fun s =>
      match (setitem2 (compared_mode args) (compared_key args) mean;;
             update_loss_trackers args epoch_i) s with
      | (Ret _, s') => train_epochs args (epoch_i + 1) rest s'
      | (Raise EarlyStoppingCondition, s') => (Ret (Some epoch_i), s')
      | (Raise e, s') => (Raise e, s')
      end
  end.

(** *** Views of the store *)

(** The dictionary [metrics[mode]]. *)
Definition split (s : store) (mode : string) : option (gmap string val) :=
  match metrics s !! mode with
  | Some (VDict d) => Some d
  | _ => None
  end.

(** The value [metrics[mode][k]]. *)
Definition field (s : store) (mode k : string) : option val :=
  match split s mode with
  | Some d => d !! k
  | None => None
  end.

(** The elements of the list a value refers to. *)
Definition elements_of (s : store) (v : option val) : option (list val) :=
  match v with
  | Some (VRef l) => heap s !! l
  | _ => None
  end.

(** The floats [xs] added one after the other, as the epoch sums are:
    [reset_metrics_for_epoch] stores the int [0], the first [+=] turns
    it into a float. *)
Definition fsum (xs : list float) : float :=
  fold_left PrimFloat.add xs 0%float.

Definition running_sum (xs : list float) : val :=
  match xs with
  | [] => VInt 0
  | _ => VFloat (fsum xs)
  end.

(** The quotient [update_metrics_end_of_epoch] stores for the sum of [xs]. *)
Definition epoch_mean (xs : list float) (n_batches : Z) : outcome val :=
  py_truediv (running_sum xs) (VInt n_batches).

(** The values of an optional tensor argument that count as present. *)
Definition supplied (os : list (option float)) : list float :=
  omap (fun o => if truthy o then o else None) os.

(** [num_res / (time.time() - metrics[mode]["batch-time"])], the rate
    [update_metrics] computes; it is not defined when no time has passed
    since the previous reading. *)
Definition throughput (src_seq : list (list Z)) (now last : float) : outcome val :=
  py_truediv (VInt (num_res src_seq)) (VFloat (now - last)%float).

Definition defined {A} (o : outcome A) : bool :=
  match o with
  | Ret _ => true
  | Raise _ => false
  end.

(** The rate is defined at every call of a sequence; [last] is the time
    the split was reset or last updated. *)
Fixpoint clock_ok (last : float) (bs : list batch) : bool :=
  match bs with
  | [] => true
  | b :: bs' =>
      defined (throughput (b_src_seq b) (b_now1 b) last) && clock_ok (b_now2 b) bs'
  end.

(** [n] is an int that [float(n)] turns into a non-zero float. *)
Definition divisor_ok (n : Z) : bool :=
  match float_of_Z n with
  | Ret f => negb (PrimFloat.eqb f 0%float)
  | Raise _ => false
  end.

(** The state of a split inside an epoch: it was reset, and the calls [bs]
    of [update_metrics] followed, the last of them at time [last]. *)
Definition in_epoch (s : store) (mode : string) (bs : list batch) (last : float) : Prop :=
  exists d l_speed l_batch speeds,
    metrics s !! mode = Some (VDict d) /\
    d !! "epoch-drmsd" = Some (running_sum (b_drmsd <$> bs)) /\
    d !! "epoch-ln-drmsd" = Some (running_sum (b_ln_drmsd <$> bs)) /\
    d !! "epoch-mse" = Some (running_sum (b_mse <$> bs)) /\
    d !! "epoch-combined" = Some (running_sum (b_combined <$> bs)) /\
    d !! "epoch-rmsd" =
      Some (if String.eqb mode "train" then VNone
            else running_sum (supplied (b_rmsd <$> bs))) /\
    is_Some (d !! "batch-rmsd") /\
    d !! "batch-time" = Some (VFloat last) /\
    d !! "speed-history" = Some (VRef l_speed) /\
    heap s !! l_speed = Some speeds /\
    d !! "batch-history" = Some (VRef l_batch) /\
    heap s !! l_batch = Some (VFloat <$> supplied (b_tracking_loss <$> bs)) /\
    l_speed <> l_batch.

End Run.

(** ** Concrete runs *)

Module Scenario.
Import Py Log Run.

Definition empty_store : store := Store ∅ [] [].

(** The options of a run that compares the validation loss. *)
Definition options (combined : bool) (patience : option Z) : args_t :=
  Args false combined patience false false 1 1.

(** The store after [init_metrics]. *)
Definition started (args : args_t) : store := (init_metrics args empty_store).2.

(** A call of [update_metrics] as [do_eval_epoch_logging] makes it, all
    losses equal to [x], between the times [now] and [now + 1]. *)
Definition eval_batch (now x : float) : batch :=
  Batch now (now + 1)%float x x x x [[1; 0]; [0; 0]; [2; 3]] (Some x) None false.

(** A call of [update_metrics] as [do_train_batch_logging] makes it. *)
Definition train_batch (now x : float) : batch :=
  Batch now (now + 1)%float x x x x [[1; 0]; [0; 0]; [2; 3]] None (Some x) true.

(** One epoch on the validation split with a single batch, followed by the
    early-stopping evaluation. *)
Definition valid_epoch (args : args_t) (epoch_i : Z) (x : float) : list op :=
  [Reset 0 "valid"; Update "valid" (eval_batch 1 x); Finalize "valid" 1;
   Evaluate args epoch_i].

End Scenario.

(** ** Vocabulary of the properties *)

Module Props.
Import Py Log Plot Run.

(** A computation keeps the invariant [I] of the store, whether it returns
    or raises, and raises only exceptions in [E]. *)
Definition sound {A} (I : store -> Prop) (E : exn -> Prop) (m : M A) : Prop :=
  forall s, I s -> I (m s).2 /\ (forall e, (m s).1 = Raise e -> E e).

(** The exceptions that reading the store or computing on values raises. *)
Definition lookup_error (e : exn) : Prop :=
  match e with
  | EarlyStoppingCondition | SystemExit _ => False
  | _ => True
  end.

Definition split_names : list string := ["train"; "valid"; "test"].
Definition epoch_history_keys : list string :=
  ["epoch-history-drmsd"; "epoch-history-combined"].
Definition batch_history_keys : list string := ["batch-history"; "speed-history"].

(** The elements of the history list [metrics[mode][k]]. *)
Definition history (s : store) (mode k : string) : option (list val) :=
  elements_of s (field s mode k).

(** The elements of [metrics["history-lr"]]. *)
Definition lr_history (s : store) : option (list val) :=
  elements_of s (metrics s !! "history-lr").

(** Every list object of [s0] is still there in [s], with the elements it
    had and possibly more behind them. *)
Definition heap_grows (s0 s : store) : Prop :=
  forall l xs, heap s0 !! l = Some xs -> exists ys, heap s !! l = Some (xs ++ ys).

(** The history list [metrics[mode][k]] and the learning-rate history of
    [s0] are the same objects in [s], and no list object lost an element. *)
Definition grows (mode k : string) (s0 s : store) : Prop :=
  heap_grows s0 s /\
  (forall l, field s0 mode k = Some (VRef l) -> field s mode k = Some (VRef l)) /\
  (forall l, metrics s0 !! "history-lr" = Some (VRef l) ->
             metrics s !! "history-lr" = Some (VRef l)).

(** [o] does not reset the split [mode]. *)
Definition not_reset_of (mode : string) (o : op) : Prop :=
  match o with
  | Reset _ mode' => mode' <> mode
  | _ => True
  end.

(** The keys [update_metrics] stores under. *)
Definition update_keys : list string :=
  ["batch-drmsd"; "batch-ln-drmsd"; "batch-mse"; "batch-combined"; "batch-rmsd";
   "epoch-drmsd"; "epoch-ln-drmsd"; "epoch-mse"; "epoch-combined"; "epoch-rmsd";
   "speed"; "batch-time"].

(** The two trackers of the early-stopping evaluator. *)
Definition best_loss_so_far (s : store) : option val :=
  metrics s !! "best_valid_loss_so_far".
Definition epoch_last_improved (s : store) : option val :=
  metrics s !! "epoch_last_improved".

(** The epoch mean the evaluator compares. *)
Definition compared_loss (args : args_t) (s : store) : option val :=
  field s (compared_mode args) (compared_key args).

(** The evaluator can run: the history list of the compared metric is in
    the store, and the trackers hold [best] and the epoch [e]. *)
Definition tracking (args : args_t) (best : val) (e : Z) (s : store) : Prop :=
  is_Some (field s (compared_mode args) (compared_history args)) /\
  best_loss_so_far s = Some best /\
  epoch_last_improved s = Some (VInt e).

(** Comparison of the magnitudes of two finite floats of the same sign,
    by exponent and then by mantissa. *)
Definition cmp_mag (e1 : Z) (m1 : positive) (e2 : Z) (m2 : positive) : comparison :=
  match Z.compare e1 e2 with
  | Lt => Lt
  | Gt => Gt
  | Eq => Pos.compare m1 m2
  end.

(** The real number a finite float stands for. *)
Definition exact_value (x : float) : option Q :=
  match Prim2SF x with
  | S754_zero _ => Some 0%Q
  | S754_finite s m e =>
      Some (inject_Z (if s then Zneg m else Zpos m) * Qpower 2 e)%Q
  | _ => None
  end.

(** The sum of finite floats as a real number, without rounding. *)
Fixpoint exact_sum (xs : list float) : option Q :=
  match xs with
  | [] => Some 0%Q
  | x :: xs' =>
      match exact_value x, exact_sum xs' with
      | Some q, Some r => Some (q + r)%Q
      | _, _ => None
      end
  end.

Definition same_number (a b : option Q) : bool :=
  match a, b with
  | Some q, Some r => Qeq_bool q r
  | _, _ => false
  end.

(** The fields of a comma-separated line. *)
Fixpoint split_commas (cur : string) (s : string) : list string :=
  match s with
  | EmptyString => [cur]
  | String c rest =>
      if Ascii.eqb c ","%char then cur :: split_commas EmptyString rest
      else split_commas (cur +:+ String c EmptyString) rest
  end.

(** The column names of the header line, without its line feed. *)
Definition header_columns (args : args_t) : list string :=
  let h := prepare_log_header args in
  split_commas EmptyString (String.substring 0 (String.length h - 1) h).

(** The rows [log_writer.writerow] received. *)
Definition rows_written (t : list event) : list (list cell) :=
  omap (fun e => match e with ECsvRow r => Some r | _ => None end) t.



(** The state in which [do_train_batch_logging] can write its row: the
    learning-rate history is a list, and it is not empty unless the call
    itself appends to it. *)
Definition lr_ready (args : args_t) (s : store) : Prop :=
  exists l lrs,
    metrics s !! "history-lr" = Some (VRef l) /\
    heap s !! l = Some lrs /\
    (lr_scheduling args = false -> lrs <> []).

(** The granularity column of a row. *)
Definition granularity (row : list cell) : option cell := row !! 7%nat.

(** What [do_train_batch_logging] prints before it exits. *)
Definition nan_message : event :=
  EPrint "A nan loss has occurred. Exiting training." [].

(** The store holds what [log_batch] and [print_status] read after a
    batch of the training split: the batch-level fields, the speed, the
    batch loss history, and a learning rate, which is a number if it is
    to be printed. *)
Definition loggable (args : args_t) (s : store) : Prop :=
  exists d x1 x2 x3 x4 rmsd time speed l_batch losses l_lr lrs lr,
    metrics s !! "train" = Some (VDict d) /\
    d !! "batch-drmsd" = Some (VFloat x1) /\
    d !! "batch-ln-drmsd" = Some (VFloat x2) /\
    d !! "batch-mse" = Some (VFloat x3) /\
    d !! "batch-combined" = Some (VFloat x4) /\
    d !! "batch-rmsd" = Some rmsd /\
    d !! "batch-time" = Some time /\
    d !! "speed" = Some speed /\
    d !! "batch-history" = Some (VRef l_batch) /\
    heap s !! l_batch = Some losses /\
    metrics s !! "history-lr" = Some (VRef l_lr) /\
    heap s !! l_lr = Some lrs /\
    last lrs = Some lr /\
    (lr_scheduling args = true -> fmt_fixed lr = Ret (FVal lr)).

End Props.

(** ** Vocabulary of the further properties *)

Module Effects.
Import Py Log Run Props.

(** [m] leaves the store as it is, whether it returns or raises. *)
Definition reads {A} (m : M A) : Prop := forall s, (m s).2 = s.

(** Started in [s], [m] either returns after sending exactly one event,
    and this event satisfies [Q], or raises without any effect. *)
Definition writes_one {A} (Q : event -> Prop) (m : M A) (s : store) : Prop :=
  match m s with
  | (Ret _, s') => exists e, s' = with_trace (trace s ++ [e]) s /\ Q e
  | (Raise _, s') => s' = s
  end.

(** The entry [g] of the metrics dictionary is [v], or is absent. *)
Definition keeps (g : string) (v : option val) (s : store) : Prop :=
  metrics s !! g = v.

(** The field [k] of the split [mode] is [v], or is absent. *)
Definition keeps_field (mode k : string) (v : option val) (s : store) : Prop :=
  field s mode k = v.

(** The entries of the metrics dictionary an operation assigns to. *)
Definition writes_to (o : op) : list string :=
  match o with
  | Reset _ mode | Update mode _ | Finalize mode _ => [mode]
  | Evaluate _ _ =>
      ["best_valid_loss_so_far"; "epoch_last_improved"; "loss_to_compare";
       "losses_to_compare"]
  end.

(** Whether a call of [wandb.log] commits the step; [commit] defaults to
    true.  [None] for the events that are no calls of [wandb.log]. *)
Definition wandb_commit (e : event) : option bool :=
  match e with
  | EWandbLog _ c | EWandbCloud _ c => Some (default true c)
  | _ => None
  end.

(** A line of [print_status]: printed, or shown on the progress bar. *)
Definition is_status_line (e : event) : bool :=
  match e with
  | EPrint _ _ | EPbar _ _ => true
  | _ => false
  end.

End Effects.

(** ** log.py: the log of an evaluation batch *)

Module EvalLog.
Import Py Log Plot.

Definition is_lower (c : ascii) : bool :=
  let n := nat_of_ascii c in Nat.leb 97 n && Nat.leb n 122.

Definition upper_char (c : ascii) : ascii :=
  if is_lower c then ascii_of_nat (nat_of_ascii c - 32) else c.

(** [s.title()] on an ASCII string: a letter that follows a letter is made
    lower case, any other letter upper case.  [cased] tells whether the
    previous character was a letter. *)
Fixpoint title_from (cased : bool) (s : string) : string :=
  match s with
  | EmptyString => EmptyString
  | String c rest =>
      if is_lower c then String (if cased then c else upper_char c) (title_from true rest)
      else if is_upper c then String (if cased then lower_char c else c) (title_from true rest)
      else String c (title_from false rest)
  end.

Definition title (s : string) : string := title_from false s.

(** The branch [mode == "eval_epoch"] of [print_status]; [items] is
    [(pbar, d_loss, mode, m_loss, c_loss)]. *)
Definition print_status_eval_epoch (args : args_t) (d_loss : float) (mode : string)
    (m_loss c_loss : float) : M unit :=
  if negb (cluster args) then
    emit (EPbar "\r  - (Eval-{1}) drmsd = {0:.6f}, rmse = {2:.6f}, comb = {3:.6f}"
            [FNum d_loss; FStr mode; FNum (PrimFloat.sqrt m_loss); FNum c_loss])
  else ret tt.

(** [do_eval_epoch_logging(metrics, d_loss, ln_d_loss, m_loss, c_loss,
    r_loss, src_seq, args, pbar, mode)]; [now1] and [now2] are the two
    readings of [time.time()] in [update_metrics]. *)
Definition do_eval_epoch_logging (now1 now2 : float)
    (d_loss ln_d_loss m_loss c_loss : float) (r_loss : option float)
    (src_seq : list (list Z)) (args : args_t) (mode : string) : M unit :=
  update_metrics now1 now2 mode d_loss ln_d_loss m_loss c_loss src_seq r_loss None false;;
  speed ← getitem2 mode "speed";
  emit (EWandbLog [(title mode +:+ " RMSE", VFloat (PrimFloat.sqrt m_loss));
                   (title mode +:+ " RMSD", from_option VFloat VNone r_loss);
                   (title mode +:+ " DRMSD", VFloat d_loss);
                   (title mode +:+ " ln-DRMSD", VFloat ln_d_loss);
                   (title mode +:+ " Combined Loss", VFloat c_loss);
                   (title mode +:+ " Speed", speed)]
          None);;
  print_status_eval_epoch args d_loss mode m_loss c_loss.

End EvalLog.

(** ** scripts/plot.py: model name and list of plots *)

Module PlotMain.
Import Py Plot.

Local Open Scope string_scope.

(** [s.rfind(c)] for a character: the last index, or -1. *)
Fixpoint rfind_from (c : ascii) (i acc : Z) (s : string) : Z :=
  match s with
  | EmptyString => acc
  | String c' rest => rfind_from c (i + 1) (if Ascii.eqb c' c then i else acc) rest
  end.

Definition rfind (c : ascii) (s : string) : Z := rfind_from c 0 (-1) s.

Fixpoint take_chars (n : nat) (s : string) : string :=
  match n, s with
  | S k, String c rest => String c (take_chars k rest)
  | _, _ => EmptyString
  end.

(** [s[:k]]; a negative [k] counts from the end. *)
Definition slice_to (k : Z) (s : string) : string :=
  if Z.ltb k 0 then take_chars (Z.to_nat (Z.of_nat (String.length s) + k)) s
  else take_chars (Z.to_nat k) s.

(** [os.path.basename(p)] on POSIX: what follows the last slash. *)
Definition basename (p : string) : string := slice_from (rfind "/" p + 1) p.

(** [os.path.splitext(p)] on POSIX: the extension begins at the last dot
    of the last component, unless only dots precede it there. *)
Definition splitext (p : string) : string * string :=
  let sepIndex := rfind "/" p in
  let dotIndex := rfind "." p in
  if Z.ltb sepIndex dotIndex then
    let name := drop_chars (Z.to_nat (sepIndex + 1)) (slice_to dotIndex p) in
    if forallb (Ascii.eqb ".") (list_ascii_of_string name) then (p, EmptyString)
    else (slice_to dotIndex p, slice_from dotIndex p)
  else (p, EmptyString).

(** [get_model_name(filename)] *)
Definition get_model_name (filename : string) : string :=
  fst (splitext (basename filename)).

(** [str(n)] for an int. *)
Definition str_of_Z (n : Z) : string :=
  DecimalString.NilZero.string_of_int (Z.to_int n).

(** [xs.index(x)] for a list of strings. *)
Fixpoint index_of (x : string) (xs : list string) : option nat :=
  match xs with
  | [] => None
  | y :: ys => if String.eqb y x then Some 0%nat else S <$> index_of x ys
  end.

(** A tuple of [all_plots]: [(metric, plt_title, smoothing, include_val,
    skip, lim)]. *)
Record plot_args := PlotArgs {
  p_metric : string;
  p_title : string;
  p_smoothing : bool;
  p_include_val : bool;
  p_skip : option Z;
  p_ylim : option float * option float
}.

Definition metric_names : list string := ["drmsd"; "rmse"; "combined"; "ln_drmsd"].

Section Main.

(** [float(s)] for a string, which the plots' limits are read with. *)
Variable float_of_string : string -> outcome float.

(** One bound of [--limits]: [float(limits[i]) if limits[i] != "None"
    else None]. *)
Definition limit_at (limits : list string) (i : nat) : outcome (option float) :=
  match limits !! i with
  | None => Raise IndexError
  | Some x =>
      if String.eqb x "None" then Ret None
      else match float_of_string x with
           | Ret f => Ret (Some f)
           | Raise e => Raise e
           end
  end.

(** The body of the loop [for m in metrics] of [main]. *)
Definition limits_of (limits : option (list string)) (m : string)
    : outcome (option float * option float) :=
  match limits with
  | Some (l :: ls) =>
      match index_of m (l :: ls) with
      | Some pos =>
          match limit_at (l :: ls) (pos + 1) with
          | Ret ymin =>
              match limit_at (l :: ls) (pos + 2) with
              | Ret ymax => Ret (ymin, ymax)
              | Raise e => Raise e
              end
          | Raise e => Raise e
          end
      | None => Ret (None, None)
      end
  | _ => Ret (None, None)
  end.

Fixpoint all_limits (limits : option (list string)) (ms : list string)
    : outcome (list (option float * option float)) :=
  match ms with
  | [] => Ret []
  | m :: ms' =>
      match limits_of limits m with
      | Ret l =>
          match all_limits limits ms' with
          | Ret ls => Ret (l :: ls)
          | Raise e => Raise e
          end
      | Raise e => Raise e
      end
  end.

(** The list [all_plots] that [main] builds from [args] and the name of
    the model, in the order in which the plots are made. *)
Definition all_plots (model_name : string) (val : bool) (skip_first : option Z)
    (no_smoothing : bool) (limits : option (list string)) : outcome (list plot_args) :=
  let smoothing := negb no_smoothing in
  let titles : list string := (fun m => m +:+ " Loss") <$> metric_names in
  match all_limits limits metric_names with
  | Raise e => Raise e
  | Ret lims =>
      let plots : list plot_args :=
        (fun mtl : string * string * (option float * option float) =>
           let '(m, t, l) := mtl in PlotArgs m t smoothing val None l)
          <$> zip (zip metric_names titles) lims in
      let plots : list plot_args :=
        match skip_first with
        | Some n =>
            if truthy_int (Some n) then
              (plots ++
               ((fun p => PlotArgs (p_metric p)
                            (p_title p +:+ ", t = [" +:+ str_of_Z n +:+ ", )")
                            smoothing val (Some n) (p_ylim p)) <$> plots))%list
            else plots
        | None => plots
        end in
      Ret ((fun p => PlotArgs (p_metric p) (model_name +:+ String LF (p_title p))
                       (p_smoothing p) (p_include_val p) (p_skip p) (p_ylim p))
             <$> plots)
  end.

End Main.







End PlotMain.

(** ** Proof tools *)

Import Py Log Plot Run Scenario Props.

(** *** Invariants of computations *)

Section Sound.
Context (I : store -> Prop) (E : exn -> Prop).

Lemma sound_pure {A} (m : M A) :
  (forall s, (m s).2 = s) -> (forall s e, (m s).1 = Raise e -> E e) -> sound I E m.
Proof. intros Hs He s Hi. rewrite Hs. eauto. Qed.

Lemma sound_ret {A} (a : A) : sound I E (mret a).
Proof. apply sound_pure; [done|]. intros s e H. discriminate H. Qed.

Lemma sound_raise {A} e : E e -> sound I E (@raise A e).
Proof. intros He. apply sound_pure; [done|]. intros s e' [= <-]. exact He. Qed.

Lemma sound_bind {A B} (m : M A) (f : A -> M B) :
  sound I E m -> (forall a, sound I E (f a)) -> sound I E (m ≫= f).
Proof.
  intros Hm Hf s Hi. destruct (Hm s Hi) as [Hi1 He1].
  unfold mbind, M_bind, bind. destruct (m s) as [[a|e] s1]; cbn in *.
  - by apply Hf.
  - split; [done|]. intros e' [= <-]. by apply He1.
Qed.
End Sound.

Section SoundPrimitives.
Context (I : store -> Prop) (E : exn -> Prop).
Context (HE : forall e, lookup_error e -> E e).

Lemma sound_getitem k : sound I E (getitem k).
Proof.
  intros s Hi. unfold getitem. destruct (_ !! _); cbn; (split; [done|]).
  - discriminate.
  - intros e [= <-]. by apply HE.
Qed.

Lemma arith_error fz ff a b e :
  (forall x y e, fz x y = Raise e -> lookup_error e) ->
  (forall x y e, ff x y = Raise e -> lookup_error e) ->
  arith fz ff a b = Raise e -> lookup_error e.
Proof.
  intros Hz Hf. unfold arith, float_of_Z.
  destruct a, b; try (intros [= <-]; exact Logic.I); eauto;
    destruct (is_infinity _); eauto; intros [= <-]; exact Logic.I.
Qed.

Lemma py_add_error a b e : py_add a b = Raise e -> lookup_error e.
Proof. apply arith_error; discriminate. Qed.

Lemma py_sub_error a b e : py_sub a b = Raise e -> lookup_error e.
Proof. apply arith_error; discriminate. Qed.

Lemma py_truediv_error a b e : py_truediv a b = Raise e -> lookup_error e.
Proof.
  apply arith_error; intros x y e'.
  - unfold int_truediv. destruct (Z.eqb _ _); [|destruct (is_infinity _)];
      [intros [= <-]; exact Logic.I..|discriminate].
  - unfold float_truediv. destruct (PrimFloat.eqb _ _);
      [intros [= <-]; exact Logic.I|discriminate].
Qed.

Lemma py_lt_error a b e : py_lt a b = Raise e -> lookup_error e.
Proof. destruct a, b; cbn; try discriminate; intros [= <-]; exact Logic.I. Qed.

Lemma py_float_error v e : py_float v = Raise e -> lookup_error e.
Proof.
  destruct v; cbn; try discriminate; try (intros [= <-]; exact Logic.I).
  unfold float_of_Z. destruct (is_infinity _); [intros [= <-]; exact Logic.I|discriminate].
Qed.

Lemma np_sqrt_error v e : np_sqrt v = Raise e -> lookup_error e.
Proof.
  destruct v; cbn; try discriminate; try (intros [= <-]; exact Logic.I).
  destruct (_ && _); [|intros [= <-]; exact Logic.I].
  unfold float_of_Z. destruct (is_infinity _); [intros [= <-]; exact Logic.I|discriminate].
Qed.

Lemma fmt_fixed_error v e : fmt_fixed v = Raise e -> lookup_error e.
Proof. destruct v; cbn; try discriminate; intros [= <-]; exact Logic.I. Qed.

Lemma subscript_error d k e : subscript d k = Raise e -> lookup_error e.
Proof.
  destruct d; cbn; try (intros [= <-]; exact Logic.I).
  destruct (_ !! _); [discriminate|intros [= <-]; exact Logic.I].
Qed.

Lemma sound_lift {A} (o : outcome A) :
  (forall e, o = Raise e -> lookup_error e) -> sound I E (lift o).
Proof. intros Ho. apply sound_pure; [done|]. intros s e H. apply HE, Ho, H. Qed.

Lemma sound_getitem2 mode k : sound I E (getitem2 mode k).
Proof.
  apply sound_bind; [apply sound_getitem|intros d].
  apply sound_lift, subscript_error.
Qed.

Lemma sound_list_read v : sound I E (list_read v).
Proof.
  intros s Hi. unfold list_read.
  destruct v; cbn; try (split; [done|intros e [= <-]; by apply HE]).
  destruct (_ !! _); cbn; (split; [done|]); [discriminate|].
  intros e [= <-]. by apply HE.
Qed.

Lemma sound_list_last v : sound I E (list_last v).
Proof.
  apply sound_bind; [apply sound_list_read|intros xs].
  destruct (last xs); [apply sound_ret|by apply sound_raise, HE].
Qed.
End SoundPrimitives.

Ltac sound_step :=
  lazymatch goal with
  | |- sound _ _ (_ ≫= _) => apply sound_bind; [|intros ?]
  | |- sound _ _ (mret _) => apply sound_ret
  | |- sound _ _ (ret _) => apply sound_ret
  | |- sound _ _ (getitem _) => apply sound_getitem; assumption
  | |- sound _ _ (getitem2 _ _) => apply sound_getitem2; assumption
  | |- sound _ _ (list_read _) => apply sound_list_read; assumption
  | |- sound _ _ (list_last _) => apply sound_list_last; assumption
  | |- sound _ _ (lift (py_add _ _)) => apply sound_lift; [assumption|apply py_add_error]
  | |- sound _ _ (lift (py_sub _ _)) => apply sound_lift; [assumption|apply py_sub_error]
  | |- sound _ _ (lift (py_truediv _ _)) => apply sound_lift; [assumption|apply py_truediv_error]
  | |- sound _ _ (lift (py_lt _ _)) => apply sound_lift; [assumption|apply py_lt_error]
  | |- sound _ _ (lift (py_float _)) => apply sound_lift; [assumption|apply py_float_error]
  | |- sound _ _ (lift (np_sqrt _)) => apply sound_lift; [assumption|apply np_sqrt_error]
  | |- sound _ _ (lift (fmt_fixed _)) => apply sound_lift; [assumption|apply fmt_fixed_error]
  | |- sound _ _ (lift (subscript _ _)) => apply sound_lift; [assumption|apply subscript_error]
  | |- sound _ _ (if ?b then _ else _) => destruct b
  | |- sound _ _ (match ?x with _ => _ end) => destruct x
  end.

(** *** The history lists only grow *)

Lemma field_insert_same s mode d k v :
  field (with_metrics (<[mode := VDict (<[k := v]> d)]> (metrics s)) s) mode k = Some v.
Proof. unfold field, split. cbn. by rewrite !lookup_insert_eq. Qed.

Lemma field_insert_other_key s mode d k k' v :
  metrics s !! mode = Some (VDict d) -> k' <> k ->
  field (with_metrics (<[mode := VDict (<[k' := v]> d)]> (metrics s)) s) mode k
  = field s mode k.
Proof.
  intros Hm Hk. unfold field, split. cbn.
  by rewrite lookup_insert_eq, Hm, lookup_insert_ne.
Qed.

Lemma field_insert_other_mode s mode mode' k v :
  mode' <> mode ->
  field (with_metrics (<[mode' := v]> (metrics s)) s) mode k = field s mode k.
Proof. intros Hm. unfold field, split. cbn. by rewrite lookup_insert_ne. Qed.

Lemma heap_grows_refl s : heap_grows s s.
Proof. intros l xs H. exists []. by rewrite app_nil_r. Qed.

Lemma heap_grows_trans s0 s1 s2 :
  heap_grows s0 s1 -> heap_grows s1 s2 -> heap_grows s0 s2.
Proof.
  intros H1 H2 l xs H. destruct (H1 l xs H) as [ys Hys].
  destruct (H2 _ _ Hys) as [zs Hzs]. exists (ys ++ zs). by rewrite app_assoc.
Qed.

Lemma heap_grows_alloc s xs : heap_grows s (with_heap (heap s ++ [xs]) s).
Proof.
  intros l ys H. exists []. cbn. rewrite app_nil_r. by apply lookup_app_l_Some.
Qed.

Lemma heap_grows_append s l xs x :
  heap s !! l = Some xs -> heap_grows s (with_heap (<[l := xs ++ [x]]> (heap s)) s).
Proof.
  intros Hl l' ys H. cbn. destruct (decide (l' = l)) as [->|Hne].
  - exists [x]. rewrite Hl in H. injection H as <-.
    apply list_lookup_insert_eq. by eapply lookup_lt_Some.
  - exists []. rewrite app_nil_r. by rewrite list_lookup_insert_ne.
Qed.

Lemma grows_refl mode k s : grows mode k s s.
Proof. split; [apply heap_grows_refl|done]. Qed.

Section Grows.
Context (mode k : string) (s0 : store) (E : exn -> Prop).
Context (HE : forall e, lookup_error e -> E e).
Context (Hmode : mode ∈ split_names).

Lemma grows_setitem2 mode' k' v :
  (mode' = mode -> k' <> k) -> sound (grows mode k s0) E (setitem2 mode' k' v).
Proof.
  intros Hne s (Hh & Hf & Hlr). unfold setitem2, mbind, M_bind, bind, getitem.
  destruct (metrics s !! mode') as [d|] eqn:Hm; cbn [fst snd].
  2:{ split; [done|]. intros e [= <-]. by apply HE. }
  destruct d; try (split; [done|intros e [= <-]; by apply HE]).
  unfold setitem. cbn [fst snd]. split; [|discriminate].
  split; [exact Hh|]. split.
  - intros l Hl. specialize (Hf l Hl). destruct (decide (mode' = mode)) as [->|Hm'].
    + rewrite field_insert_other_key; auto.
    + by rewrite field_insert_other_mode.
  - intros l Hl. specialize (Hlr l Hl). cbn.
    destruct (decide (mode' = "history-lr")) as [->|Hm'].
    + rewrite Hlr in Hm. discriminate Hm.
    + by rewrite lookup_insert_ne.
Qed.

Lemma grows_setitem k' v :
  k' <> mode -> k' <> "history-lr" -> sound (grows mode k s0) E (setitem k' v).
Proof.
  intros Hk1 Hk2 s (Hh & Hf & Hlr). unfold setitem. cbn [fst snd].
  split; [|discriminate]. split; [exact Hh|]. split.
  - intros l Hl. rewrite field_insert_other_mode; auto.
  - intros l Hl. cbn. rewrite lookup_insert_ne; auto.
Qed.

Lemma grows_new_list xs : sound (grows mode k s0) E (new_list xs).
Proof.
  intros s (Hh & Hf & Hlr). cbn. split; [|discriminate].
  split; [|done]. eapply heap_grows_trans; [exact Hh|apply heap_grows_alloc].
Qed.

Lemma grows_list_append v x : sound (grows mode k s0) E (list_append v x).
Proof.
  intros s (Hh & Hf & Hlr). unfold list_append.
  destruct v; cbn; try (split; [done|intros e [= <-]; by apply HE]).
  destruct (heap s !! l) as [xs|] eqn:Hl; cbn.
  2:{ split; [done|]. intros e [= <-]. by apply HE. }
  split; [|discriminate]. split; [|done].
  eapply heap_grows_trans; [exact Hh|by apply heap_grows_append].
Qed.

Lemma grows_emit e : sound (grows mode k s0) E (emit e).
Proof. intros s H. cbn. split; [exact H|discriminate]. Qed.

Lemma split_name_cases : mode = "train" \/ mode = "valid" \/ mode = "test".
Proof.
  unfold split_names in Hmode. rewrite !elem_of_cons, elem_of_nil in Hmode. tauto.
Qed.

Ltac grows_go :=
  repeat first
    [ sound_step
    | apply grows_setitem2; intros _; congruence
    | apply grows_setitem;
        [destruct split_name_cases as [->|[->| ->]]; discriminate|discriminate]
    | apply grows_new_list
    | apply grows_list_append
    | apply grows_emit ].

Lemma grows_update now1 now2 mode' x1 x2 x3 x4 seq r tl bl :
  k ∈ epoch_history_keys ++ batch_history_keys ->
  sound (grows mode k s0) E (update_metrics now1 now2 mode' x1 x2 x3 x4 seq r tl bl).
Proof.
  intros Hk. unfold epoch_history_keys, batch_history_keys in Hk. cbn in Hk.
  rewrite !elem_of_cons, elem_of_nil in Hk.
  unfold update_metrics, iadd2.
  destruct Hk as [Hk|[Hk|[Hk|[Hk|[]]]]]; grows_go.
Qed.

Lemma grows_finalize mode' n :
  k ∈ epoch_history_keys ++ batch_history_keys ->
  sound (grows mode k s0) E (update_metrics_end_of_epoch mode' n).
Proof.
  intros Hk. unfold epoch_history_keys, batch_history_keys in Hk. cbn in Hk.
  rewrite !elem_of_cons, elem_of_nil in Hk.
  unfold update_metrics_end_of_epoch, itruediv2.
  destruct Hk as [Hk|[Hk|[Hk|[Hk|[]]]]]; grows_go.
Qed.

Lemma grows_evaluate args i :
  E EarlyStoppingCondition ->
  sound (grows mode k s0) E (update_loss_trackers args i).
Proof.
  intros Hstop. unfold update_loss_trackers.
  grows_go. by apply sound_raise.
Qed.

Lemma grows_reset now mode' :
  k ∈ epoch_history_keys \/ mode' <> mode ->
  sound (grows mode k s0) E (reset_metrics_for_epoch now mode').
Proof.
  intros Hk. unfold reset_metrics_for_epoch.
  destruct Hk as [Hk|Hk].
  - unfold epoch_history_keys in Hk. rewrite !elem_of_cons, elem_of_nil in Hk.
    destruct Hk as [Hk|[Hk|[]]]; grows_go.
  - repeat first
      [ sound_step
      | apply grows_setitem2; intros ->; done
      | apply grows_new_list ].
Qed.
Lemma grows_log_batch now start mode' eoe t :
  sound (grows mode k s0) E (log_batch now start mode' eoe t).
Proof. unfold log_batch. grows_go. Qed.

Lemma grows_print_status args :
  sound (grows mode k s0) E (print_status_train_epoch args).
Proof. unfold print_status_train_epoch. grows_go. Qed.

Lemma grows_log_structure : sound (grows mode k s0) E log_structure.
Proof. unfold log_structure. grows_go. Qed.

Lemma grows_train_logging now1 now2 now3 x1 x2 x3 x4 seq loss lr args start step :
  k ∈ epoch_history_keys ++ batch_history_keys ->
  PrimFloat.is_nan loss = false ->
  sound (grows mode k s0) E
    (do_train_batch_logging now1 now2 now3 x1 x2 x3 x4 seq loss lr args start step).
Proof.
  intros Hk Hnan. unfold do_train_batch_logging. rewrite Hnan.
  repeat first
    [ apply grows_update; assumption
    | apply grows_log_batch
    | apply grows_print_status
    | apply grows_log_structure
    | apply grows_list_append
    | apply grows_emit
    | sound_step ].
Qed.
End Grows.

Lemma grows_run_ops mode k s0 os :
  mode ∈ split_names ->
  k ∈ epoch_history_keys \/ (k ∈ batch_history_keys /\ Forall (not_reset_of mode) os) ->
  sound (grows mode k s0) (fun _ => True) (run_ops os).
Proof.
  intros Hmode Hk. induction os as [|o os IH]; cbn [run_ops].
  - apply sound_ret.
  - apply sound_bind.
    + assert (k ∈ epoch_history_keys ++ batch_history_keys) as Hk'.
      { rewrite elem_of_app. tauto. }
      destruct o as [now mode'|mode' b|mode' n|args i]; cbn [run_op].
      * apply grows_reset; [done..|].
        destruct Hk as [Hk|[_ Hk]]; [by left|right].
        by inversion_clear Hk.
      * by apply grows_update.
      * by apply grows_finalize.
      * by apply grows_evaluate.
    + intros _. apply IH. destruct Hk as [Hk|[Hk Hos]]; [by left|right].
      split; [done|]. by inversion_clear Hos.
Qed.

Lemma grows_history mode k s0 s xs :
  grows mode k s0 s -> history s0 mode k = Some xs ->
  exists ys, history s mode k = Some (xs ++ ys).
Proof.
  intros (Hh & Hf & _). unfold history, elements_of.
  destruct (field s0 mode k) as [[| | |l|]|] eqn:Hk; try discriminate.
  intros Hl. rewrite (Hf l eq_refl). by apply Hh.
Qed.

Lemma grows_lr_history mode k s0 s xs :
  grows mode k s0 s -> lr_history s0 = Some xs ->
  exists ys, lr_history s = Some (xs ++ ys).
Proof.
  intros (Hh & _ & Hlr). unfold lr_history, elements_of.
  destruct (metrics s0 !! "history-lr") as [[| | |l|]|] eqn:Hk; try discriminate.
  intros Hl. rewrite (Hlr l eq_refl). by apply Hh.
Qed.

(** *** Running the operations on a split inside an epoch *)

Lemma run_bind {A B} (m : M A) (f : A -> M B) s :
  (m ≫= f) s = match m s with
               | (Ret a, s') => f a s'
               | (Raise e, s') => (Raise e, s')
               end.
Proof. reflexivity. Qed.

Lemma run_ret {A} (a : A) s : (mret a : M A) s = (Ret a, s).
Proof. reflexivity. Qed.

Lemma run_lift {A} (o : outcome A) s : lift o s = (o, s).
Proof. reflexivity. Qed.

Lemma getitem_at k v m h t :
  m !! k = Some v -> getitem k (Store m h t) = (Ret v, Store m h t).
Proof. intros H. unfold getitem. cbn. by rewrite H. Qed.

Lemma setitem_at k v m h t :
  setitem k v (Store m h t) = (Ret tt, Store (<[k := v]> m) h t).
Proof. reflexivity. Qed.

Lemma getitem2_at mode k v d m h t :
  d !! k = Some v ->
  getitem2 mode k (Store (<[mode := VDict d]> m) h t)
  = (Ret v, Store (<[mode := VDict d]> m) h t).
Proof.
  intros H. unfold getitem2. rewrite run_bind, (getitem_at mode (VDict d)).
  - unfold lift, subscript. by rewrite H.
  - apply lookup_insert_eq.
Qed.

Lemma setitem2_at mode k v d m h t :
  setitem2 mode k v (Store (<[mode := VDict d]> m) h t)
  = (Ret tt, Store (<[mode := VDict (<[k := v]> d)]> m) h t).
Proof.
  unfold setitem2. rewrite run_bind, (getitem_at mode (VDict d)).
  - rewrite setitem_at. by rewrite insert_insert_eq.
  - apply lookup_insert_eq.
Qed.

Lemma new_list_at xs m h t :
  new_list xs (Store m h t) = (Ret (VRef (length h)), Store m (h ++ [xs]) t).
Proof. reflexivity. Qed.

Lemma list_read_at l xs m h t :
  h !! l = Some xs -> list_read (VRef l) (Store m h t) = (Ret xs, Store m h t).
Proof. intros H. unfold list_read. cbn. by rewrite H. Qed.

Lemma list_append_at l xs x m h t :
  h !! l = Some xs ->
  list_append (VRef l) x (Store m h t) = (Ret tt, Store m (<[l := xs ++ [x]]> h) t).
Proof. intros H. unfold list_append. cbn. by rewrite H. Qed.

Lemma list_last_at l xs x m h t :
  h !! l = Some xs -> last xs = Some x ->
  list_last (VRef l) (Store m h t) = (Ret x, Store m h t).
Proof.
  intros H Hx. unfold list_last. rewrite run_bind, (list_read_at _ _ _ _ _ H).
  by rewrite Hx.
Qed.

Lemma emit_at e m h t : emit e (Store m h t) = (Ret tt, Store m h (t ++ [e])).
Proof. reflexivity. Qed.

Lemma heap_lookup_alloc (h : list (list val)) xs : (h ++ [xs]) !! length h = Some xs.
Proof. by apply list_lookup_middle. Qed.

Lemma heap_lookup_old (h : list (list val)) l xs ys :
  h !! l = Some xs -> (h ++ [ys]) !! l = Some xs.
Proof. intros H. by apply lookup_app_l_Some. Qed.

Ltac key_ne := solve [ discriminate | congruence ].

(** Looking a key up in a dictionary or a location in the heap. *)
Ltac py_lookup :=
  repeat first
    [ rewrite lookup_insert_eq
    | rewrite lookup_insert_ne by key_ne
    | rewrite list_lookup_insert_eq by (rewrite ?length_insert, ?length_app; cbn; lia)
    | rewrite list_lookup_insert_ne by (first [assumption | congruence | lia])
    | rewrite heap_lookup_alloc
    | assumption
    | reflexivity ];
  try eassumption.

(** One step of a computation on a store of the form
    [Store (<[mode := VDict d]> m) h t]. *)
Ltac py_step :=
  first
    [ rewrite run_bind
    | rewrite run_ret
    | rewrite run_lift
    | rewrite setitem2_at
    | rewrite setitem_at
    | rewrite new_list_at
    | rewrite emit_at
    | erewrite getitem2_at by py_lookup
    | erewrite getitem_at by py_lookup
    | erewrite list_append_at by py_lookup
    | erewrite list_last_at by (py_lookup || (cbn; py_lookup))
    | erewrite list_read_at by py_lookup
    | match goal with H : py_add _ _ = _ |- _ => rewrite H end
    | match goal with H : py_truediv _ _ = _ |- _ => rewrite H end
    | match goal with H : py_lt _ _ = _ |- _ => rewrite H end
    | progress cbv beta iota
    | progress cbn [py_sub py_float arith np_sqrt fmt_fixed subscript] ].

Ltac py_exec := repeat py_step.

Lemma fsum_snoc xs x : fsum (xs ++ [x]) = (fsum xs + x)%float.
Proof. unfold fsum. by rewrite fold_left_app. Qed.

Lemma py_add_running_sum xs x :
  py_add (running_sum xs) (VFloat x) = Ret (running_sum (xs ++ [x])).
Proof.
  destruct xs as [|y ys].
  - reflexivity.
  - change (running_sum (y :: ys)) with (VFloat (fsum (y :: ys))).
    change (running_sum ((y :: ys) ++ [x])) with (VFloat (fsum ((y :: ys) ++ [x]))).
    by rewrite fsum_snoc.
Qed.

Lemma supplied_snoc os o :
  supplied (os ++ [o]) = supplied os ++ (if truthy o then from_option (fun x => [x]) [] o else []).
Proof.
  unfold supplied. rewrite omap_app. f_equal. cbn.
  destruct (truthy o) eqn:Ho; [|done]. destruct o; [done|discriminate Ho].
Qed.

Lemma throughput_defined seq now last :
  defined (throughput seq now last) = true ->
  exists q, py_truediv (VInt (num_res seq)) (VFloat (now - last)%float) = Ret (VFloat q).
Proof.
  unfold throughput, py_truediv, arith.
  destruct (float_of_Z _); [|discriminate].
  destruct (float_truediv _ _); [eauto|discriminate].
Qed.

Lemma store_at m h t mode d :
  m !! mode = Some (VDict d) -> Store m h t = Store (<[mode := VDict d]> m) h t.
Proof. intros H. by rewrite insert_id. Qed.

Lemma reset_spec now mode s d :
  metrics s !! mode = Some (VDict d) ->
  exists s', reset_metrics_for_epoch now mode s = (Ret tt, s')
    /\ in_epoch s' mode [] now /\ trace s' = trace s.
Proof.
  intros Hm. destruct s as [m h t]. cbn [metrics heap trace] in *.
  rewrite (store_at m h t mode d Hm). unfold reset_metrics_for_epoch.
  destruct (String.eqb mode "train") eqn:Hmode; py_exec.
  all: eexists; split; [reflexivity|]; split; [|reflexivity].
  all: unfold in_epoch; cbn [metrics heap]; eexists _, _, _, _.
  all: rewrite lookup_insert_eq, Hmode; split; [reflexivity|].
  all: repeat split; py_lookup.
  all: try (by eexists).
  all: try (apply heap_lookup_old, heap_lookup_alloc).
  all: rewrite length_app; cbn; lia.
Qed.

Lemma field_of_split s mode d k :
  metrics s !! mode = Some (VDict d) -> field s mode k = d !! k.
Proof. intros H. unfold field, split. by rewrite H. Qed.

Lemma field_at m h t mode d k :
  field (Store (<[mode := VDict d]> m) h t) mode k = d !! k.
Proof. apply field_of_split. cbn. apply lookup_insert_eq. Qed.

Lemma update_spec mode b bs last s :
  in_epoch s mode bs last ->
  defined (throughput (b_src_seq b) (b_now1 b) last) = true ->
  (mode = "train" -> truthy (b_rmsd b) = false) ->
  exists s',
    run_op (Update mode b) s = (Ret tt, s') /\
    in_epoch s' mode (bs ++ [b]) (b_now2 b) /\
    trace s' = trace s /\
    (b_batch_level b = true ->
       field s' mode "batch-drmsd" = Some (VFloat (b_drmsd b)) /\
       field s' mode "batch-ln-drmsd" = Some (VFloat (b_ln_drmsd b)) /\
       field s' mode "batch-mse" = Some (VFloat (b_mse b)) /\
       field s' mode "batch-combined" = Some (VFloat (b_combined b))) /\
    field s' mode "batch-rmsd" =
      (if b_batch_level b && truthy (b_rmsd b) then VFloat <$> b_rmsd b
       else field s mode "batch-rmsd") /\
    (exists v, field s' mode "speed" = Some (VFloat v)) /\
    (forall k, k ∉ update_keys -> field s' mode k = field s mode k) /\
    (forall g, g <> mode -> metrics s' !! g = metrics s !! g).
Proof.
  intros (d & l1 & l2 & sh & Hm & H1 & H2 & H3 & H4 & H5 & [r0 H6] & H7 & H8 & H9
            & H10 & H11 & Hne) Hclock Htrain.
  destruct (throughput_defined _ _ _ Hclock) as [q Hq].
  pose proof (py_add_running_sum (b_drmsd <$> bs) (b_drmsd b)) as A1.
  pose proof (py_add_running_sum (b_ln_drmsd <$> bs) (b_ln_drmsd b)) as A2.
  pose proof (py_add_running_sum (b_mse <$> bs) (b_mse b)) as A3.
  pose proof (py_add_running_sum (b_combined <$> bs) (b_combined b)) as A4.
  assert (l1 < length (heap s))%nat as Hl1 by (by eapply lookup_lt_Some).
  assert (l2 < length (heap s))%nat as Hl2 by (by eapply lookup_lt_Some).
  destruct s as [m h t]. cbn [metrics heap trace] in *.
  rewrite (field_of_split (Store m h t) mode d _ Hm).
  rewrite (store_at m h t mode d Hm).
  unfold in_epoch.
  rewrite !fmap_app. cbn [fmap list_fmap]. rewrite !supplied_snoc.
  destruct b as [now1 now2 x1 x2 x3 x4 seq r tl bl].
  cbn [b_now1 b_now2 b_drmsd b_ln_drmsd b_mse b_combined b_src_seq b_rmsd
       b_tracking_loss b_batch_level run_op] in *.
  unfold update_metrics, iadd2.
  assert (truthy r = true -> String.eqb mode "train" = false) as Hmode.
  { intros Hr. destruct (String.eqb_spec mode "train") as [->|]; [|done].
    rewrite Htrain in Hr; done. }
  destruct (truthy r) eqn:Hr;
    [specialize (Hmode eq_refl); rewrite Hmode in *;
     destruct r as [r|]; [|discriminate Hr];
     pose proof (py_add_running_sum (supplied (b_rmsd <$> bs)) r) as A5
    |destruct r as [r|]];
    (destruct (truthy tl) eqn:Htl; [destruct tl as [l|]; [|discriminate Htl]|destruct tl as [l|]]);
    destruct bl; rewrite ?Hr, ?Htl; cbn [andb from_option option_fmap option_map fmap].
  all: py_exec.
  all: eexists; split; [reflexivity|].
  all: rewrite ?app_nil_r, ?fmap_app; cbn [fmap list_fmap].
  all: split;
    [eexists _, l1, l2, _; cbn [metrics heap]; rewrite lookup_insert_eq;
     split; [reflexivity|]; repeat split; py_lookup; try (by eexists)|].
  all: split; [reflexivity|].
  all: rewrite !field_at.
  all: split; [intros Hbl; try discriminate Hbl; repeat split; py_lookup|].
  all: split; [py_lookup|].
  all: split; [eexists; py_lookup|].
  all: split;
    [intros k Hk; unfold update_keys in Hk;
     rewrite !elem_of_cons, elem_of_nil in Hk; rewrite !field_at;
     rewrite ?lookup_insert_ne by (intros <-; tauto); reflexivity
    |intros g Hg; cbn [metrics]; by rewrite !lookup_insert_ne].
Qed.

Lemma trackers_step_any args i s :
  let s' := (update_loss_trackers args i s).2 in
  (best_loss_so_far s' = best_loss_so_far s /\
   epoch_last_improved s' = epoch_last_improved s) \/
  (exists l b,
     compared_loss args s = Some l /\ best_loss_so_far s = Some b /\
     py_lt l b = Ret true /\
     best_loss_so_far s' = Some l /\ epoch_last_improved s' = Some (VInt i)).
Proof.
  destruct s as [m h t].
  unfold compared_loss, compared_mode, compared_key, best_loss_so_far,
    epoch_last_improved, field, split, update_loss_trackers.
  cbn [metrics].
  set (mode := if train_only args then "train" else "valid") in *.
  set (loss_str := if combined_loss args then "combined" else "drmsd") in *.
  unfold getitem2, getitem, setitem, emit, raise, lift, subscript, mbind, M_bind, bind, mret, M_ret, ret.
  cbn [metrics heap trace with_metrics with_trace fst snd].
  repeat (case_match; simplify_eq/=; try (left; split; reflexivity)).
  all: first
    [ left; split; py_lookup; fail
    | right; eexists _, _; repeat split; py_lookup; fail ].
Qed.

(** *** Order of floats *)

Lemma cmp_mag_Lt_trans e1 m1 e2 m2 e3 m3 :
  cmp_mag e1 m1 e2 m2 = Lt -> cmp_mag e2 m2 e3 m3 = Lt -> cmp_mag e1 m1 e3 m3 = Lt.
Proof.
  unfold cmp_mag.
  destruct (Z.compare_spec e1 e2), (Z.compare_spec e2 e3); try discriminate; subst.
  - rewrite Z.compare_refl. rewrite !Pos.compare_lt_iff. lia.
  - intros _ _. destruct (Z.compare_spec e2 e3); [lia|done|lia].
  - intros _ _. destruct (Z.compare_spec e1 e3); [lia|done|lia].
  - intros _ _. destruct (Z.compare_spec e1 e3); [lia|done|lia].
Qed.

Lemma cmp_mag_Gt_trans e1 m1 e2 m2 e3 m3 :
  cmp_mag e1 m1 e2 m2 = Gt -> cmp_mag e2 m2 e3 m3 = Gt -> cmp_mag e1 m1 e3 m3 = Gt.
Proof.
  unfold cmp_mag.
  destruct (Z.compare_spec e1 e2), (Z.compare_spec e2 e3); try discriminate; subst.
  - rewrite Z.compare_refl. rewrite !Pos.compare_gt_iff. lia.
  - intros _ _. destruct (Z.compare_spec e2 e3); [lia|lia|done].
  - intros _ _. destruct (Z.compare_spec e1 e3); [lia|lia|done].
  - intros _ _. destruct (Z.compare_spec e1 e3); [lia|lia|done].
Qed.

Lemma SFcompare_finite s1 m1 e1 s2 m2 e2 :
  SFcompare (S754_finite s1 m1 e1) (S754_finite s2 m2 e2) =
  Some match s1, s2 with
       | true, false => Lt
       | false, true => Gt
       | false, false => cmp_mag e1 m1 e2 m2
       | true, true => CompOpp (cmp_mag e1 m1 e2 m2)
       end.
Proof.
  unfold cmp_mag. cbn. destruct s1, s2; try done; by destruct (Z.compare e1 e2).
Qed.

Lemma SFcompare_Lt_trans x y z :
  SFcompare x y = Some Lt -> SFcompare y z = Some Lt -> SFcompare x z = Some Lt.
Proof.
  destruct x as [sx|sx| |sx mx ex], y as [sy|sy| |sy my ey], z as [sz|sz| |sz mz ez];
    rewrite ?SFcompare_finite; cbn -[cmp_mag];
    repeat match goal with b : bool |- _ => destruct b end;
    try discriminate; try done.
  - intros [= H1] [= H2]. f_equal.
    destruct (cmp_mag ex mx ey my) eqn:E1; try discriminate.
    destruct (cmp_mag ey my ez mz) eqn:E2; try discriminate.
    by rewrite (cmp_mag_Gt_trans _ _ _ _ _ _ E1 E2).
  - intros [= H1] [= H2]. f_equal. by eapply cmp_mag_Lt_trans.
Qed.

Lemma ltb_trans x y z :
  PrimFloat.ltb x y = true -> PrimFloat.ltb y z = true -> PrimFloat.ltb x z = true.
Proof.
  rewrite !FloatAxioms.ltb_spec. unfold SFltb.
  destruct (SFcompare (Prim2SF x) (Prim2SF y)) as [[]|] eqn:E1; try discriminate.
  destruct (SFcompare (Prim2SF y) (Prim2SF z)) as [[]|] eqn:E2; try discriminate.
  by rewrite (SFcompare_Lt_trans _ _ _ E1 E2).
Qed.

Lemma eqb_not_ltb x y : PrimFloat.eqb x y = true -> PrimFloat.ltb x y = false.
Proof.
  rewrite FloatAxioms.eqb_spec, FloatAxioms.ltb_spec. unfold SFeqb, SFltb.
  by destruct (SFcompare _ _) as [[]|].
Qed.

(** *** The early-stopping evaluator *)

Lemma run_raise {A} e s : (@raise A e) s = (Raise e, s).
Proof. reflexivity. Qed.

Lemma run_ret' {A} (a : A) s : ret a s = (Ret a, s).
Proof. reflexivity. Qed.

Ltac py_run := repeat first [ rewrite run_raise | rewrite run_ret' | py_step ].

Ltac tracking_solve :=
  unfold tracking, field, split, best_loss_so_far, epoch_last_improved,
    compared_mode, compared_history;
  cbn [metrics heap trace String.append];
  repeat match goal with
         | H : train_only _ = _ |- _ => rewrite H
         | H : combined_loss _ = _ |- _ => rewrite H
         end;
  cbn [String.append];
  repeat split; py_lookup; try (by eexists).

Lemma tracking_at args best e s :
  tracking args best e s ->
  exists d m hist,
    s = Store (<[compared_mode args := VDict d]> m) (heap s) (trace s) /\
    d !! compared_history args = Some hist /\
    m !! "best_valid_loss_so_far" = Some best /\
    m !! "epoch_last_improved" = Some (VInt e).
Proof.
  intros ([hist Hh] & Hb & He). destruct s as [m h t].
  unfold field, split, best_loss_so_far, epoch_last_improved in *. cbn in *.
  destruct (m !! compared_mode args) as [[| | | |d]|] eqn:Hm; try discriminate.
  exists d, m, hist. by rewrite insert_id.
Qed.

Lemma tracking_intro args best e d m h t hist :
  d !! compared_history args = Some hist ->
  m !! "best_valid_loss_so_far" = Some best ->
  m !! "epoch_last_improved" = Some (VInt e) ->
  tracking args best e (Store (<[compared_mode args := VDict d]> m) h t).
Proof.
  intros Hh Hb He. unfold tracking, field, split, best_loss_so_far, epoch_last_improved.
  cbn. rewrite lookup_insert_eq.
  assert (compared_mode args <> "best_valid_loss_so_far"
          /\ compared_mode args <> "epoch_last_improved") as [? ?].
  { unfold compared_mode. by destruct (train_only args). }
  rewrite !lookup_insert_ne by done. by rewrite Hh.
Qed.

(** One epoch of the training loop that brings no improvement. *)
Lemma epoch_without_improvement args P e best i mean s :
  early_stopping args = Some P -> P <> 0 ->
  tracking args best e s ->
  py_lt mean best = Ret false ->
  exists s',
    (setitem2 (compared_mode args) (compared_key args) mean;;
     update_loss_trackers args i) s
    = (if Z.ltb P (i - e) then Raise EarlyStoppingCondition else Ret tt, s') /\
    tracking args best e s' /\
    trace s' = (if Z.ltb P (i - e) then trace s ++ [stop_message P] else trace s).
Proof.
  intros HP HP0 Ht Hlt.
  destruct (tracking_at _ _ _ _ Ht) as (d & m & hist & -> & Hh & Hb & He).
  cbn [heap trace]. generalize (heap s) (trace s). clear Ht s. intros h t.
  unfold update_loss_trackers. rewrite HP.
  assert (truthy_int (Some P) = true) as -> by (cbn; by destruct (Z.eqb_spec P 0)).
  assert (py_sub (VInt i) (VInt e) = Ret (VInt (i - e))) as Hsub by reflexivity.
  assert (py_lt (VInt P) (VInt (i - e)) = Ret (Z.ltb P (i - e))) as Hgap by reflexivity.
  unfold compared_mode, compared_key, compared_history, stop_message in *.
  destruct (train_only args) eqn:Hto, (combined_loss args) eqn:Hcl;
    cbn [String.append] in *.
  all: repeat first [ rewrite Hsub | rewrite Hgap | py_run ].
  all: destruct (Z.ltb P (i - e)); py_run.
  all: eexists; split; [reflexivity|]; split; [|reflexivity].
  all: tracking_solve.
Qed.

Lemma setitem2_best mode k v s :
  mode <> "best_valid_loss_so_far" ->
  best_loss_so_far (setitem2 mode k v s).2 = best_loss_so_far s.
Proof.
  intros Hne. unfold setitem2, best_loss_so_far. rewrite run_bind. unfold getitem.
  destruct (metrics s !! mode) as [[| | | |d]|]; try reflexivity.
  cbn. by rewrite lookup_insert_ne.
Qed.

Lemma setitem2_compared args mean s s' :
  setitem2 (compared_mode args) (compared_key args) mean s = (Ret tt, s') ->
  compared_loss args s' = Some mean.
Proof.
  unfold setitem2, compared_loss. rewrite run_bind. unfold getitem.
  destruct (metrics s !! compared_mode args) as [[| | | |d]|]; try discriminate.
  intros [= <-]. apply field_insert_same.
Qed.

Lemma compared_mode_not_best args : compared_mode args <> "best_valid_loss_so_far".
Proof. unfold compared_mode. by destruct (train_only args). Qed.

(** After an epoch with a float mean, the best loss is the one before or a
    strictly smaller one. *)
Lemma epoch_best args i x s b1 :
  best_loss_so_far s = Some (VFloat b1) ->
  exists b,
    best_loss_so_far
      ((setitem2 (compared_mode args) (compared_key args) (VFloat x);;
        update_loss_trackers args i) s).2 = Some (VFloat b) /\
    (b = b1 \/ PrimFloat.ltb b b1 = true).
Proof.
  intros Hb. rewrite run_bind.
  pose proof (setitem2_best (compared_mode args) (compared_key args) (VFloat x) s
                (compared_mode_not_best args)) as Hs.
  pose proof (setitem2_compared args (VFloat x) s) as Hc.
  destruct (setitem2 _ _ _ s) as [[[]|err] s1]; cbn [snd] in *.
  - destruct (trackers_step_any args i s1) as [[Hsame _]|(l & b & Hl & Hb1 & Hlt & Hnew & _)].
    + exists b1. rewrite Hsame, Hs. auto.
    + rewrite (Hc s1 eq_refl) in Hl. injection Hl as <-.
      rewrite Hs, Hb in Hb1. injection Hb1 as <-.
      injection Hlt as Hlt. exists x. auto.
  - exists b1. rewrite Hs. auto.
Qed.

Lemma train_epochs_best args means : forall i s b0 b1,
  best_loss_so_far s = Some (VFloat b1) ->
  b1 = b0 \/ PrimFloat.ltb b1 b0 = true ->
  exists b,
    best_loss_so_far (train_epochs args i (VFloat <$> means) s).2 = Some (VFloat b) /\
    (b = b0 \/ PrimFloat.ltb b b0 = true).
Proof.
  induction means as [|x means IH]; intros i s b0 b1 Hb Hle; cbn [fmap list_fmap train_epochs].
  - exists b1. auto.
  - destruct (epoch_best args i x s b1 Hb) as (b & Hb' & Hle').
    assert (b = b0 \/ PrimFloat.ltb b b0 = true) as Hle''.
    { destruct Hle' as [->|Hlt]; [done|]. right.
      destruct Hle as [->|Hlt']; [done|]. by eapply ltb_trans. }
    destruct ((setitem2 _ _ _;; update_loss_trackers args i) s) as [[[]|err] s1];
      cbn [snd] in Hb'.
    + by eapply IH.
    + destruct err; cbn [snd]; eauto.
Qed.

(** The loop runs through epochs without improvement until the patience is
    used up, and stops at the first epoch beyond it. *)
Lemma train_epochs_stops args P e best means : forall i s,
  early_stopping args = Some P -> P <> 0 ->
  tracking args best e s ->
  Forall (fun mean => py_lt mean best = Ret false) means ->
  i <= e + P + 1 < i + Z.of_nat (length means) ->
  exists s',
    train_epochs args i means s = (Ret (Some (e + P + 1)), s') /\
    tracking args best e s' /\
    trace s' = trace s ++ [stop_message P].
Proof.
  induction means as [|mean means IH]; intros i s HP HP0 Ht Hall Hi; cbn [length] in Hi.
  - lia.
  - inversion_clear Hall as [|? ? Hmean Hrest]. cbn [train_epochs].
    destruct (epoch_without_improvement args P e best i mean s HP HP0 Ht Hmean)
      as (s1 & -> & Ht1 & Htr).
    destruct (Z.ltb_spec P (i - e)).
    + assert (i = e + P + 1) as -> by lia. eauto.
    + destruct (IH (i + 1) s1 HP HP0 Ht1 Hrest) as (s' & -> & Ht' & Htr'); [lia|].
      rewrite Htr in Htr'. eauto.
Qed.

Lemma train_epochs_continues args P e best means : forall i s,
  early_stopping args = Some P -> P <> 0 ->
  tracking args best e s ->
  Forall (fun mean => py_lt mean best = Ret false) means ->
  i + Z.of_nat (length means) <= e + P + 1 ->
  exists s',
    train_epochs args i means s = (Ret None, s') /\
    tracking args best e s' /\
    trace s' = trace s.
Proof.
  induction means as [|mean means IH]; intros i s HP HP0 Ht Hall Hi; cbn [length] in Hi.
  - cbn. eauto.
  - inversion_clear Hall as [|? ? Hmean Hrest]. cbn [train_epochs].
    destruct (epoch_without_improvement args P e best i mean s HP HP0 Ht Hmean)
      as (s1 & -> & Ht1 & Htr).
    destruct (Z.ltb_spec P (i - e)); [lia|].
    destruct (IH (i + 1) s1 HP HP0 Ht1 Hrest) as (s' & -> & Ht' & Htr'); [lia|].
    rewrite Htr in Htr'. eauto.
Qed.

(** *** The end of an epoch *)

Lemma divisor_ok_inv n :
  divisor_ok n = true ->
  n <> 0 /\ exists fn, float_of_Z n = Ret fn /\ PrimFloat.eqb fn 0 = false.
Proof.
  unfold divisor_ok. intros H. split.
  - intros ->. vm_compute in H. discriminate H.
  - destruct (float_of_Z n) as [fn|]; [|discriminate H].
    exists fn. split; [done|]. by destruct (PrimFloat.eqb fn 0).
Qed.

Lemma epoch_mean_float xs n fn :
  xs <> [] -> float_of_Z n = Ret fn -> PrimFloat.eqb fn 0 = false ->
  epoch_mean xs n = Ret (VFloat (fsum xs / fn)%float).
Proof.
  intros Hxs Hn Hfn. destruct xs as [|x xs]; [done|].
  unfold epoch_mean, py_truediv, arith, float_truediv.
  change (running_sum (x :: xs)) with (VFloat (fsum (x :: xs))).
  cbv beta iota. by rewrite Hn, Hfn.
Qed.

Lemma epoch_mean_defined xs n :
  divisor_ok n = true -> exists q, epoch_mean xs n = Ret (VFloat q).
Proof.
  intros Hn. destruct (divisor_ok_inv n Hn) as (Hn0 & fn & Hfn & Hz).
  destruct xs as [|x xs].
  - unfold epoch_mean, py_truediv, arith, int_truediv. cbn [running_sum].
    destruct (Z.eqb_spec n 0) as [|_]; [done|].
    destruct n as [|p|p]; [done|..]; cbn [SF_of_Z SFdiv xorb].
    + exists 0%float. reflexivity.
    + exists (-0)%float. reflexivity.
  - eexists. by apply epoch_mean_float.
Qed.

Lemma history_at s mode k xs :
  history s mode k = Some xs ->
  exists l, field s mode k = Some (VRef l) /\ heap s !! l = Some xs.
Proof.
  unfold history, elements_of.
  destruct (field s mode k) as [[| | |l|]|]; try discriminate. eauto.
Qed.

Lemma finalize_spec mode n bs last s hc hd :
  in_epoch s mode bs last ->
  divisor_ok n = true ->
  history s mode "epoch-history-combined" = Some hc ->
  history s mode "epoch-history-drmsd" = Some hd ->
  exists s' q1 q2 q3 q4 q5,
    run_op (Finalize mode n) s = (Ret tt, s') /\
    epoch_mean (b_drmsd <$> bs) n = Ret (VFloat q1) /\
    epoch_mean (b_ln_drmsd <$> bs) n = Ret (VFloat q2) /\
    epoch_mean (b_mse <$> bs) n = Ret (VFloat q3) /\
    epoch_mean (b_combined <$> bs) n = Ret (VFloat q4) /\
    epoch_mean (supplied (b_rmsd <$> bs)) n = Ret (VFloat q5) /\
    field s' mode "epoch-drmsd" = Some (VFloat q1) /\
    field s' mode "epoch-ln-drmsd" = Some (VFloat q2) /\
    field s' mode "epoch-mse" = Some (VFloat q3) /\
    field s' mode "epoch-combined" = Some (VFloat q4) /\
    field s' mode "epoch-rmsd" =
      Some (if String.eqb mode "train" then VNone else VFloat q5) /\
    trace s' = trace s.
Proof.
  intros (d & l1 & l2 & sh & Hm & H1 & H2 & H3 & H4 & H5 & _ & _ & _ & _ & _ & _ & _)
    Hn Hc Hd.
  destruct (history_at _ _ _ _ Hc) as (lc & Hfc & Hhc).
  destruct (history_at _ _ _ _ Hd) as (ld & Hfd & Hhd).
  rewrite (field_of_split _ _ _ _ Hm) in Hfc.
  rewrite (field_of_split _ _ _ _ Hm) in Hfd.
  destruct (epoch_mean_defined (b_drmsd <$> bs) n Hn) as [q1 Q1].
  destruct (epoch_mean_defined (b_ln_drmsd <$> bs) n Hn) as [q2 Q2].
  destruct (epoch_mean_defined (b_mse <$> bs) n Hn) as [q3 Q3].
  destruct (epoch_mean_defined (b_combined <$> bs) n Hn) as [q4 Q4].
  destruct (epoch_mean_defined (supplied (b_rmsd <$> bs)) n Hn) as [q5 Q5].
  unfold epoch_mean in *.
  assert (lc < length (heap s))%nat as Hlc by (by eapply lookup_lt_Some).
  assert (ld < length (heap s))%nat as Hld by (by eapply lookup_lt_Some).
  destruct s as [m h t]. cbn [metrics heap trace run_op] in *.
  rewrite (store_at m h t mode d Hm).
  unfold update_metrics_end_of_epoch, itruediv2.
  destruct (String.eqb mode "train") eqn:Hmode;
    (destruct (decide (lc = ld)) as [<-|Hne]; [rewrite Hhc in Hhd; injection Hhd as <-|]);
    py_exec.
  all: eexists _, q1, q2, q3, q4, q5; split; [reflexivity|].
  all: rewrite !field_at; repeat split; py_lookup.
Qed.

Lemma in_epoch_views s mode bs last :
  in_epoch s mode bs last ->
  field s mode "epoch-drmsd" = Some (running_sum (b_drmsd <$> bs)) /\
  field s mode "epoch-ln-drmsd" = Some (running_sum (b_ln_drmsd <$> bs)) /\
  field s mode "epoch-mse" = Some (running_sum (b_mse <$> bs)) /\
  field s mode "epoch-combined" = Some (running_sum (b_combined <$> bs)) /\
  field s mode "epoch-rmsd" =
    Some (if String.eqb mode "train" then VNone
          else running_sum (supplied (b_rmsd <$> bs))) /\
  history s mode "batch-history" = Some (VFloat <$> supplied (b_tracking_loss <$> bs)).
Proof.
  intros (d & l1 & l2 & sh & Hm & H1 & H2 & H3 & H4 & H5 & _ & _ & _ & _ & H10 & H11 & _).
  unfold history. rewrite !(field_of_split _ _ _ _ Hm), H10. by repeat split.
Qed.

Lemma updates_spec mode bs' : forall s bs last,
  in_epoch s mode bs last ->
  clock_ok last bs' = true ->
  (mode = "train" -> Forall (fun b => truthy (b_rmsd b) = false) bs') ->
  exists s' last',
    run_ops (Update mode <$> bs') s = (Ret tt, s') /\
    in_epoch s' mode (bs ++ bs') last' /\
    trace s' = trace s.
Proof.
  induction bs' as [|b bs' IH]; intros s bs last Hin Hclock Htrain.
  - exists s, last. rewrite app_nil_r. by repeat split.
  - cbn [clock_ok] in Hclock. apply andb_prop in Hclock as [Hb Hclock].
    destruct (update_spec mode b bs last s Hin Hb) as (s1 & Hrun & Hin1 & Htr & _).
    { intros Hm. specialize (Htrain Hm). by inversion_clear Htrain. }
    destruct (IH s1 (bs ++ [b]) (b_now2 b) Hin1 Hclock) as (s' & last' & Hrun' & Hin' & Htr').
    { intros Hm. specialize (Htrain Hm). by inversion_clear Htrain. }
    exists s', last'. cbn [fmap list_fmap run_ops]. rewrite run_bind, Hrun.
    rewrite <- app_assoc in Hin'. repeat split; [done..|congruence].
Qed.

Lemma sound_snd {A} (I : store -> Prop) E (m : M A) s o s' :
  sound I E m -> I s -> m s = (o, s') -> I s'.
Proof. intros Hm Hi Heq. destruct (Hm s Hi) as [H _]. by rewrite Heq in H. Qed.

Lemma divisor_nonzero n fn :
  float_of_Z n = Ret fn -> PrimFloat.eqb fn 0 = false -> divisor_ok n = true.
Proof. intros Hn Hz. unfold divisor_ok. by rewrite Hn, Hz. Qed.

(** ** Rows of the log file *)

Lemma log_batch_row now start mode eoe t s :
  match log_batch now start mode eoe t s with
  | (Ret _, s') =>
      exists c1 c2 c3 c4 c5 c6 c9 c10,
        s' = with_trace (trace s ++
               [ECsvRow [CVal c1; CVal c2; CVal c3; CVal c4; CVal c5; CVal c6;
                         CStr mode; CStr "epoch"; CVal c9; CVal c10]]) s /\
        field s mode ((if eoe then "epoch" else "batch") +:+ "-combined") = Some c5
  | (Raise e, s') => s' = s
  end.
Proof.
  unfold log_batch, field, split.
  unfold getitem, list_last, list_read, emit, raise, lift, mbind, M_bind, bind, mret, M_ret, ret.
  destruct (metrics s !! mode) as [d|]; [|reflexivity]. cbv beta iota.
  destruct d as [| | | |d]; try reflexivity.
  cbn [subscript].
  repeat (case_match; simplify_eq/=; try reflexivity).
  all: eexists _, _, _, _, _, _, _, _; split; reflexivity.
Qed.

Ltac py_log :=
  repeat first
    [ rewrite run_raise
    | rewrite run_ret'
    | match goal with H : ?d !! ?k = _ |- context [?d !! ?k] => rewrite H end
    | match goal with H : last _ = _ |- _ => rewrite H end
    | match goal with H : fmt_fixed _ = _ |- _ => rewrite H end
    | py_step
    | progress (cbv beta iota fix delta [String.append]) ].

Lemma loggable_at args s :
  loggable args s ->
  exists d m h t x1 x2 x3 x4 rmsd time speed l_batch losses l_lr lrs lr,
    s = Store (<["train" := VDict d]> m) h t /\
    d !! "batch-drmsd" = Some (VFloat x1) /\
    d !! "batch-ln-drmsd" = Some (VFloat x2) /\
    d !! "batch-mse" = Some (VFloat x3) /\
    d !! "batch-combined" = Some (VFloat x4) /\
    d !! "batch-rmsd" = Some rmsd /\
    d !! "batch-time" = Some time /\
    d !! "speed" = Some speed /\
    d !! "batch-history" = Some (VRef l_batch) /\
    h !! l_batch = Some losses /\
    m !! "history-lr" = Some (VRef l_lr) /\
    h !! l_lr = Some lrs /\
    last lrs = Some lr /\
    (lr_scheduling args = true -> fmt_fixed lr = Ret (FVal lr)).
Proof.
  intros (d & x1 & x2 & x3 & x4 & rmsd & time & speed & l2 & losses & l & lrs & lr
            & Hm & H).
  destruct s as [m h t]. cbn [metrics heap trace] in *.
  exists d, m, h, t, x1, x2, x3, x4, rmsd, time, speed, l2, losses, l, lrs, lr.
  split; [by rewrite insert_id|exact H].
Qed.

Lemma log_batch_ok args now start s :
  loggable args s ->
  exists row,
    log_batch now start "train" false None s
    = (Ret tt, with_trace (trace s ++ [ECsvRow row]) s).
Proof.
  intros Hs.
  destruct (loggable_at args s Hs)
    as (d & m & h & t & x1 & x2 & x3 & x4 & rmsd & time & speed & l2 & losses & l & lrs & lr
          & -> & H1 & H2 & H3 & H4 & H5 & H6 & H7 & H8 & H9 & H10 & H11 & H12 & H13).
  clear Hs.
  unfold log_batch, with_trace. cbn [String.append metrics heap trace].
  py_log. eexists. reflexivity.
Qed.

Lemma print_status_ok args s :
  loggable args s ->
  exists t',
    print_status_train_epoch args s = (Ret tt, with_trace (trace s ++ t') s).
Proof.
  intros Hs.
  destruct (loggable_at args s Hs)
    as (d & m & h & t & x1 & x2 & x3 & x4 & rmsd & time & speed & l2 & losses & l & lrs & lr
          & -> & H1 & H2 & H3 & H4 & H5 & H6 & H7 & H8 & H9 & H10 & H11 & H12 & H13).
  clear Hs.
  unfold print_status_train_epoch, with_trace. cbn [metrics heap trace].
  destruct (lr_scheduling args) eqn:Hlr; [specialize (H13 eq_refl)|clear H13];
    destruct (combined_loss args), (cluster args), (Nat.ltb 32 (length losses)) eqn:Hlen;
    cbn [negb andb].
  all: try (assert (Nat.leb (length losses) 32 = true) as Hle
              by (apply Nat.leb_le; apply Nat.ltb_ge in Hlen; lia)).
  all: py_log; rewrite ?Hlen, ?Hle; py_log.
  all: try (eexists [_]; reflexivity).
  all: try (exists []; by rewrite app_nil_r).
Qed.

(** ** The NaN check of the training log *)

Lemma loggable_with_trace args t s : loggable args s -> loggable args (with_trace t s).
Proof. intros H. exact H. Qed.

Lemma last_app_is_Some {A} (xs ys : list A) : xs <> [] -> exists x, last (xs ++ ys) = Some x.
Proof.
  intros Hxs. destruct (last (xs ++ ys)) as [x|] eqn:E; [eauto|].
  apply last_None in E. destruct xs; [done|discriminate].
Qed.

(** After the update of a training batch and the optional append of the
    learning rate, the store is ready for the row and the status line. *)
Lemma loggable_after_update args bs last s b s1 :
  in_epoch s "train" bs last ->
  lr_ready args s ->
  b_batch_level b = true ->
  run_op (Update "train" b) s = (Ret tt, s1) ->
  in_epoch s1 "train" (bs ++ [b]) (b_now2 b) ->
  (field s1 "train" "batch-drmsd" = Some (VFloat (b_drmsd b)) /\
   field s1 "train" "batch-ln-drmsd" = Some (VFloat (b_ln_drmsd b)) /\
   field s1 "train" "batch-mse" = Some (VFloat (b_mse b)) /\
   field s1 "train" "batch-combined" = Some (VFloat (b_combined b))) ->
  (exists v, field s1 "train" "speed" = Some (VFloat v)) ->
  (forall g, g <> "train" -> metrics s1 !! g = metrics s !! g) ->
  exists l lrs1 v,
    metrics s1 !! "history-lr" = Some (VRef l) /\
    heap s1 !! l = Some lrs1 /\
    field s1 "train" "speed" = Some (VFloat v) /\
    (lr_scheduling args = false -> loggable args s1) /\
    (forall lr t,
       loggable args (Store (metrics s1) (<[l := lrs1 ++ [VFloat lr]]> (heap s1)) t)).
Proof.
  intros Hin (l & lrs & Hl & Hlrs & Hne) Hbl Hrun Hin1 (F1 & F2 & F3 & F4) [v Fv] Hframe.
  assert (heap_grows s s1) as Hgrow.
  { assert (grows "train" "epoch-history-drmsd" s s1) as [H _]; [|exact H].
    eapply (sound_snd _ (fun _ => True)); [|apply grows_refl|exact Hrun].
    destruct b. apply grows_update; try done;
      unfold split_names, epoch_history_keys, batch_history_keys; cbn;
      rewrite !elem_of_cons; tauto. }
  destruct (Hgrow l lrs Hlrs) as [ys Hlrs1].
  destruct Hin1 as (d & l1 & l2 & sh & Hm & _ & _ & _ & _ & _ & [r0 H6] & H7 & _ & _
                      & H10 & H11 & _).
  rewrite (field_of_split _ _ _ _ Hm) in F1. rewrite (field_of_split _ _ _ _ Hm) in F2.
  rewrite (field_of_split _ _ _ _ Hm) in F3. rewrite (field_of_split _ _ _ _ Hm) in F4.
  rewrite (field_of_split _ _ _ _ Hm) in Fv.
  assert (metrics s1 !! "history-lr" = Some (VRef l)) as Hl1 by (by rewrite Hframe).
  exists l, (lrs ++ ys), v. split; [exact Hl1|]. split; [exact Hlrs1|].
  split; [by rewrite (field_of_split _ _ _ _ Hm)|]. split.
  - intros Hlr. destruct (last_app_is_Some lrs ys (Hne Hlr)) as [x Hx].
    eexists d, (b_drmsd b), (b_ln_drmsd b), (b_mse b), (b_combined b), r0,
      (VFloat (b_now2 b)), (VFloat v), l2, _, l, (lrs ++ ys), x.
    repeat split; try done. intros Hlr'. rewrite Hlr in Hlr'. discriminate Hlr'.
  - intros lr t.
    assert (l < length (heap s1))%nat as Hlen by (by eapply lookup_lt_Some).
    assert (exists losses, <[l := (lrs ++ ys) ++ [VFloat lr]]> (heap s1) !! l2 = Some losses)
      as [losses Hlosses].
    { destruct (decide (l = l2)) as [<-|Hne'].
      - eexists. by apply list_lookup_insert_eq.
      - eexists. rewrite list_lookup_insert_ne by done. exact H11. }
    exists d, (b_drmsd b), (b_ln_drmsd b), (b_mse b), (b_combined b), r0,
      (VFloat (b_now2 b)), (VFloat v), l2, losses, l, ((lrs ++ ys) ++ [VFloat lr]), (VFloat lr).
    cbn [metrics heap]. repeat split; try done.
    + by apply list_lookup_insert_eq.
    + apply last_snoc.
Qed.

Lemma getitem_run k v s : metrics s !! k = Some v -> getitem k s = (Ret v, s).
Proof. intros H. unfold getitem. by rewrite H. Qed.

Lemma getitem2_run mode k v s : field s mode k = Some v -> getitem2 mode k s = (Ret v, s).
Proof.
  unfold field, split, getitem2. rewrite run_bind. unfold getitem.
  destruct (metrics s !! mode) as [[| | | |d]|]; try discriminate.
  intros H. unfold lift, subscript. by rewrite H.
Qed.

Lemma list_append_run l xs x s :
  heap s !! l = Some xs ->
  list_append (VRef l) x s = (Ret tt, with_heap (<[l := xs ++ [x]]> (heap s)) s).
Proof. intros H. unfold list_append. by rewrite H. Qed.

Lemma emit_run e s : emit e s = (Ret tt, with_trace (trace s ++ [e]) s).
Proof. reflexivity. Qed.

Lemma train_logging_spec args now1 now2 now3 x1 x2 x3 x4 seq loss lr start step bs last s :
  in_epoch s "train" bs last ->
  lr_ready args s ->
  defined (throughput seq now1 last) = true ->
  exists s',
    do_train_batch_logging now1 now2 now3 x1 x2 x3 x4 seq loss lr args start step s
    = (if PrimFloat.is_nan loss then Raise (SystemExit 1) else Ret tt, s') /\
    (PrimFloat.is_nan loss = true -> list.last (trace s') = Some nan_message).
Proof.
  intros Hin Hlr Hclock.
  set (b := Batch now1 now2 x1 x2 x3 x4 seq None (Some loss) true).
  destruct (update_spec "train" b bs last s Hin Hclock (fun _ => eq_refl))
    as (s1 & Hrun & Hin1 & _ & Hb & _ & Hv & _ & Hframe).
  destruct (loggable_after_update args bs last s b s1 Hin Hlr eq_refl Hrun Hin1
              (Hb eq_refl) Hv Hframe)
    as (l & lrs1 & v & Hl1 & Hlrs1 & Fv & Hlog0 & Hlog1).
  unfold do_train_batch_logging. rewrite run_bind.
  change (update_metrics now1 now2 "train" x1 x2 x3 x4 seq None (Some loss) true)
    with (run_op (Update "train" b)).
  rewrite Hrun. cbv beta iota.
  generalize (Z.eqb step 0 || Z.eqb (log_structure_step args mod step) 0).
  generalize (Z.eqb step 0 || Z.eqb (log_wandb_step args mod step) 0).
  intros c1 c2.
  destruct c1, (lr_scheduling args) eqn:Hsched.
  all: repeat first
    [ rewrite run_bind
    | rewrite run_ret'
    | rewrite emit_run
    | erewrite (getitem2_run "train" "speed") by exact Fv
    | erewrite (getitem_run "history-lr") by exact Hl1
    | erewrite list_append_run by exact Hlrs1
    | progress cbv beta iota ].
  all: match goal with
       | |- context [log_batch _ _ _ _ _ ?s2] =>
           assert (Hlog : loggable args s2)
             by (first [ exact (Hlog0 eq_refl) | apply Hlog1 ]);
           destruct (log_batch_ok args now3 start s2 Hlog) as [row Hrow];
           rewrite Hrow; cbv beta iota; rewrite run_bind;
           destruct (print_status_ok args _
                       (loggable_with_trace args (trace s2 ++ [ECsvRow row]) s2 Hlog))
             as [t' Ht'];
           rewrite Ht'; cbv beta iota
       end.
  all: destruct (PrimFloat.is_nan loss), c2.
  all: repeat first
    [ rewrite run_bind
    | rewrite run_ret'
    | rewrite run_raise
    | rewrite emit_run
    | progress unfold log_structure
    | progress cbv beta iota ].
  all: eexists; split; [reflexivity|].
  all: first [ discriminate | intros _; cbn [trace with_trace]; apply last_snoc ].
Qed.

(** ** The epoch sums and means *)

(** C2 (as amended): after [reset_metrics_for_epoch] and any sequence of
    calls of [update_metrics] on a split, each epoch running sum is the
    per-call values added one after the other in binary64 arithmetic,
    starting from 0; [update_metrics_end_of_epoch] with the number of calls
    as [n_batches] then stores that sum divided by [n_batches], and [None]
    for [rmsd] on the training split. *)
Theorem epoch_sums_and_means mode now bs s hc hd :
  mode ∈ split_names ->
  history s mode "epoch-history-combined" = Some hc ->
  history s mode "epoch-history-drmsd" = Some hd ->
  clock_ok now bs = true ->
  (mode = "train" -> Forall (fun b => truthy (b_rmsd b) = false) bs) ->
  exists s1,
    run_ops (Reset now mode :: (Update mode <$> bs)) s = (Ret tt, s1) /\
    field s1 mode "epoch-drmsd" = Some (running_sum (b_drmsd <$> bs)) /\
    field s1 mode "epoch-ln-drmsd" = Some (running_sum (b_ln_drmsd <$> bs)) /\
    field s1 mode "epoch-mse" = Some (running_sum (b_mse <$> bs)) /\
    field s1 mode "epoch-combined" = Some (running_sum (b_combined <$> bs)) /\
    field s1 mode "epoch-rmsd" =
      Some (if String.eqb mode "train" then VNone
            else running_sum (supplied (b_rmsd <$> bs))) /\
    forall fn,
      float_of_Z (Z.of_nat (length bs)) = Ret fn ->
      PrimFloat.eqb fn 0 = false ->
      exists s2 q,
        run_op (Finalize mode (Z.of_nat (length bs))) s1 = (Ret tt, s2) /\
        field s2 mode "epoch-drmsd" = Some (VFloat (fsum (b_drmsd <$> bs) / fn)) /\
        field s2 mode "epoch-ln-drmsd" = Some (VFloat (fsum (b_ln_drmsd <$> bs) / fn)) /\
        field s2 mode "epoch-mse" = Some (VFloat (fsum (b_mse <$> bs) / fn)) /\
        field s2 mode "epoch-combined" = Some (VFloat (fsum (b_combined <$> bs) / fn)) /\
        epoch_mean (supplied (b_rmsd <$> bs)) (Z.of_nat (length bs)) = Ret (VFloat q) /\
        field s2 mode "epoch-rmsd" =
          Some (if String.eqb mode "train" then VNone else VFloat q).
Proof.
  intros Hmode Hc Hd Hclock Htrain.
  destruct (history_at _ _ _ _ Hc) as (lc & Hfc & _).
  assert (exists d, metrics s !! mode = Some (VDict d)) as [d Hm].
  { unfold field, split in Hfc. destruct (metrics s !! mode) as [[| | | |d]|]; try done. eauto. }
  destruct (reset_spec now mode s d Hm) as (s0 & Hreset & Hin0 & _).
  destruct (updates_spec mode bs s0 [] now Hin0 Hclock Htrain)
    as (s1 & last & Hrun & Hin1 & _).
  rewrite app_nil_l in Hin1.
  assert (run_ops (Reset now mode :: (Update mode <$> bs)) s = (Ret tt, s1)) as Hall.
  { cbn [run_ops run_op]. by rewrite run_bind, Hreset. }
  exists s1. split; [exact Hall|].
  destruct (in_epoch_views _ _ _ _ Hin1) as (V1 & V2 & V3 & V4 & V5 & _).
  repeat (split; [assumption|]).
  intros fn Hfn Hz.
  pose proof (divisor_nonzero _ _ Hfn Hz) as Hn.
  assert (bs <> []) as Hbs.
  { intros ->. vm_compute in Hfn. injection Hfn as <-. vm_compute in Hz. discriminate Hz. }
  assert (forall k, k ∈ epoch_history_keys -> forall xs, history s mode k = Some xs ->
            exists ys, history s1 mode k = Some (xs ++ ys)) as Hgrow.
  { intros k Hk xs Hxs. eapply grows_history; [|exact Hxs].
    eapply (sound_snd _ (fun _ => True)); [|apply grows_refl|exact Hall].
    apply grows_run_ops; auto. }
  destruct (Hgrow "epoch-history-combined") with (xs := hc) as [yc Hc1];
    [unfold epoch_history_keys; rewrite !elem_of_cons; tauto|done|].
  destruct (Hgrow "epoch-history-drmsd") with (xs := hd) as [yd Hd1];
    [unfold epoch_history_keys; rewrite !elem_of_cons; tauto|done|].
  destruct (finalize_spec mode _ bs last s1 _ _ Hin1 Hn Hc1 Hd1)
    as (s2 & q1 & q2 & q3 & q4 & q5 & Hfin & Q1 & Q2 & Q3 & Q4 & Q5 & F1 & F2 & F3 & F4 & F5 & _).
  assert (forall f : batch -> float, f <$> bs <> []) as Hne.
  { intros f. destruct bs; [done|discriminate]. }
  rewrite (epoch_mean_float _ _ fn (Hne _) Hfn Hz) in Q1.
  rewrite (epoch_mean_float _ _ fn (Hne _) Hfn Hz) in Q2.
  rewrite (epoch_mean_float _ _ fn (Hne _) Hfn Hz) in Q3.
  rewrite (epoch_mean_float _ _ fn (Hne _) Hfn Hz) in Q4.
  injection Q1 as <-. injection Q2 as <-. injection Q3 as <-. injection Q4 as <-.
  exists s2, q5. by repeat split.
Qed.

Lemma epoch_sums_and_means_witness :
  exists s1 s2,
    run_ops (Reset 0 "valid" :: (Update "valid" <$>
               [eval_batch 1 1; eval_batch 3 2; eval_batch 5 3; eval_batch 7 4]))
      (started (options false None)) = (Ret tt, s1) /\
    run_op (Finalize "valid" 4) s1 = (Ret tt, s2) /\
    field s2 "valid" "epoch-drmsd" = Some (VFloat 2.5).
Proof.
  destruct (epoch_sums_and_means "valid" 0
              [eval_batch 1 1; eval_batch 3 2; eval_batch 5 3; eval_batch 7 4]
              (started (options false None)) [] [])
    as (s1 & Hrun & _ & _ & _ & _ & _ & Hfin).
  - unfold split_names. rewrite !elem_of_cons. tauto.
  - vm_compute. reflexivity.
  - vm_compute. reflexivity.
  - vm_compute. reflexivity.
  - intros H. discriminate H.
  - destruct (Hfin 4%float) as (s2 & q & Hrun2 & Hd & _); [vm_compute; reflexivity..|].
    exists s1, s2. split; [exact Hrun|]. split; [exact Hrun2|]. exact Hd.
Defined.

(** The sum that is stored deviates from the sum of the per-call values
    as real numbers: 1e16 + 1 rounds to 1e16. *)
Lemma epoch_sum_is_rounded :
  exists s1 r,
    run_ops (Reset 0 "valid" :: (Update "valid" <$>
               [eval_batch 1 1e16; eval_batch 3 1; eval_batch 5 (-1e16)]))
      (started (options false None)) = (Ret tt, s1) /\
    field s1 "valid" "epoch-drmsd" = Some (VFloat r) /\
    same_number (exact_value r) (exact_sum [1e16; 1; -1e16]%float) = false.
Proof. eexists _, _. split; [|split]; vm_compute; reflexivity. Qed.



(** C9: a call of [update_metrics] that is given an [rmsd] equal to zero
    leaves the batch-level [rmsd] and the epoch-level [rmsd] running sum as
    they were, and a call that is given a [tracking_loss] equal to zero
    appends nothing to the batch loss history. *)
Theorem zero_metrics_are_absent mode b bs last s :
  in_epoch s mode bs last ->
  defined (throughput (b_src_seq b) (b_now1 b) last) = true ->
  (mode = "train" -> truthy (b_rmsd b) = false) ->
  exists s',
    run_op (Update mode b) s = (Ret tt, s') /\
    (forall r, b_rmsd b = Some r -> PrimFloat.eqb r 0 = true ->
       field s' mode "batch-rmsd" = field s mode "batch-rmsd" /\
       field s' mode "epoch-rmsd" = field s mode "epoch-rmsd") /\
    (forall l, b_tracking_loss b = Some l -> PrimFloat.eqb l 0 = true ->
       history s' mode "batch-history" = history s mode "batch-history").
Proof.
  intros Hin Hclock Htrain.
  destruct (update_spec mode b bs last s Hin Hclock Htrain)
    as (s' & Hrun & Hin' & _ & _ & Hbr & _).
  destruct (in_epoch_views _ _ _ _ Hin) as (_ & _ & _ & _ & V5 & V6).
  destruct (in_epoch_views _ _ _ _ Hin') as (_ & _ & _ & _ & V5' & V6').
  exists s'. split; [exact Hrun|]. split.
  - intros r Hr Hz. rewrite Hr in Hbr. cbn [truthy] in Hbr. rewrite Hz in Hbr.
    rewrite andb_false_r in Hbr. split; [exact Hbr|].
    rewrite V5, V5', fmap_app. cbn [fmap list_fmap]. rewrite supplied_snoc.
    rewrite Hr. cbn [truthy]. rewrite Hz. cbn [negb]. by rewrite app_nil_r.
  - intros l Hl Hz. rewrite V6, V6', (fmap_app b_tracking_loss).
    cbn [fmap list_fmap]. rewrite supplied_snoc.
    rewrite Hl. cbn [truthy]. rewrite Hz. cbn [negb]. by rewrite app_nil_r.
Qed.

Lemma zero_metrics_are_absent_witness :
  exists s0 s',
    reset_metrics_for_epoch 0 "valid" (started (options false None)) = (Ret tt, s0) /\
    run_op (Update "valid"
              (Batch 1 2 3 3 3 3 [[1]] (Some 0%float) (Some 0%float) true)) s0 = (Ret tt, s') /\
    field s' "valid" "batch-rmsd" = Some (VInt 0) /\
    field s' "valid" "epoch-rmsd" = Some (VInt 0) /\
    history s' "valid" "batch-history" = Some [].
Proof.
  destruct (reset_spec 0 "valid" (started (options false None))
              (<["epoch-history-drmsd" := VRef 2]> (<["epoch-history-combined" := VRef 3]> ∅)))
    as (s0 & Hreset & Hin & _); [vm_compute; reflexivity|].
  destruct (zero_metrics_are_absent "valid"
              (Batch 1 2 3 3 3 3 [[1]] (Some 0%float) (Some 0%float) true) [] 0 s0 Hin)
    as (s' & Hrun & Hr & Hl); [vm_compute; reflexivity|discriminate|].
  destruct (Hr 0%float eq_refl eq_refl) as [Hb He].
  specialize (Hl 0%float eq_refl eq_refl).
  assert (s0 = (reset_metrics_for_epoch 0 "valid" (started (options false None))).2) as Hs0
    by (by rewrite Hreset).
  exists s0, s'. split; [exact Hreset|]. split; [exact Hrun|].
  rewrite Hb, He, Hl, Hs0. repeat split; vm_compute; reflexivity.
Defined.

(** ** Early stopping *)

(** C1: with patience [P], when the compared epoch mean does not improve
    for [P + 1] consecutive epochs after the last improvement at epoch
    [e], the evaluator raises [EarlyStoppingCondition] at epoch [e + P + 1]
    and at no epoch before it; and with the combined losses 5, 4, 4, 4, 4
    and patience 2, the loss improves at epoch 2 and the evaluator raises at
    epoch 5, not earlier. *)
Theorem patience_exhausted :
  (forall args P e best means s,
     early_stopping args = Some P -> 0 < P ->
     tracking args best e s ->
     length means = Z.to_nat (P + 1) ->
     Forall (fun mean => py_lt mean best = Ret false) means ->
     (exists s',
        train_epochs args (e + 1) means s = (Ret (Some (e + P + 1)), s') /\
        trace s' = trace s ++ [stop_message P]) /\
     (forall k, (k <= Z.to_nat P)%nat ->
        exists s',
          train_epochs args (e + 1) (take k means) s = (Ret None, s') /\
          tracking args best e s' /\ trace s' = trace s)) /\
  (let args := options true (Some 2) in
   let epochs := [valid_epoch args 1 5; valid_epoch args 2 4; valid_epoch args 3 4;
                  valid_epoch args 4 4; valid_epoch args 5 4] in
   (exists s,
      run_ops (concat (take 2 epochs)) (started args) = (Ret tt, s) /\
      best_loss_so_far s = Some (VFloat 4) /\
      epoch_last_improved s = Some (VInt 2)) /\
   (exists s,
      run_ops (concat (take 4 epochs)) (started args) = (Ret tt, s) /\
      epoch_last_improved s = Some (VInt 2) /\ trace s = []) /\
   (exists s,
      run_ops (concat epochs) (started args) = (Raise EarlyStoppingCondition, s) /\
      trace s = [stop_message 2])).
Proof.
  split.
  - intros args P e best means s HP Hpos Ht Hlen Hall. split.
    + destruct (train_epochs_stops args P e best means (e + 1) s HP) as (s' & Hrun & _ & Htr);
        [lia|done|done|lia|eauto].
    + intros k Hk.
      destruct (train_epochs_continues args P e best (take k means) (e + 1) s HP)
        as (s' & Hrun & Ht' & Htr); [lia|done|by apply Forall_take| |eauto].
      rewrite length_take. lia.
  - cbv zeta. split; [|split]; eexists; (split; [vm_compute; reflexivity|]);
      try split; vm_compute; reflexivity.
Qed.

Lemma patience_exhausted_witness :
  exists s,
    train_epochs (options true (Some 2)) 3 [VFloat 4; VFloat 4; VFloat 4]
      (run_ops (valid_epoch (options true (Some 2)) 1 5
                ++ valid_epoch (options true (Some 2)) 2 4)
         (started (options true (Some 2)))).2
    = (Ret (Some 5), s).
Proof.
  destruct (proj1 patience_exhausted (options true (Some 2)) 2 2 (VFloat 4)
              [VFloat 4; VFloat 4; VFloat 4]
              (run_ops (valid_epoch (options true (Some 2)) 1 5
                        ++ valid_epoch (options true (Some 2)) 2 4)
                 (started (options true (Some 2)))).2)
    as [(s & Hrun & _) _].
  - reflexivity.
  - lia.
  - unfold tracking. repeat split; vm_compute; [by eexists|reflexivity..].
  - reflexivity.
  - repeat constructor.
  - exists s. exact Hrun.
Defined.

(** C3: an early-stopping evaluation leaves both trackers as they were
    unless the compared epoch mean is strictly less than the best loss so
    far, in which case the mean becomes the best loss; a mean equal to the
    best loss changes neither tracker; and over any number of epochs the
    best loss is the initial one or a strictly smaller one. *)
Theorem best_loss_only_decreases :
  (forall args i s,
     let s' := (update_loss_trackers args i s).2 in
     (best_loss_so_far s' = best_loss_so_far s /\
      epoch_last_improved s' = epoch_last_improved s) \/
     (exists l b,
        compared_loss args s = Some l /\ best_loss_so_far s = Some b /\
        py_lt l b = Ret true /\
        best_loss_so_far s' = Some l /\ epoch_last_improved s' = Some (VInt i))) /\
  (forall args i s l b,
     compared_loss args s = Some (VFloat l) ->
     best_loss_so_far s = Some (VFloat b) ->
     PrimFloat.eqb l b = true ->
     let s' := (update_loss_trackers args i s).2 in
     best_loss_so_far s' = best_loss_so_far s /\
     epoch_last_improved s' = epoch_last_improved s) /\
  (forall args i means s b0,
     best_loss_so_far s = Some (VFloat b0) ->
     exists b,
       best_loss_so_far (train_epochs args i (VFloat <$> means) s).2 = Some (VFloat b) /\
       (b = b0 \/ PrimFloat.ltb b b0 = true)).
Proof.
  split; [exact trackers_step_any|]. split.
  - intros args i s l b Hl Hb Heq s'.
    destruct (trackers_step_any args i s) as [H|(l' & b' & Hl' & Hb' & Hlt & _)]; [exact H|].
    rewrite Hl in Hl'. rewrite Hb in Hb'. injection Hl' as <-. injection Hb' as <-.
    cbn in Hlt. rewrite (eqb_not_ltb _ _ Heq) in Hlt. discriminate Hlt.
  - intros args i means s b0 Hb. eapply train_epochs_best; [exact Hb|by left].
Qed.

Lemma best_loss_only_decreases_witness :
  exists b,
    best_loss_so_far
      (train_epochs (options true (Some 2)) 1 (VFloat <$> [5; 4; 4; 6]%float)
         (started (options true (Some 2)))).2 = Some (VFloat b) /\
    (b = infinity \/ PrimFloat.ltb b infinity = true).
Proof.
  apply (proj2 (proj2 best_loss_only_decreases)). reflexivity.
Defined.

(** ** History lists *)

(** C6 (as amended): no operation removes or replaces an element of the
    epoch histories of a split or of the learning-rate history, and none
    but [reset_metrics_for_epoch] on that split does so for its batch loss
    history and its speed history. *)
Theorem histories_append_only os s :
  (forall mode k xs,
     mode ∈ split_names ->
     k ∈ epoch_history_keys \/ (k ∈ batch_history_keys /\ Forall (not_reset_of mode) os) ->
     history s mode k = Some xs ->
     exists ys, history (run_ops os s).2 mode k = Some (xs ++ ys)) /\
  (forall xs,
     lr_history s = Some xs ->
     exists ys, lr_history (run_ops os s).2 = Some (xs ++ ys)).
Proof.
  split.
  - intros mode k xs Hmode Hk Hxs. eapply grows_history; [|exact Hxs].
    destruct (grows_run_ops mode k s os Hmode Hk s (grows_refl mode k s)) as [H _].
    exact H.
  - intros xs Hxs. eapply (grows_lr_history "train" "epoch-history-drmsd"); [|exact Hxs].
    destruct (grows_run_ops "train" "epoch-history-drmsd" s os) with (s := s) as [H _].
    + unfold split_names. rewrite !elem_of_cons. tauto.
    + left. unfold epoch_history_keys. rewrite !elem_of_cons. tauto.
    + apply grows_refl.
    + exact H.
Qed.

Lemma histories_append_only_witness :
  exists ys,
    history (run_ops (valid_epoch (options true (Some 2)) 2 4)
               (run_ops (valid_epoch (options true (Some 2)) 1 5)
                  (started (options true (Some 2)))).2).2
      "valid" "epoch-history-combined" = Some ([VFloat 5] ++ ys).
Proof.
  apply (proj1 (histories_append_only _ _)).
  - unfold split_names. rewrite !elem_of_cons. tauto.
  - left. unfold epoch_history_keys. rewrite !elem_of_cons. tauto.
  - vm_compute. reflexivity.
Defined.

(** [reset_metrics_for_epoch] drops the elements of the batch loss history. *)
Lemma reset_clears_batch_history :
  let s := (run_ops [Reset 0 "train"; Update "train" (train_batch 1 3)]
              (started (options false None))).2 in
  history s "train" "batch-history" = Some [VFloat 3] /\
  history (run_ops [Reset 9 "train"] s).2 "train" "batch-history" = Some [] /\
  ~ (forall os s mode k xs,
       mode ∈ split_names ->
       k ∈ epoch_history_keys ++ batch_history_keys ->
       history s mode k = Some xs ->
       exists ys, history (run_ops os s).2 mode k = Some (xs ++ ys)).
Proof.
  cbv zeta. split; [vm_compute; reflexivity|]. split; [vm_compute; reflexivity|].
  intros H.
  destruct (H [Reset 9 "train"]
              (run_ops [Reset 0 "train"; Update "train" (train_batch 1 3)]
                 (started (options false None))).2
              "train" "batch-history" [VFloat 3]) as [ys Hys].
  - unfold split_names. rewrite !elem_of_cons. tauto.
  - unfold epoch_history_keys, batch_history_keys. cbn. rewrite !elem_of_cons. tauto.
  - vm_compute. reflexivity.
  - vm_compute in Hys. discriminate Hys.
Qed.

(** C5. A NaN loss makes [do_train_batch_logging] print its message and
    exit with status 1: in a training epoch that is under way (the split
    was reset, the learning-rate history can be read, and the batch took a
    measurable time), the call raises [SystemExit 1], the message being the
    last thing it emits.  For a loss that is not NaN the call never exits,
    in whatever store it runs, and in a training epoch it returns. *)
Theorem nan_loss_exits args now1 now2 now3 x1 x2 x3 x4 seq loss lr start step :
  (forall s c,
     PrimFloat.is_nan loss = false ->
     (do_train_batch_logging now1 now2 now3 x1 x2 x3 x4 seq loss lr args start step s).1
     <> Raise (SystemExit c)) /\
  (forall bs last s,
     in_epoch s "train" bs last ->
     lr_ready args s ->
     defined (throughput seq now1 last) = true ->
     exists s',
       do_train_batch_logging now1 now2 now3 x1 x2 x3 x4 seq loss lr args start step s
       = (if PrimFloat.is_nan loss then Raise (SystemExit 1) else Ret tt, s') /\
       (PrimFloat.is_nan loss = true -> list.last (trace s') = Some nan_message)).
Proof.
  split.
  - intros s c Hnan Hexit.
    assert (Hk : "batch-history" ∈ epoch_history_keys ++ batch_history_keys)
      by (unfold epoch_history_keys, batch_history_keys; cbn [app];
          rewrite !elem_of_cons; tauto).
    destruct (grows_train_logging "train" "batch-history" s lookup_error
                (fun e H => H) now1 now2 now3 x1 x2 x3 x4 seq loss lr args
                start step Hk Hnan s (grows_refl _ _ _)) as [_ Hraise].
    exact (Hraise _ Hexit).
  - intros bs last s. apply train_logging_spec.
Qed.

Lemma nan_loss_exits_witness :
  let s := (run_op (Reset 0 "train") (started (options true None))).2 in
  (exists s',
     do_train_batch_logging 1 2 3 1 1 1 1 [[1; 0]; [2; 3]] PrimFloat.nan 0 (options true None) 0 1 s
     = (Raise (SystemExit 1), s') /\
     list.last (trace s') = Some nan_message) /\
  (exists s',
     do_train_batch_logging 1 2 3 1 1 1 1 [[1; 0]; [2; 3]] 4 0 (options true None) 0 1 s
     = (Ret tt, s')).
Proof.
  intros s.
  assert (Hin : in_epoch s "train" [] 0).
  { unfold in_epoch. eexists _, _, _, _.
    repeat match goal with |- _ /\ _ => split end.
    all: vm_compute; first [ reflexivity | by eexists | discriminate ]. }
  assert (Hlr : lr_ready (options true None) s).
  { unfold lr_ready. eexists _, _.
    repeat match goal with |- _ /\ _ => split end.
    all: first [ vm_compute; reflexivity | discriminate ]. }
  split.
  - destruct (proj2 (nan_loss_exits (options true None) 1 2 3 1 1 1 1 [[1; 0]; [2; 3]]
                       PrimFloat.nan 0 0 1) [] 0%float s Hin Hlr)
      as (s' & Hrun & Hlast); [vm_compute; reflexivity|].
    exists s'. split; [exact Hrun|]. apply Hlast. vm_compute. reflexivity.
  - destruct (proj2 (nan_loss_exits (options true None) 1 2 3 1 1 1 1 [[1; 0]; [2; 3]]
                       4 0 0 1) [] 0%float s Hin Hlr)
      as (s' & Hrun & _); [vm_compute; reflexivity|].
    exists s'. exact Hrun.
Defined.

(** ** The rows of the log file and its header *)

Lemma rows_written_snoc t row :
  rows_written (t ++ [ECsvRow row]) = rows_written t ++ [row].
Proof. unfold rows_written. by rewrite omap_app. Qed.

(** C10. Every row that [log_batch] writes has the string "epoch" in the
    granularity column, whether [end_of_epoch] is set or not: a call that
    returns has appended exactly one row to the rows written so far, and
    the eighth cell of that row is "epoch". *)
Theorem granularity_is_epoch now start mode end_of_epoch t s s' :
  log_batch now start mode end_of_epoch t s = (Ret tt, s') ->
  exists row,
    rows_written (trace s') = rows_written (trace s) ++ [row] /\
    granularity row = Some (CStr "epoch").
Proof.
  intros Hrun. pose proof (log_batch_row now start mode end_of_epoch t s) as H.
  rewrite Hrun in H. destruct H as (c1 & c2 & c3 & c4 & c5 & c6 & c9 & c10 & -> & _).
  eexists. split; [apply rows_written_snoc|reflexivity].
Qed.

Lemma granularity_is_epoch_witness :
  let s := (run_ops [Reset 0 "valid"; Update "valid" (eval_batch 1 2); Finalize "valid" 1]
              (started (options false None))).2 in
  (exists row,
     rows_written (trace (log_batch 5 0 "valid" true None s).2)
     = rows_written (trace s) ++ [row] /\
     granularity row = Some (CStr "epoch")) /\
  (exists row,
     rows_written (trace (log_batch 5 0 "valid" false None s).2)
     = rows_written (trace s) ++ [row] /\
     granularity row = Some (CStr "epoch")).
Proof.
  intros s. split.
  - apply (granularity_is_epoch 5 0 "valid" true None s). vm_compute. reflexivity.
  - apply (granularity_is_epoch 5 0 "valid" false None s). vm_compute. reflexivity.
Defined.

(** A call of [log_batch] that returns has written one row of ten cells,
    read from the fields of the split in the order of the source. *)
Lemma log_batch_cells now start mode eoe t s s' :
  log_batch now start mode eoe t s = (Ret tt, s') ->
  let be := if eoe then "epoch" else "batch" in
  exists c1 c2 mse c3 c4 c5 lrs c6 c9 c10,
    s' = with_trace (trace s ++
           [ECsvRow [CVal c1; CVal c2; CVal c3; CVal c4; CVal c5; CVal c6;
                     CStr mode; CStr "epoch"; CVal c9; CVal c10]]) s /\
    field s mode (be +:+ "-drmsd") = Some c1 /\
    field s mode (be +:+ "-ln-drmsd") = Some c2 /\
    field s mode (be +:+ "-mse") = Some mse /\
    np_sqrt mse = Ret c3 /\
    field s mode (be +:+ "-rmsd") = Some c4 /\
    field s mode (be +:+ "-combined") = Some c5 /\
    lr_history s = Some lrs /\
    last lrs = Some c6 /\
    field s mode "speed" = Some c10.
Proof.
  unfold log_batch, field, split, lr_history, elements_of.
  unfold getitem, list_last, list_read, emit, raise, lift, mbind, M_bind, bind, mret, M_ret, ret.
  destruct (metrics s !! mode) as [d|]; [|discriminate]. cbv beta iota.
  destruct d as [| | | |d]; try discriminate.
  cbn [subscript].
  repeat (case_match; simplify_eq/=; try discriminate).
  all: intros [= <-]; eexists _, _, _, _, _, _, _, _, _, _.
  all: repeat match goal with |- _ /\ _ => split end; try reflexivity; try eassumption.
Qed.

(** C4. A row of the log file has the ten cells drmsd, ln_drmsd, rmse,
    rmsd, combined, lr, mode, granularity, time, speed in this order
    whatever the arguments of the run are: the fifth cell is the combined
    loss of the split also when [combined_loss] is off.  The header has the
    column [combined] only when [combined_loss] is on, so without it the
    header names nine columns and every row has ten cells, the combined
    loss standing under [lr]. *)
Theorem row_keeps_combined_cell args now start mode end_of_epoch t s s' :
  log_batch now start mode end_of_epoch t s = (Ret tt, s') ->
  exists row c,
    rows_written (trace s') = rows_written (trace s) ++ [row] /\
    length row = 10%nat /\
    row !! 4%nat = Some (CVal c) /\
    field s mode ((if end_of_epoch then "epoch" else "batch") +:+ "-combined") = Some c /\
    row !! 6%nat = Some (CStr mode) /\
    granularity row = Some (CStr "epoch") /\
    header_columns args =
      (if combined_loss args
       then ["drmsd"; "ln_drmsd"; "rmse"; "rmsd"; "combined"; "lr"; "mode";
             "granularity"; "time"; "speed"]
       else ["drmsd"; "ln_drmsd"; "rmse"; "rmsd"; "lr"; "mode";
             "granularity"; "time"; "speed"]).
Proof.
  intros Hrun.
  destruct (log_batch_cells now start mode end_of_epoch t s s' Hrun)
    as (c1 & c2 & mse & c3 & c4 & c5 & lrs & c6 & c9 & c10 & -> & _ & _ & _ & _ & _ & H5 & _).
  eexists _, c5. cbn [trace with_trace]. rewrite rows_written_snoc.
  repeat match goal with |- _ /\ _ => split end; try reflexivity; try exact H5.
  destruct args as [? [] ? ? ? ? ?]; vm_compute; reflexivity.
Qed.

Lemma row_keeps_combined_cell_witness :
  let args := options false None in
  let s := (run_ops [Reset 0 "train"; Update "train" (Batch 1 2 1 2 4 8 [[1]] None (Some 8%float) true)]
              (started args)).2 in
  exists row,
    rows_written (trace (log_batch 3 0 "train" false None s).2) = [row] /\
    length row = 10%nat /\
    row !! 4%nat = Some (CVal (VFloat 8)) /\
    length (header_columns args) = 9%nat /\
    header_columns args !! 4%nat = Some "lr".
Proof.
  intros args s.
  destruct (row_keeps_combined_cell args 3 0 "train" false None s
              (log_batch 3 0 "train" false None s).2)
    as (row & c & Hrows & Hlen & Hc & Hf & _ & _ & Hh).
  - vm_compute. reflexivity.
  - exists row. vm_compute in Hf. injection Hf as <-.
    split; [exact Hrows|]. split; [exact Hlen|]. split; [exact Hc|].
    rewrite Hh. split; reflexivity.
Defined.

(** ** plot.py: the file name of a title *)






(** * Further properties *)

Import Effects EvalLog PlotMain.

(** ** What the functions of log.py read and leave alone *)

(** [log_batch] only reads the metrics: whatever the store is, the
    dictionary and the list objects are the same afterwards; a call that
    returns has written one row, a call that raises has written nothing. *)
Theorem log_batch_reads_only now start mode end_of_epoch t s :
  let r := log_batch now start mode end_of_epoch t s in
  metrics r.2 = metrics s /\
  heap r.2 = heap s /\
  match r.1 with
  | Ret _ => exists row, trace r.2 = trace s ++ [ECsvRow row]
  | Raise _ => trace r.2 = trace s
  end.
Proof.
  cbv zeta. pose proof (log_batch_row now start mode end_of_epoch t s) as H.
  destruct (log_batch now start mode end_of_epoch t s) as [[[]|e] s'].
  - destruct H as (c1 & c2 & c3 & c4 & c5 & c6 & c9 & c10 & -> & _).
    cbn. repeat split. by eexists.
  - subst s'. cbn. done.
Qed.

(** The time cell of a row is [round(t - start_time, 4)], where a [t] that
    is absent or zero is replaced by the clock: an explicit time stamp of
    [0.0] is not written, the call behaves as if no [t] was given. *)
Theorem log_batch_time_cell now start mode end_of_epoch t s s' :
  log_batch now start mode end_of_epoch t s = (Ret tt, s') ->
  let t' := match t with
            | Some x => if PrimFloat.eqb x 0 then now else x
            | None => now
            end in
  exists row,
    rows_written (trace s') = rows_written (trace s) ++ [row] /\
    row !! 8%nat = Some (CVal (VFloat (py_round (t' - start) 4))).
Proof.
  unfold log_batch.
  unfold getitem, list_last, list_read, emit, raise, lift, mbind, M_bind, bind, mret, M_ret, ret.
  destruct (metrics s !! mode) as [d|]; [|discriminate]. cbv beta iota.
  destruct d as [| | | |d]; try discriminate.
  cbn [subscript].
  repeat (case_match; simplify_eq/=; try discriminate).
  all: intros [= <-]; eexists; cbn [trace with_trace]; rewrite rows_written_snoc.
  all: split; [reflexivity|]; cbn; try reflexivity.
  all: repeat match goal with H : negb _ = _ |- _ => apply negb_true_iff in H || apply negb_false_iff in H end.
  all: by repeat match goal with H : PrimFloat.eqb _ _ = _ |- _ => rewrite H end.
Qed.

Lemma log_batch_time_cell_witness :
  let s := (run_ops [Reset 0 "train"; Update "train" (train_batch 1 3)]
              (started (options false None))).2 in
  exists row,
    rows_written (trace (log_batch 7 2 "train" false (Some 0%float) s).2)
    = rows_written (trace s) ++ [row] /\
    row !! 8%nat = Some (CVal (VFloat 5)).
Proof.
  intros s.
  destruct (log_batch_time_cell 7 2 "train" false (Some 0%float) s
              (log_batch 7 2 "train" false (Some 0%float) s).2)
    as (row & Hrows & Hcell).
  - vm_compute. reflexivity.
  - exists row. split; [exact Hrows|]. rewrite Hcell. vm_compute. reflexivity.
Defined.

(** ** Computations that only read *)

Lemma reads_getitem k : reads (getitem k).
Proof. intros s. unfold getitem. by destruct (metrics s !! k). Qed.

Lemma reads_lift {A} (o : outcome A) : reads (lift o).
Proof. by intros s. Qed.

Lemma reads_ret {A} (a : A) : reads (ret a).
Proof. by intros s. Qed.

Lemma reads_bind {A B} (m : M A) (f : A -> M B) :
  reads m -> (forall a, reads (f a)) -> reads (m ≫= f).
Proof.
  intros Hm Hf s. rewrite run_bind. specialize (Hm s).
  destruct (m s) as [[a|e] s']; cbn in Hm; subst s'; [apply Hf|done].
Qed.

Lemma reads_getitem2 mode k : reads (getitem2 mode k).
Proof. apply reads_bind; [apply reads_getitem|intros; apply reads_lift]. Qed.

Lemma reads_list_read v : reads (list_read v).
Proof. intros s. unfold list_read. destruct v; try done. by destruct (heap s !! l). Qed.

Lemma reads_list_last v : reads (list_last v).
Proof.
  apply reads_bind; [apply reads_list_read|]. intros xs. by destruct (last xs).
Qed.

(** What a read that returned has found. *)
Lemma getitem_Ret k s v : (getitem k s).1 = Ret v -> metrics s !! k = Some v.
Proof. unfold getitem. destruct (metrics s !! k); [by intros [= ->]|discriminate]. Qed.

Lemma getitem2_Ret mode k s v : (getitem2 mode k s).1 = Ret v -> field s mode k = Some v.
Proof.
  unfold getitem2, field, split. rewrite run_bind. unfold getitem.
  destruct (metrics s !! mode) as [[| | | |d]|]; try discriminate.
  unfold lift, subscript. destruct (d !! k); [by intros [= ->]|discriminate].
Qed.

Lemma list_read_Ret v s xs : (list_read v s).1 = Ret xs -> elements_of s (Some v) = Some xs.
Proof.
  unfold list_read, elements_of. destruct v; try discriminate.
  destruct (heap s !! l); [by intros [= ->]|discriminate].
Qed.

(** *** One event, or none and an exception *)

Lemma writes_one_bind {A B} Q (m : M A) (f : A -> M B) s :
  (m s).2 = s ->
  (forall a, (m s).1 = Ret a -> writes_one Q (f a) s) ->
  writes_one Q (m ≫= f) s.
Proof.
  intros Hm Hf. unfold writes_one. rewrite run_bind.
  destruct (m s) as [[a|e] s']; cbn in Hm; subst s'; [|done].
  by apply Hf.
Qed.

Lemma writes_one_emit (Q : event -> Prop) e s : Q e -> writes_one Q (emit e) s.
Proof. intros He. unfold writes_one, emit. by exists e. Qed.

Lemma writes_one_then_ret {A} Q (m : M A) s :
  writes_one Q m s -> writes_one Q (m ≫= fun _ => ret tt) s.
Proof.
  unfold writes_one. rewrite run_bind. by destruct (m s) as [[a|e] s'].
Qed.

Ltac reads_step :=
  first [ apply reads_getitem2 | apply reads_getitem | apply reads_list_last
        | apply reads_list_read | apply reads_lift | apply reads_ret ].

Lemma print_status_line args s :
  match print_status_train_epoch args s with
  | (Ret _, s') =>
      exists template fargs losses,
        s' = with_trace
               (trace s ++ [if cluster args then EPrint template fargs
                            else EPbar template fargs]) s /\
        history s "train" "batch-history" = Some losses /\
        (cluster args = true \/ (32 < length losses)%nat ->
         FMean (drop (length losses - 32) losses) ∈ fargs)
  | (Raise _, s') => s' = s
  end.
Proof.
  set (Q := fun e : event =>
    exists template fargs losses,
      e = (if cluster args then EPrint template fargs else EPbar template fargs) /\
      history s "train" "batch-history" = Some losses /\
      (cluster args = true \/ (32 < length losses)%nat ->
       FMean (drop (length losses - 32) losses) ∈ fargs)).
  assert (H : writes_one Q (print_status_train_epoch args) s).
  2:{ unfold writes_one in H. destruct (print_status_train_epoch args s) as [[[]|e] s'].
      - destruct H as (e & -> & (tpl & fargs & losses & -> & Hl & Hm)). by exists tpl, fargs, losses.
      - done. }
  unfold print_status_train_epoch.
  apply writes_one_bind; [reads_step|intros lrs _].
  apply writes_one_bind; [reads_step|intros cur_lr _].
  apply writes_one_bind; [reads_step|intros bh Hbh%getitem2_Ret].
  apply writes_one_bind; [reads_step|intros x1 _].
  apply writes_one_bind; [reads_step|intros x3 _].
  apply writes_one_bind; [reads_step|intros x4 _].
  apply writes_one_bind; [reads_step|intros bt _].
  apply writes_one_bind; [destruct (combined_loss args); reads_step|intros loss _].
  apply writes_one_bind.
  { destruct (lr_scheduling args); [|reads_step].
    apply reads_bind; [reads_step|intros; reads_step]. }
  intros lr_string _.
  apply writes_one_bind; [reads_step|intros speed _].
  apply writes_one_bind; [reads_step|intros losses Hlosses%list_read_Ret].
  assert (Hhist : history s "train" "batch-history" = Some losses)
    by (unfold history; by rewrite Hbh).
  assert (Hdrop : (length losses <= 32)%nat -> drop (length losses - 32) losses = losses).
  { intros Hxs. replace (length losses - 32)%nat with 0%nat by lia. reflexivity. }
  subst Q. cbv beta.
  destruct (cluster args); cbn [negb andb].
  - apply writes_one_bind; [reads_step|intros _ _].
    destruct (Nat.ltb_spec 32 (length losses)) as [Hn|Hn].
    + apply writes_one_bind; [reads_step|intros l _].
      apply writes_one_emit. eexists _, _, losses. split; [reflexivity|]. split; [done|].
      intros _. rewrite !elem_of_cons. tauto.
    + destruct (Nat.leb_spec (length losses) 32) as [Hn'|Hn']; [|lia].
      apply writes_one_bind; [reads_step|intros l _].
      apply writes_one_emit. eexists _, _, losses. split; [reflexivity|]. split; [done|].
      intros _. rewrite Hdrop by lia. rewrite !elem_of_cons. tauto.
  - apply writes_one_then_ret.
    destruct (Nat.ltb_spec 32 (length losses)) as [Hn|Hn].
    + do 5 (apply writes_one_bind; [reads_step|intros ? _]).
      apply writes_one_emit. eexists _, _, losses. split; [reflexivity|]. split; [done|].
      intros _. rewrite !elem_of_cons. tauto.
    + do 5 (apply writes_one_bind; [reads_step|intros ? _]).
      apply writes_one_emit. eexists _, _, losses. split; [reflexivity|]. split; [done|].
      intros [?|?]; [discriminate|lia].
Qed.

(** [print_status("train_epoch", ...)] only reads the metrics.  A call that
    returns has written exactly one line: a description of the progress
    bar, or with [args.cluster] a printed line.  Whenever the line shows
    the 32-batch average (always with [args.cluster], otherwise when more
    than 32 losses are recorded), the average is taken over the last 32
    recorded losses, or over all of them if there are at most 32.  A call
    that raises has written nothing. *)
Theorem print_status_one_line args s :
  match print_status_train_epoch args s with
  | (Ret _, s') =>
      exists template fargs losses,
        s' = with_trace
               (trace s ++ [if cluster args then EPrint template fargs
                            else EPbar template fargs]) s /\
        history s "train" "batch-history" = Some losses /\
        (cluster args = true \/ (32 < length losses)%nat ->
         FMean (drop (length losses - 32) losses) ∈ fargs)
  | (Raise _, s') => s' = s
  end.
Proof. apply print_status_line. Qed.

(** ** The early-stopping evaluator *)

Ltac trackers_cases :=
  unfold compared_loss, compared_mode, compared_key, compared_history, best_loss_so_far,
    epoch_last_improved, field, split, update_loss_trackers;
  cbn [metrics];
  set (mode := if train_only _ then "train" else "valid") in *;
  set (loss_str := if combined_loss _ then "combined" else "drmsd") in *;
  unfold getitem2, getitem, setitem, emit, raise, lift, subscript, mbind, M_bind, bind,
    mret, M_ret, ret;
  cbn [metrics heap trace with_metrics with_trace fst snd].

Lemma stop_inv args i s s' :
  update_loss_trackers args i s = (Raise EarlyStoppingCondition, s') ->
  exists P,
    early_stopping args = Some P /\ P <> 0 /\
    s' = with_trace (trace s ++ [stop_message P]) s.
Proof.
  destruct s as [m h t]. trackers_cases.
  repeat (case_match; simplify_eq/=; try discriminate).
  all: intros ?; simplify_eq/=.
  all: try match goal with
           | H : py_lt _ _ = Raise _ |- _ => apply py_lt_error in H; destruct H
           | H : py_sub _ _ = Raise _ |- _ => apply py_sub_error in H; destruct H
           | H : float_of_Z _ = Raise _ |- _ =>
               unfold float_of_Z in H; destruct (is_infinity _); discriminate
           end.
  all: eexists; split; [reflexivity|]; split; [|reflexivity].
  all: intros ->; discriminate.
Qed.

(** When [update_loss_trackers] raises [EarlyStoppingCondition], a non-zero
    patience is set, and the message with that patience is the one thing
    the call has done: the trackers, [loss_to_compare] and
    [losses_to_compare] and every other entry of the metrics are as they
    were before the call. *)
Theorem stop_leaves_metrics args i s s' :
  update_loss_trackers args i s = (Raise EarlyStoppingCondition, s') ->
  exists P,
    early_stopping args = Some P /\ P <> 0 /\
    s' = with_trace (trace s ++ [stop_message P]) s.
Proof. apply stop_inv. Qed.

Lemma stop_leaves_metrics_witness :
  let args := options true (Some 1) in
  let s := (run_ops (valid_epoch args 1 5 ++ valid_epoch args 2 5) (started args)).2 in
  (update_loss_trackers args 3 s).2 = with_trace (trace s ++ [stop_message 1]) s.
Proof.
  intros args s.
  destruct (stop_leaves_metrics args 3 s (update_loss_trackers args 3 s).2)
    as (P & HP & _ & Hs).
  - vm_compute. reflexivity.
  - injection HP as <-. exact Hs.
Defined.

(** With no patience, or a patience of zero, [update_loss_trackers] never
    raises [EarlyStoppingCondition], in whatever store and at whatever
    epoch it is called: [args.early_stopping and ...] is false for 0. *)
Theorem early_stopping_disabled args i s :
  early_stopping args = None \/ early_stopping args = Some 0 ->
  (update_loss_trackers args i s).1 <> Raise EarlyStoppingCondition.
Proof.
  intros Hes Hraise.
  destruct (update_loss_trackers args i s) as [o s'] eqn:Hrun. cbn in Hraise. subst o.
  apply stop_inv in Hrun as (P & HP & HP0 & _).
  destruct Hes as [Hes|Hes]; rewrite Hes in HP; [discriminate|]. by injection HP as <-.
Qed.

Lemma early_stopping_disabled_witness :
  let args := options true (Some 0) in
  let s := (run_ops (valid_epoch args 1 5 ++ valid_epoch args 2 5) (started args)).2 in
  (update_loss_trackers args 100 s).1 <> Raise EarlyStoppingCondition.
Proof.
  intros args s. apply (early_stopping_disabled args 100 s). right. reflexivity.
Defined.

Lemma is_nan_Prim2SF x : PrimFloat.is_nan x = true -> Prim2SF x = S754_nan.
Proof.
  unfold PrimFloat.is_nan. rewrite FloatAxioms.eqb_spec. unfold SFeqb.
  destruct (Prim2SF x) as [sg|sg| |sg m e]; try done.
  - by destruct sg.
  - rewrite SFcompare_finite. unfold cmp_mag.
    rewrite Z.compare_refl, Pos.compare_refl. by destruct sg.
Qed.

Lemma nan_not_less x b : PrimFloat.is_nan x = true -> py_lt (VFloat x) b <> Ret true.
Proof.
  intros Hx%is_nan_Prim2SF. destruct b as [|z|y| |]; cbn; try discriminate.
  - unfold Z_compare_float. rewrite Hx. discriminate.
  - rewrite FloatAxioms.ltb_spec, Hx. discriminate.
Qed.

(** A NaN epoch loss is never an improvement: whatever the trackers hold,
    [update_loss_trackers] leaves [best_valid_loss_so_far] and
    [epoch_last_improved] as they are when the compared epoch loss is NaN. *)
Theorem nan_loss_never_improves args i s x :
  compared_loss args s = Some (VFloat x) ->
  PrimFloat.is_nan x = true ->
  best_loss_so_far (update_loss_trackers args i s).2 = best_loss_so_far s /\
  epoch_last_improved (update_loss_trackers args i s).2 = epoch_last_improved s.
Proof.
  intros Hloss Hnan.
  destruct (trackers_step_any args i s) as [H|(l & b & Hl & _ & Hlt & _)]; [exact H|].
  rewrite Hloss in Hl. injection Hl as <-. by apply nan_not_less in Hlt.
Qed.

Lemma nan_loss_never_improves_witness :
  let args := options true (Some 5) in
  let s := (run_ops [Reset 0 "valid"; Update "valid" (eval_batch 1 PrimFloat.nan);
                     Finalize "valid" 1] (started args)).2 in
  best_loss_so_far (update_loss_trackers args 0 s).2 = Some (VFloat infinity) /\
  epoch_last_improved (update_loss_trackers args 0 s).2 = Some (VInt (-1)).
Proof.
  intros args s.
  destruct (nan_loss_never_improves args 0 s PrimFloat.nan) as [Hb He].
  - vm_compute. reflexivity.
  - vm_compute. reflexivity.
  - split; [rewrite Hb|rewrite He]; vm_compute; reflexivity.
Defined.

(** ** Entries of the metrics that an operation does not assign to *)

Section Frame.
Context (g : string) (v : option val) (E : exn -> Prop).
Context (HE : forall e, lookup_error e -> E e).

Lemma frame_setitem2 mode k x : mode <> g -> sound (keeps g v) E (setitem2 mode k x).
Proof.
  intros Hne s Hs. unfold setitem2, mbind, M_bind, bind, getitem.
  destruct (metrics s !! mode) as [d|] eqn:Hm; cbn [fst snd].
  2:{ split; [done|]. intros e [= <-]. by apply HE. }
  destruct d; try (split; [done|intros e [= <-]; by apply HE]).
  unfold setitem. cbn [fst snd]. split; [|discriminate].
  unfold keeps in *. cbn. by rewrite lookup_insert_ne.
Qed.

Lemma frame_setitem k x : k <> g -> sound (keeps g v) E (setitem k x).
Proof.
  intros Hne s Hs. unfold setitem. cbn [fst snd]. split; [|discriminate].
  unfold keeps in *. cbn. by rewrite lookup_insert_ne.
Qed.

Lemma frame_new_list xs : sound (keeps g v) E (new_list xs).
Proof. intros s Hs. split; [exact Hs|discriminate]. Qed.

Lemma frame_list_append l x : sound (keeps g v) E (list_append l x).
Proof.
  intros s Hs. unfold list_append.
  destruct l; try (split; [done|intros e [= <-]; by apply HE]).
  destruct (heap s !! l); (split; [done|]); [discriminate|intros e [= <-]; by apply HE].
Qed.

Lemma frame_emit e : sound (keeps g v) E (emit e).
Proof. intros s Hs. split; [exact Hs|discriminate]. Qed.

Ltac frame_go :=
  repeat first
    [ sound_step
    | apply frame_setitem2; assumption
    | apply frame_setitem; assumption
    | apply frame_new_list
    | apply frame_list_append
    | apply frame_emit ].

Lemma frame_update now1 now2 mode x1 x2 x3 x4 seq r tl bl :
  mode <> g -> sound (keeps g v) E (update_metrics now1 now2 mode x1 x2 x3 x4 seq r tl bl).
Proof. intros Hne. unfold update_metrics, iadd2. frame_go. Qed.

Lemma frame_finalize mode n :
  mode <> g -> sound (keeps g v) E (update_metrics_end_of_epoch mode n).
Proof. intros Hne. unfold update_metrics_end_of_epoch, itruediv2. frame_go. Qed.

Lemma frame_reset now mode :
  mode <> g -> sound (keeps g v) E (reset_metrics_for_epoch now mode).
Proof. intros Hne. unfold reset_metrics_for_epoch. frame_go. Qed.

Lemma frame_evaluate args i :
  E EarlyStoppingCondition ->
  g ∉ writes_to (Evaluate args i) ->
  sound (keeps g v) E (update_loss_trackers args i).
Proof.
  intros HEs Hg. unfold writes_to in Hg. rewrite !elem_of_cons, elem_of_nil in Hg.
  assert (H1 : "best_valid_loss_so_far" <> g) by (intros <-; tauto).
  assert (H2 : "epoch_last_improved" <> g) by (intros <-; tauto).
  assert (H3 : "loss_to_compare" <> g) by (intros <-; tauto).
  assert (H4 : "losses_to_compare" <> g) by (intros <-; tauto).
  unfold update_loss_trackers. frame_go. by apply sound_raise.
Qed.

End Frame.

Lemma frame_run_ops g v os :
  Forall (fun o => g ∉ writes_to o) os ->
  sound (keeps g v) (fun _ => True) (run_ops os).
Proof.
  induction 1 as [|o os Ho _ IH]; cbn [run_ops]; [apply sound_ret|].
  apply sound_bind; [|intros _; exact IH].
  destruct o as [now mode|mode b|mode n|args i]; cbn [run_op].
  - apply frame_reset; [done|]. intros <-. apply Ho. cbn. apply elem_of_cons. by left.
  - apply frame_update; [done|]. intros <-. apply Ho. cbn. apply elem_of_cons. by left.
  - apply frame_finalize; [done|]. intros <-. apply Ho. cbn. apply elem_of_cons. by left.
  - by apply frame_evaluate.
Qed.

(** Each operation assigns only to its own entries of the metrics
    dictionary: resetting, updating or finalising a split leaves the
    dictionaries of the other splits and the trackers as they are, and an
    early-stopping evaluation leaves the dictionary of every split as it
    is, for every sequence of operations, whether it runs to its end or is
    cut short by an exception. *)
Theorem other_entries_untouched os g s :
  Forall (fun o => g ∉ writes_to o) os ->
  metrics (run_ops os s).2 !! g = metrics s !! g.
Proof.
  intros Hos. by destruct (frame_run_ops g (metrics s !! g) os Hos s eq_refl) as [H _].
Qed.

Lemma other_entries_untouched_witness :
  let args := options true (Some 2) in
  let s := (run_ops (valid_epoch args 1 5) (started args)).2 in
  metrics (run_ops [Reset 0 "train"; Update "train" (train_batch 1 3); Finalize "train" 1;
                    Reset 0 "test"; Finalize "test" 0] s).2 !! "valid"
  = metrics s !! "valid".
Proof.
  intros args s. apply other_entries_untouched.
  repeat constructor; cbn; rewrite elem_of_cons, elem_of_nil; intros [?|[]]; discriminate.
Defined.

Lemma evaluate_ret_inv args i s s' :
  update_loss_trackers args i s = (Ret tt, s') ->
  exists loss hist,
    compared_loss args s = Some loss /\
    field s (compared_mode args) (compared_history args) = Some hist /\
    metrics s' !! "loss_to_compare" = Some loss /\
    metrics s' !! "losses_to_compare" = Some hist /\
    heap s' = heap s.
Proof.
  destruct s as [m h t]. trackers_cases.
  repeat (case_match; simplify_eq/=; try discriminate).
  all: intros ?; simplify_eq/=.
  all: eexists _, _; repeat split; py_lookup.
Qed.

(** The list that [update_loss_trackers] stores as [losses_to_compare] is
    the history list of the compared split itself, not a copy: after an
    evaluation that returned, and whatever resets, updates and epoch ends
    follow, [losses_to_compare] has the elements the history has, the
    epoch means appended since the evaluation included. *)
Theorem losses_to_compare_is_alias args i os s s1 xs :
  update_loss_trackers args i s = (Ret tt, s1) ->
  history s (compared_mode args) (compared_history args) = Some xs ->
  Forall (fun o => "losses_to_compare" ∉ writes_to o) os ->
  exists ys,
    history (run_ops os s1).2 (compared_mode args) (compared_history args)
    = Some (xs ++ ys) /\
    elements_of (run_ops os s1).2 (metrics (run_ops os s1).2 !! "losses_to_compare")
    = Some (xs ++ ys).
Proof.
  intros Hrun Hxs Hos.
  destruct (evaluate_ret_inv args i s s1 Hrun) as (loss & hist & _ & Hf & _ & Ha & Hh).
  destruct (history_at _ _ _ _ Hxs) as (l & Hl & Hheap).
  rewrite Hf in Hl. injection Hl as ->.
  assert (Hmode : compared_mode args ∈ split_names).
  { unfold compared_mode, split_names. rewrite !elem_of_cons. destruct (train_only args); tauto. }
  assert (Hf1 : field s1 (compared_mode args) (compared_history args) = Some (VRef l)).
  { rewrite <- Hf. unfold field, split.
    destruct (frame_evaluate (compared_mode args) (metrics s !! compared_mode args)
                (fun _ => True) (fun _ _ => I) args i I) with (s := s) as [Hk _];
      [|done|].
    - unfold writes_to, compared_mode. rewrite !elem_of_cons, elem_of_nil.
      destruct (train_only args); intros [?|[?|[?|[?|[]]]]]; discriminate.
    - rewrite Hrun in Hk. unfold keeps in Hk. cbn in Hk. by rewrite Hk. }
  assert (Hkey : compared_history args ∈ epoch_history_keys).
  { unfold compared_history, epoch_history_keys. rewrite !elem_of_cons.
    destruct (combined_loss args); cbn; tauto. }
  destruct (grows_run_ops (compared_mode args) (compared_history args) s1 os Hmode
              (or_introl Hkey) s1 (grows_refl _ _ _)) as [(Hg & Href & _) _].
  destruct (frame_run_ops "losses_to_compare" (Some (VRef l)) os Hos s1 Ha) as [Hkeep _].
  destruct (Hg l xs) as [ys Hys]; [by rewrite Hh|].
  exists ys. unfold history. rewrite (Href l Hf1), Hkeep. cbn. by rewrite Hys.
Qed.

Lemma losses_to_compare_is_alias_witness :
  let args := options true (Some 2) in
  let s := (run_ops [Reset 0 "valid"; Update "valid" (eval_batch 1 5); Finalize "valid" 1]
              (started args)).2 in
  let s1 := (update_loss_trackers args 1 s).2 in
  let os := [Reset 2 "valid"; Update "valid" (eval_batch 3 4); Finalize "valid" 1] in
  exists ys,
    history (run_ops os s1).2 "valid" "epoch-history-combined" = Some ([VFloat 5] ++ ys) /\
    elements_of (run_ops os s1).2 (metrics (run_ops os s1).2 !! "losses_to_compare")
    = Some ([VFloat 5] ++ ys).
Proof.
  intros args s s1 os.
  apply (losses_to_compare_is_alias args 1 os s s1 [VFloat 5]).
  - vm_compute. reflexivity.
  - vm_compute. reflexivity.
  - repeat constructor; cbn; rewrite elem_of_cons, elem_of_nil; intros [?|[]]; discriminate.
Defined.

(** ** The list objects an update appends to *)

Lemma update_effect mode b bs last s :
  in_epoch s mode bs last ->
  defined (throughput (b_src_seq b) (b_now1 b) last) = true ->
  (mode = "train" -> truthy (b_rmsd b) = false) ->
  exists s' q l_s l_b speeds,
    run_op (Update mode b) s = (Ret tt, s') /\
    throughput (b_src_seq b) (b_now1 b) last = Ret (VFloat q) /\
    field s mode "speed-history" = Some (VRef l_s) /\
    heap s !! l_s = Some speeds /\
    field s mode "batch-history" = Some (VRef l_b) /\
    field s' mode "speed" = Some (VFloat (py_round q 2)) /\
    heap s' !! l_s = Some (speeds ++ [VFloat (py_round q 2)]) /\
    (forall l, l <> l_s -> l <> l_b -> heap s' !! l = heap s !! l) /\
    length (heap s') = length (heap s).
Proof.
  intros (d & l1 & l2 & sh & Hm & H1 & H2 & H3 & H4 & H5 & [r0 H6] & H7 & H8 & H9
            & H10 & H11 & Hne) Hclock Htrain.
  destruct (throughput_defined _ _ _ Hclock) as [q Hq].
  pose proof (py_add_running_sum (b_drmsd <$> bs) (b_drmsd b)) as A1.
  pose proof (py_add_running_sum (b_ln_drmsd <$> bs) (b_ln_drmsd b)) as A2.
  pose proof (py_add_running_sum (b_mse <$> bs) (b_mse b)) as A3.
  pose proof (py_add_running_sum (b_combined <$> bs) (b_combined b)) as A4.
  assert (l1 < length (heap s))%nat as Hl1 by (by eapply lookup_lt_Some).
  assert (l2 < length (heap s))%nat as Hl2 by (by eapply lookup_lt_Some).
  destruct s as [m h t]. cbn [metrics heap trace] in *.
  rewrite !(field_of_split (Store m h t) mode d _ Hm).
  rewrite (store_at m h t mode d Hm).
  unfold throughput.
  destruct b as [now1 now2 x1 x2 x3 x4 seq r tl bl].
  cbn [b_now1 b_now2 b_drmsd b_ln_drmsd b_mse b_combined b_src_seq b_rmsd
       b_tracking_loss b_batch_level run_op] in *.
  unfold update_metrics, iadd2.
  assert (truthy r = true -> String.eqb mode "train" = false) as Hmode.
  { intros Hr. destruct (String.eqb_spec mode "train") as [->|]; [|done].
    rewrite Htrain in Hr; done. }
  destruct (truthy r) eqn:Hr;
    [specialize (Hmode eq_refl); rewrite Hmode in *;
     destruct r as [r|]; [|discriminate Hr];
     pose proof (py_add_running_sum (supplied (b_rmsd <$> bs)) r) as A5
    |destruct r as [r|]];
    (destruct (truthy tl) eqn:Htl; [destruct tl as [l|]; [|discriminate Htl]|destruct tl as [l|]]);
    destruct bl; rewrite ?Hr, ?Htl; cbn [andb from_option option_fmap option_map fmap].
  all: py_exec.
  all: eexists _, q, l1, l2, sh; split; [reflexivity|].
  all: split; [first [exact Hq|reflexivity]|]; split; [exact H8|]; split; [exact H9|]; split; [exact H10|].
  all: rewrite !field_at; cbn [heap].
  all: split; [py_lookup|].
  all: split; [py_lookup|].
  all: split; [intros l' Hs Hb; rewrite ?list_lookup_insert_ne by done; reflexivity|].
  all: by rewrite ?length_insert.
Qed.

Lemma reset_effect now mode s d :
  metrics s !! mode = Some (VDict d) ->
  exists s',
    reset_metrics_for_epoch now mode s = (Ret tt, s') /\
    heap s' = heap s ++ [[]; []] /\
    field s' mode "batch-history" = Some (VRef (length (heap s))) /\
    field s' mode "speed-history" = Some (VRef (S (length (heap s)))) /\
    (forall k, k ∈ epoch_history_keys -> field s' mode k = field s mode k).
Proof.
  intros Hm. destruct s as [m h t]. cbn [metrics heap trace] in *.
  rewrite (store_at m h t mode d Hm). unfold reset_metrics_for_epoch.
  destruct (String.eqb mode "train") eqn:Hmode; py_exec.
  all: eexists; split; [reflexivity|]; cbn [heap].
  all: split; [by rewrite <- app_assoc|].
  all: rewrite !field_at.
  all: split; [py_lookup|].
  all: split; [rewrite length_app; cbn; rewrite Nat.add_1_r; py_lookup|].
  all: intros k Hk; unfold epoch_history_keys in Hk;
    rewrite !elem_of_cons, elem_of_nil in Hk; rewrite !field_at.
  all: destruct Hk as [->|[->|[]]]; py_lookup.
Qed.

Lemma run_ops_app os os' s :
  run_ops (os ++ os') s =
  match run_ops os s with
  | (Ret _, s1) => run_ops os' s1
  | (Raise e, s1) => (Raise e, s1)
  end.
Proof.
  revert s. induction os as [|o os IH]; intros s; [reflexivity|].
  cbn [app run_ops]. rewrite !run_bind.
  destruct (run_op o s) as [[[]|e] s1]; [apply IH|reflexivity].
Qed.

Lemma updates_effect mode bs' : forall s bs last l_s l_b speeds,
  in_epoch s mode bs last ->
  field s mode "speed-history" = Some (VRef l_s) ->
  heap s !! l_s = Some speeds ->
  field s mode "batch-history" = Some (VRef l_b) ->
  clock_ok last bs' = true ->
  (mode = "train" -> Forall (fun b => truthy (b_rmsd b) = false) bs') ->
  exists s' last' new,
    run_ops (Update mode <$> bs') s = (Ret tt, s') /\
    in_epoch s' mode (bs ++ bs') last' /\
    heap s' !! l_s = Some (speeds ++ new) /\
    length new = length bs' /\
    (forall l, l <> l_s -> l <> l_b -> heap s' !! l = heap s !! l) /\
    (forall k, k ∉ update_keys -> field s' mode k = field s mode k) /\
    trace s' = trace s.
Proof.
  induction bs' as [|b bs' IH]; intros s bs last l_s l_b speeds Hin Hs Hsp Hb Hclock Htrain.
  - exists s, last, []. rewrite !app_nil_r. by repeat split.
  - cbn [clock_ok] in Hclock. apply andb_prop in Hclock as [Hc Hclock].
    assert (Hr : mode = "train" -> truthy (b_rmsd b) = false).
    { intros Hm. specialize (Htrain Hm). by inversion_clear Htrain. }
    destruct (update_spec mode b bs last s Hin Hc Hr)
      as (s1 & Hrun & Hin1 & Htr & _ & _ & _ & Hframe & _).
    destruct (update_effect mode b bs last s Hin Hc Hr)
      as (s1' & q & l_s' & l_b' & speeds' & Hrun' & _ & Hs' & Hsp' & Hb' & _ & Hsp1 & Hheap & _).
    rewrite Hrun in Hrun'. injection Hrun' as <-.
    rewrite Hs in Hs'. injection Hs' as <-.
    rewrite Hb in Hb'. injection Hb' as <-.
    rewrite Hsp in Hsp'. injection Hsp' as <-.
    assert (Hnk : forall k, k ∈ ["speed-history"; "batch-history"] -> k ∉ update_keys).
    { intros k Hk. unfold update_keys. rewrite !elem_of_cons, elem_of_nil in *.
      destruct Hk as [->|[->|[]]]; intros H;
        repeat (destruct H as [H|H]; [discriminate H|]); done. }
    destruct (IH s1 (bs ++ [b]) (b_now2 b) l_s l_b (speeds ++ [VFloat (py_round q 2)]))
      as (s' & last' & new & Hrun' & Hin' & Hsp2 & Hlen & Hheap' & Hframe' & Htr'); try done.
    { rewrite Hframe; [done|]. apply Hnk. rewrite !elem_of_cons. tauto. }
    { rewrite Hframe; [done|]. apply Hnk. rewrite !elem_of_cons. tauto. }
    { intros Hm. specialize (Htrain Hm). by inversion_clear Htrain. }
    exists s', last', (VFloat (py_round q 2) :: new).
    cbn [fmap list_fmap run_ops]. rewrite run_bind, Hrun.
    rewrite <- app_assoc in Hin', Hsp2. repeat split; try done.
    + cbn. by rewrite Hlen.
    + intros l H1 H2. rewrite Hheap', Hheap; done.
    + intros k Hk. rewrite Hframe', Hframe; done.
    + congruence.
Qed.

(** ** Speed, batch time and the two per-epoch lists *)

(** An update inside an epoch records the speed: it is the number of
    residues of the batch divided by the time between the previous reading
    of the clock ([batch-time]) and the first reading of this call, rounded
    to two places; it is stored as [speed] and appended to the speed
    history, and [batch-time] becomes the second reading of the call. *)
Theorem speed_is_recorded mode b bs last s :
  in_epoch s mode bs last ->
  defined (throughput (b_src_seq b) (b_now1 b) last) = true ->
  (mode = "train" -> truthy (b_rmsd b) = false) ->
  exists s' q speeds,
    run_op (Update mode b) s = (Ret tt, s') /\
    throughput (b_src_seq b) (b_now1 b) last = Ret (VFloat q) /\
    field s' mode "speed" = Some (VFloat (py_round q 2)) /\
    field s' mode "batch-time" = Some (VFloat (b_now2 b)) /\
    history s mode "speed-history" = Some speeds /\
    history s' mode "speed-history" = Some (speeds ++ [VFloat (py_round q 2)]).
Proof.
  intros Hin Hc Hr.
  destruct (update_spec mode b bs last s Hin Hc Hr)
    as (s1 & Hrun & Hin1 & _ & _ & _ & _ & Hframe & _).
  destruct (update_effect mode b bs last s Hin Hc Hr)
    as (s' & q & l_s & l_b & speeds & Hrun' & Hq & Hs & Hsp & _ & Hspeed & Hsp1 & _).
  rewrite Hrun in Hrun'. injection Hrun' as <-.
  exists s1, q, speeds. repeat split; try done.
  - destruct Hin1 as (d & ? & ? & ? & Hm & _ & _ & _ & _ & _ & _ & Ht & _).
    by rewrite (field_of_split _ _ _ _ Hm).
  - unfold history. by rewrite Hs.
  - unfold history. rewrite Hframe, Hs; [done|].
    unfold update_keys. rewrite !elem_of_cons, elem_of_nil.
    intros H; repeat (destruct H as [H|H]; [discriminate H|]); done.
Qed.

Lemma speed_is_recorded_witness :
  exists s' q speeds,
    run_op (Update "valid" (eval_batch 14 2))
      (run_op (Reset 10 "valid") (started (options false None))).2 = (Ret tt, s') /\
    throughput (b_src_seq (eval_batch 14 2)) (b_now1 (eval_batch 14 2)) 10 = Ret (VFloat q) /\
    field s' "valid" "speed" = Some (VFloat (py_round q 2)) /\
    field s' "valid" "batch-time" = Some (VFloat (b_now2 (eval_batch 14 2))) /\
    history (run_op (Reset 10 "valid") (started (options false None))).2
      "valid" "speed-history" = Some speeds /\
    history s' "valid" "speed-history" = Some (speeds ++ [VFloat (py_round q 2)]).
Proof.
  apply (speed_is_recorded "valid" (eval_batch 14 2) [] 10).
  - edestruct (reset_spec 10 "valid" (started (options false None))) as (s1 & Hrun & Hin & _);
      [vm_compute; reflexivity|].
    cbn [run_op]. rewrite Hrun. exact Hin.
  - vm_compute. reflexivity.
  - discriminate.
Defined.

(** After a reset and any number of updates of a split, its speed history
    has one entry for each update, whereas its batch loss history has an
    entry only for the updates that were given a tracking loss other than
    zero. *)
Theorem one_speed_per_update mode now bs s :
  is_Some (split s mode) ->
  clock_ok now bs = true ->
  (mode = "train" -> Forall (fun b => truthy (b_rmsd b) = false) bs) ->
  exists s' speeds,
    run_ops (Reset now mode :: (Update mode <$> bs)) s = (Ret tt, s') /\
    history s' mode "speed-history" = Some speeds /\
    length speeds = length bs /\
    history s' mode "batch-history"
    = Some (VFloat <$> supplied (b_tracking_loss <$> bs)).
Proof.
  intros [d Hd] Hclock Htrain.
  assert (Hm : metrics s !! mode = Some (VDict d)).
  { unfold split in Hd. by destruct (metrics s !! mode) as [[]|]; simplify_eq. }
  destruct (reset_spec now mode s d Hm) as (s1 & Hrun & Hin & _).
  destruct (reset_effect now mode s d Hm) as (s1' & Hrun' & Hheap & Hb & Hs & _).
  rewrite Hrun in Hrun'. injection Hrun' as <-.
  destruct (updates_effect mode bs s1 [] now (S (length (heap s))) (length (heap s)) [])
    as (s' & last' & new & Hrun2 & Hin2 & Hsp & Hlen & _ & Hframe & _); try done.
  { rewrite Hheap. by rewrite lookup_app_r; rewrite ?Nat.sub_diag; [|lia];
      replace (S (length (heap s)) - length (heap s))%nat with 1%nat by lia. }
  exists s', new. cbn [run_ops run_op]. rewrite run_bind, Hrun.
  repeat split; try done.
  - unfold history. rewrite Hframe, Hs; [done|].
    unfold update_keys. rewrite !elem_of_cons, elem_of_nil.
    intros H; repeat (destruct H as [H|H]; [discriminate H|]); done.
  - by destruct (in_epoch_views _ _ _ _ Hin2) as (_ & _ & _ & _ & _ & H).
Qed.

Lemma one_speed_per_update_witness :
  exists s' speeds,
    run_ops (Reset 0 "train" :: (Update "train" <$>
               [train_batch 1 3; train_batch 3 0; train_batch 5 2]))
      (started (options false None)) = (Ret tt, s') /\
    history s' "train" "speed-history" = Some speeds /\
    length speeds = 3%nat /\
    history s' "train" "batch-history" = Some [VFloat 3; VFloat 2].
Proof.
  apply (one_speed_per_update "train" 0
           [train_batch 1 3; train_batch 3 0; train_batch 5 2]
           (started (options false None))).
  - vm_compute. eexists. reflexivity.
  - vm_compute. reflexivity.
  - intros _. repeat constructor.
Defined.

(** ** The epoch histories *)

Lemma finalize_effect mode n bs last s lc ld hc hd :
  in_epoch s mode bs last ->
  divisor_ok n = true ->
  field s mode "epoch-history-combined" = Some (VRef lc) ->
  heap s !! lc = Some hc ->
  field s mode "epoch-history-drmsd" = Some (VRef ld) ->
  heap s !! ld = Some hd ->
  lc <> ld ->
  exists s' q1 q4,
    run_op (Finalize mode n) s = (Ret tt, s') /\
    epoch_mean (b_drmsd <$> bs) n = Ret (VFloat q1) /\
    epoch_mean (b_combined <$> bs) n = Ret (VFloat q4) /\
    heap s' = <[ld := hd ++ [VFloat q1]]> (<[lc := hc ++ [VFloat q4]]> (heap s)) /\
    (forall k, k ∈ epoch_history_keys -> field s' mode k = field s mode k).
Proof.
  intros (d & l1 & l2 & sh & Hm & H1 & H2 & H3 & H4 & H5 & _ & _ & _ & _ & _ & _ & _)
    Hn Hfc Hhc Hfd Hhd Hne.
  rewrite (field_of_split _ _ _ _ Hm) in Hfc.
  rewrite (field_of_split _ _ _ _ Hm) in Hfd.
  destruct (epoch_mean_defined (b_drmsd <$> bs) n Hn) as [q1 Q1].
  destruct (epoch_mean_defined (b_ln_drmsd <$> bs) n Hn) as [q2 Q2].
  destruct (epoch_mean_defined (b_mse <$> bs) n Hn) as [q3 Q3].
  destruct (epoch_mean_defined (b_combined <$> bs) n Hn) as [q4 Q4].
  destruct (epoch_mean_defined (supplied (b_rmsd <$> bs)) n Hn) as [q5 Q5].
  unfold epoch_mean in *.
  assert (lc < length (heap s))%nat as Hlc by (by eapply lookup_lt_Some).
  assert (ld < length (heap s))%nat as Hld by (by eapply lookup_lt_Some).
  destruct s as [m h t]. cbn [metrics heap trace run_op] in *.
  rewrite (store_at m h t mode d Hm).
  unfold update_metrics_end_of_epoch, itruediv2.
  destruct (String.eqb mode "train") eqn:Hmode; py_exec.
  all: eexists _, q1, q4; split; [reflexivity|].
  all: split; [reflexivity|]; split; [reflexivity|]; split; [reflexivity|].
  all: intros k Hk; unfold epoch_history_keys in Hk;
    rewrite !elem_of_cons, elem_of_nil in Hk; rewrite !field_at.
  all: destruct Hk as [->|[->|[]]]; py_lookup.
Qed.

(** A whole epoch of a split (reset, updates, end of epoch) appends exactly
    one element to each of its two epoch histories, the epoch mean of the
    metric, and leaves the elements recorded before in place; the two
    histories are separate list objects, as [init_metrics] creates them. *)
Theorem epoch_appends_means mode now bs n s hc hd :
  history s mode "epoch-history-combined" = Some hc ->
  history s mode "epoch-history-drmsd" = Some hd ->
  field s mode "epoch-history-combined" <> field s mode "epoch-history-drmsd" ->
  clock_ok now bs = true ->
  (mode = "train" -> Forall (fun b => truthy (b_rmsd b) = false) bs) ->
  divisor_ok n = true ->
  exists s' q1 q4,
    run_ops (Reset now mode :: (Update mode <$> bs) ++ [Finalize mode n]) s = (Ret tt, s') /\
    epoch_mean (b_drmsd <$> bs) n = Ret (VFloat q1) /\
    epoch_mean (b_combined <$> bs) n = Ret (VFloat q4) /\
    history s' mode "epoch-history-drmsd" = Some (hd ++ [VFloat q1]) /\
    history s' mode "epoch-history-combined" = Some (hc ++ [VFloat q4]) /\
    field s' mode "epoch-history-combined" = field s mode "epoch-history-combined" /\
    field s' mode "epoch-history-drmsd" = field s mode "epoch-history-drmsd".
Proof.
  intros Hc Hd Hne Hclock Htrain Hn.
  destruct (history_at _ _ _ _ Hc) as (lc & Hfc & Hhc).
  destruct (history_at _ _ _ _ Hd) as (ld & Hfd & Hhd).
  assert (Hlne : lc <> ld) by (intros ->; apply Hne; congruence).
  assert (lc < length (heap s))%nat as Hlc by (by eapply lookup_lt_Some).
  assert (ld < length (heap s))%nat as Hld by (by eapply lookup_lt_Some).
  assert (exists d, metrics s !! mode = Some (VDict d)) as [d Hm].
  { unfold field, split in Hfc. destruct (metrics s !! mode) as [[]|]; try done. by eexists. }
  assert (Hkc : "epoch-history-combined" ∈ epoch_history_keys)
    by (unfold epoch_history_keys; rewrite !elem_of_cons; tauto).
  assert (Hkd : "epoch-history-drmsd" ∈ epoch_history_keys)
    by (unfold epoch_history_keys; rewrite !elem_of_cons; tauto).
  assert (Hnk : forall k, k ∈ epoch_history_keys -> k ∉ update_keys).
  { intros k Hk. unfold update_keys, epoch_history_keys in *.
    rewrite !elem_of_cons, elem_of_nil in *.
    destruct Hk as [->|[->|[]]]; intros H;
      repeat (destruct H as [H|H]; [discriminate H|]); done. }
  destruct (reset_spec now mode s d Hm) as (s1 & Hrun1 & Hin1 & _).
  destruct (reset_effect now mode s d Hm) as (s1' & Hrun1' & Hheap1 & Hb1 & Hs1 & Hf1).
  rewrite Hrun1 in Hrun1'. injection Hrun1' as <-.
  destruct (updates_effect mode bs s1 [] now (S (length (heap s))) (length (heap s)) [])
    as (s2 & last' & new & Hrun2 & Hin2 & _ & _ & Hheap2 & Hf2 & _); try done.
  { rewrite Hheap1. by rewrite lookup_app_r; rewrite ?Nat.sub_diag; [|lia];
      replace (S (length (heap s)) - length (heap s))%nat with 1%nat by lia. }
  cbn [app] in Hin2.
  assert (Hold : forall l xs, (l < length (heap s))%nat -> heap s !! l = Some xs ->
                              heap s2 !! l = Some xs).
  { intros l xs Hl Hxs. rewrite Hheap2 by lia. rewrite Hheap1. by apply lookup_app_l_Some. }
  destruct (finalize_effect mode n bs last' s2 lc ld hc hd)
    as (s3 & q1 & q4 & Hrun3 & Q1 & Q4 & Hheap3 & Hf3); try done.
  { rewrite Hf2, Hf1; auto. }
  { by apply Hold. }
  { rewrite Hf2, Hf1; auto. }
  { by apply Hold. }
  exists s3, q1, q4.
  assert (Hfc3 : field s3 mode "epoch-history-combined" = Some (VRef lc))
    by (rewrite Hf3, Hf2, Hf1; auto).
  assert (Hfd3 : field s3 mode "epoch-history-drmsd" = Some (VRef ld))
    by (rewrite Hf3, Hf2, Hf1; auto).
  assert (lc < length (heap s2))%nat by (eapply lookup_lt_Some; by apply Hold).
  assert (ld < length (heap s2))%nat by (eapply lookup_lt_Some; by apply Hold).
  split.
  { cbn [run_ops]. rewrite run_bind. cbn [run_op]. rewrite Hrun1.
    rewrite run_ops_app, Hrun2. cbn [run_ops]. rewrite run_bind, Hrun3.
    apply run_ret. }
  split; [done|]. split; [done|].
  unfold history. rewrite Hfc3, Hfd3, Hfc, Hfd. cbn [elements_of]. rewrite Hheap3.
  repeat split.
  - rewrite list_lookup_insert_eq; [done|]. by rewrite length_insert.
  - rewrite list_lookup_insert_ne by done. by rewrite list_lookup_insert_eq.
Qed.

Lemma epoch_appends_means_witness :
  let args := options true None in
  exists s' q1 q4,
    run_ops (Reset 0 "valid" :: (Update "valid" <$> [eval_batch 1 2; eval_batch 3 4])
               ++ [Finalize "valid" 2])
      (run_ops (valid_epoch args 1 5) (started args)).2 = (Ret tt, s') /\
    epoch_mean (b_drmsd <$> [eval_batch 1 2; eval_batch 3 4]) 2 = Ret (VFloat q1) /\
    epoch_mean (b_combined <$> [eval_batch 1 2; eval_batch 3 4]) 2 = Ret (VFloat q4) /\
    history s' "valid" "epoch-history-drmsd" = Some ([VFloat 5] ++ [VFloat q1]) /\
    history s' "valid" "epoch-history-combined" = Some ([VFloat 5] ++ [VFloat q4]) /\
    field s' "valid" "epoch-history-combined"
    = field (run_ops (valid_epoch args 1 5) (started args)).2
        "valid" "epoch-history-combined" /\
    field s' "valid" "epoch-history-drmsd"
    = field (run_ops (valid_epoch args 1 5) (started args)).2
        "valid" "epoch-history-drmsd".
Proof.
  intros args.
  apply (epoch_appends_means "valid" 0 [eval_batch 1 2; eval_batch 3 4] 2).
  - vm_compute. reflexivity.
  - vm_compute. reflexivity.
  - vm_compute. discriminate.
  - vm_compute. reflexivity.
  - discriminate.
  - vm_compute. reflexivity.
Defined.

(** ** Calls that fail *)

Lemma getitem2_missing mode k d m h t :
  d !! k = None ->
  getitem2 mode k (Store (<[mode := VDict d]> m) h t)
  = (Raise (KeyError k), Store (<[mode := VDict d]> m) h t).
Proof.
  intros Hk. unfold getitem2. rewrite run_bind.
  erewrite getitem_at by apply lookup_insert_eq.
  cbv beta iota. unfold lift, subscript. by rewrite Hk.
Qed.

(** [reset_metrics_for_epoch] needs the dictionary of the split and nothing
    else: with it the call returns, whatever the dictionary holds, and the
    split is at the start of an epoch; without the split the call raises
    [KeyError] and leaves the store as it is. *)
Theorem reset_needs_only_the_split now mode s :
  match metrics s !! mode with
  | Some (VDict _) =>
      exists s', reset_metrics_for_epoch now mode s = (Ret tt, s') /\
                 in_epoch s' mode [] now /\
                 heap_grows s s' /\ trace s' = trace s
  | Some _ => reset_metrics_for_epoch now mode s = (Raise TypeError, s)
  | None => reset_metrics_for_epoch now mode s = (Raise (KeyError mode), s)
  end.
Proof.
  destruct (metrics s !! mode) as [v|] eqn:Hm.
  - destruct v as [| | | |d];
      try (unfold reset_metrics_for_epoch, setitem2; rewrite !run_bind; unfold getitem;
           rewrite Hm; reflexivity).
    destruct (reset_spec now mode s d Hm) as (s' & Hrun & Hin & Htr).
    destruct (reset_effect now mode s d Hm) as (s'' & Hrun' & Hheap & _).
    rewrite Hrun in Hrun'. injection Hrun' as <-.
    exists s'. repeat split; try done.
    intros l xs Hl. exists []. rewrite Hheap, app_nil_r. by apply lookup_app_l_Some.
  - unfold reset_metrics_for_epoch, setitem2. rewrite !run_bind. unfold getitem.
    by rewrite Hm.
Qed.

(** An update of a split that was not reset since [init_metrics] fails:
    the dictionary of the split has no running sums yet, and the call
    raises [KeyError] for [epoch-drmsd]; with [batch_level] the four batch
    losses have been stored by then. *)
Theorem update_needs_reset mode b s d :
  metrics s !! mode = Some (VDict d) ->
  d !! "epoch-drmsd" = None ->
  exists s',
    run_op (Update mode b) s = (Raise (KeyError "epoch-drmsd"), s') /\
    heap s' = heap s /\ trace s' = trace s /\
    (b_batch_level b = false -> s' = s) /\
    (b_batch_level b = true ->
     field s' mode "batch-drmsd" = Some (VFloat (b_drmsd b)) /\
     field s' mode "batch-ln-drmsd" = Some (VFloat (b_ln_drmsd b)) /\
     field s' mode "batch-mse" = Some (VFloat (b_mse b)) /\
     field s' mode "batch-combined" = Some (VFloat (b_combined b))).
Proof.
  intros Hm Hd. destruct s as [m h t]. cbn [metrics heap trace] in *.
  rewrite (store_at m h t mode d Hm).
  destruct b as [now1 now2 x1 x2 x3 x4 seq r tl bl].
  cbn [b_now1 b_now2 b_drmsd b_ln_drmsd b_mse b_combined b_src_seq b_rmsd
       b_tracking_loss b_batch_level run_op] in *.
  unfold update_metrics, iadd2.
  destruct bl; [destruct r as [r|]; [destruct (truthy (Some r))|]|].
  all: py_exec.
  all: rewrite getitem2_missing by (rewrite ?lookup_insert_ne by done; exact Hd).
  all: eexists; split; [reflexivity|]; cbn [heap trace].
  all: split; [reflexivity|]; split; [reflexivity|].
  all: split; [intros ?; try discriminate; reflexivity|].
  all: intros ?; try discriminate; rewrite !field_at; repeat split; py_lookup.
Qed.

Lemma update_needs_reset_witness :
  exists s',
    run_op (Update "train" (train_batch 1 3)) (started (options false None))
    = (Raise (KeyError "epoch-drmsd"), s') /\
    heap s' = heap (started (options false None)) /\
    trace s' = trace (started (options false None)) /\
    (b_batch_level (train_batch 1 3) = false -> s' = started (options false None)) /\
    (b_batch_level (train_batch 1 3) = true ->
     field s' "train" "batch-drmsd" = Some (VFloat (b_drmsd (train_batch 1 3))) /\
     field s' "train" "batch-ln-drmsd" = Some (VFloat (b_ln_drmsd (train_batch 1 3))) /\
     field s' "train" "batch-mse" = Some (VFloat (b_mse (train_batch 1 3))) /\
     field s' "train" "batch-combined" = Some (VFloat (b_combined (train_batch 1 3)))).
Proof.
  eapply (update_needs_reset "train" (train_batch 1 3) (started (options false None))).
  - vm_compute. reflexivity.
  - vm_compute. reflexivity.
Defined.

(** An update is not atomic.  When no time has passed since the previous
    reading of the clock, the division for the speed raises
    [ZeroDivisionError]; the losses of the batch have been added to the
    running sums by then, while the speed, the batch time and the two
    lists are as before: calling the update again for the same batch
    counts its losses twice. *)
Theorem update_fails_after_adding mode b bs last s f :
  in_epoch s mode bs last ->
  (mode = "train" -> truthy (b_rmsd b) = false) ->
  float_of_Z (num_res (b_src_seq b)) = Ret f ->
  PrimFloat.eqb (b_now1 b - last) 0 = true ->
  exists s',
    run_op (Update mode b) s = (Raise ZeroDivisionError, s') /\
    field s' mode "epoch-drmsd" = Some (running_sum ((b_drmsd <$> bs) ++ [b_drmsd b])) /\
    field s' mode "epoch-combined"
    = Some (running_sum ((b_combined <$> bs) ++ [b_combined b])) /\
    field s' mode "batch-time" = Some (VFloat last) /\
    field s' mode "speed" = field s mode "speed" /\
    heap s' = heap s.
Proof.
  intros (d & l1 & l2 & sh & Hm & H1 & H2 & H3 & H4 & H5 & [r0 H6] & H7 & H8 & H9
            & H10 & H11 & Hne) Htrain Hf Hz.
  pose proof (py_add_running_sum (b_drmsd <$> bs) (b_drmsd b)) as A1.
  pose proof (py_add_running_sum (b_ln_drmsd <$> bs) (b_ln_drmsd b)) as A2.
  pose proof (py_add_running_sum (b_mse <$> bs) (b_mse b)) as A3.
  pose proof (py_add_running_sum (b_combined <$> bs) (b_combined b)) as A4.
  destruct s as [m h t]. cbn [metrics heap trace] in *.
  rewrite (store_at m h t mode d Hm).
  destruct b as [now1 now2 x1 x2 x3 x4 seq r tl bl].
  cbn [b_now1 b_now2 b_drmsd b_ln_drmsd b_mse b_combined b_src_seq b_rmsd
       b_tracking_loss b_batch_level run_op] in *.
  assert (Hq : py_truediv (VInt (num_res seq)) (VFloat (now1 - last)) = Raise ZeroDivisionError).
  { unfold py_truediv, arith, float_truediv. by rewrite Hf, Hz. }
  unfold update_metrics, iadd2.
  assert (truthy r = true -> String.eqb mode "train" = false) as Hmode.
  { intros Hr. destruct (String.eqb_spec mode "train") as [->|]; [|done].
    rewrite Htrain in Hr; done. }
  destruct (truthy r) eqn:Hr;
    [specialize (Hmode eq_refl); rewrite Hmode in *;
     destruct r as [r|]; [|discriminate Hr];
     pose proof (py_add_running_sum (supplied (b_rmsd <$> bs)) r) as A5
    |destruct r as [r|]];
    destruct bl; rewrite ?Hr.
  all: py_exec.
  all: eexists; split; [reflexivity|].
  all: rewrite !field_at; cbn [heap]; repeat split; py_lookup.
Qed.

Lemma update_fails_after_adding_witness :
  exists s',
    run_op (Update "valid" (eval_batch 10 2))
      (run_op (Reset 10 "valid") (started (options false None))).2
    = (Raise ZeroDivisionError, s') /\
    field s' "valid" "epoch-drmsd"
    = Some (running_sum ((b_drmsd <$> []) ++ [b_drmsd (eval_batch 10 2)])) /\
    field s' "valid" "epoch-combined"
    = Some (running_sum ((b_combined <$> []) ++ [b_combined (eval_batch 10 2)])) /\
    field s' "valid" "batch-time" = Some (VFloat 10) /\
    field s' "valid" "speed"
    = field (run_op (Reset 10 "valid") (started (options false None))).2 "valid" "speed" /\
    heap s' = heap (run_op (Reset 10 "valid") (started (options false None))).2.
Proof.
  eapply (update_fails_after_adding "valid" (eval_batch 10 2) [] 10).
  - edestruct (reset_spec 10 "valid" (started (options false None))) as (s1 & Hrun & Hin & _);
      [vm_compute; reflexivity|].
    cbn [run_op]. rewrite Hrun. exact Hin.
  - discriminate.
  - vm_compute. reflexivity.
  - vm_compute. reflexivity.
Defined.

(** On the training split the epoch sum of [rmsd] is [None]; an update that
    is given an [rmsd] other than zero there raises [TypeError] when it
    adds to it, after the four other losses have been added. *)
Theorem rmsd_on_train_is_a_type_error b bs last s r :
  in_epoch s "train" bs last ->
  b_rmsd b = Some r ->
  truthy (Some r) = true ->
  exists s',
    run_op (Update "train" b) s = (Raise TypeError, s') /\
    field s' "train" "epoch-rmsd" = Some VNone /\
    field s' "train" "epoch-drmsd" = Some (running_sum ((b_drmsd <$> bs) ++ [b_drmsd b])) /\
    field s' "train" "batch-rmsd"
    = (if b_batch_level b then Some (VFloat r) else field s "train" "batch-rmsd") /\
    heap s' = heap s.
Proof.
  intros (d & l1 & l2 & sh & Hm & H1 & H2 & H3 & H4 & H5 & [r0 H6] & H7 & H8 & H9
            & H10 & H11 & Hne) Hb Hr.
  pose proof (py_add_running_sum (b_drmsd <$> bs) (b_drmsd b)) as A1.
  pose proof (py_add_running_sum (b_ln_drmsd <$> bs) (b_ln_drmsd b)) as A2.
  pose proof (py_add_running_sum (b_mse <$> bs) (b_mse b)) as A3.
  pose proof (py_add_running_sum (b_combined <$> bs) (b_combined b)) as A4.
  destruct s as [m h t]. cbn [metrics heap trace String.eqb Ascii.eqb] in *.
  rewrite (store_at m h t "train" d Hm).
  destruct b as [now1 now2 x1 x2 x3 x4 seq r' tl bl].
  cbn [b_now1 b_now2 b_drmsd b_ln_drmsd b_mse b_combined b_src_seq b_rmsd
       b_tracking_loss b_batch_level run_op] in *.
  subst r'. unfold update_metrics, iadd2. rewrite Hr.
  assert (A5 : py_add VNone (VFloat r) = Raise TypeError) by reflexivity.
  destruct bl.
  all: py_exec.
  all: eexists; split; [reflexivity|].
  all: rewrite !field_at; cbn [heap]; repeat split; py_lookup.
Qed.

Lemma rmsd_on_train_is_a_type_error_witness :
  exists s',
    run_op (Update "train" (eval_batch 12 2))
      (run_op (Reset 10 "train") (started (options false None))).2
    = (Raise TypeError, s') /\
    field s' "train" "epoch-rmsd" = Some VNone /\
    field s' "train" "epoch-drmsd"
    = Some (running_sum ((b_drmsd <$> []) ++ [b_drmsd (eval_batch 12 2)])) /\
    field s' "train" "batch-rmsd"
    = (if b_batch_level (eval_batch 12 2) then Some (VFloat 2)
       else field (run_op (Reset 10 "train") (started (options false None))).2
              "train" "batch-rmsd") /\
    heap s' = heap (run_op (Reset 10 "train") (started (options false None))).2.
Proof.
  eapply (rmsd_on_train_is_a_type_error (eval_batch 12 2) [] 10).
  - edestruct (reset_spec 10 "train" (started (options false None))) as (s1 & Hrun & Hin & _);
      [vm_compute; reflexivity|].
    cbn [run_op]. rewrite Hrun. exact Hin.
  - reflexivity.
  - vm_compute. reflexivity.
Defined.

(** [update_metrics_end_of_epoch] with [n_batches = 0] raises
    [ZeroDivisionError] at its first division and leaves the store as it
    is, whether the epoch had updates or not. *)
Theorem finalize_without_batches mode bs last s :
  in_epoch s mode bs last ->
  run_op (Finalize mode 0) s = (Raise ZeroDivisionError, s).
Proof.
  intros (d & l1 & l2 & sh & Hm & H1 & _).
  destruct s as [m h t]. cbn [metrics heap trace run_op] in *.
  rewrite (store_at m h t mode d Hm).
  unfold update_metrics_end_of_epoch, itruediv2.
  assert (Hq : py_truediv (running_sum (b_drmsd <$> bs)) (VInt 0) = Raise ZeroDivisionError).
  { destruct (b_drmsd <$> bs); [reflexivity|].
    unfold running_sum, py_truediv, arith, float_truediv.
    change (float_of_Z 0) with (Ret 0%float). cbv beta iota.
    change (PrimFloat.eqb 0 0) with true. reflexivity. }
  py_exec. reflexivity.
Qed.

Lemma finalize_without_batches_witness :
  run_op (Finalize "test" 0) (run_op (Reset 10 "test") (started (options false None))).2
  = (Raise ZeroDivisionError, (run_op (Reset 10 "test") (started (options false None))).2).
Proof.
  eapply (finalize_without_batches "test" [] 10).
  edestruct (reset_spec 10 "test" (started (options false None))) as (s1 & Hrun & Hin & _);
    [vm_compute; reflexivity|].
  cbn [run_op]. rewrite Hrun. exact Hin.
Defined.

(** ** The initial metrics *)

Lemma put_metrics_at m' m h t : put_metrics m' (Store m h t) = (Ret tt, Store m' h t).
Proof. reflexivity. Qed.

(** [init_metrics] returns in every store and keeps nothing of the metrics
    that were there: the new dictionary has the three splits, the
    learning-rate history and the two trackers, and no other entry.  The
    six epoch histories are empty, the learning-rate history is empty with
    [lr_scheduling] and [[0]] without it, the best loss is infinity and the
    epoch of the last improvement is -1; no split has running sums yet.
    The seven lists are seven different new objects, so that appending to
    one history changes no other, and no list that existed before is
    changed. *)
Theorem init_metrics_fresh args s :
  exists s',
    init_metrics args s = (Ret tt, s') /\
    trace s' = trace s /\
    (exists fresh, heap s' = heap s ++ fresh) /\
    (forall mode k, mode ∈ split_names -> k ∈ epoch_history_keys ->
                    history s' mode k = Some []) /\
    lr_history s' = Some (if lr_scheduling args then [] else [VInt 0]) /\
    best_loss_so_far s' = Some (VFloat infinity) /\
    epoch_last_improved s' = Some (VInt (-1)) /\
    NoDup (metrics s' !! "history-lr" ::
           (mode ← split_names; k ← epoch_history_keys; [field s' mode k])) /\
    (forall mode, mode ∈ split_names -> field s' mode "epoch-drmsd" = None) /\
    (forall g, g ∉ split_names ++ ["history-lr"; "epoch_last_improved";
                                   "best_valid_loss_so_far"] ->
               metrics s' !! g = None).
Proof.
  destruct s as [m h t]. unfold init_metrics.
  destruct (lr_scheduling args); cbn [negb].
  all: repeat first [ rewrite put_metrics_at | py_step ].
  all: eexists; split; [reflexivity|]; cbn [heap trace metrics].
  all: split; [reflexivity|].
  all: split; [eexists; rewrite <- !app_assoc; reflexivity|].
  all: unfold history, lr_history, best_loss_so_far, epoch_last_improved, elements_of,
         field, split; cbn [metrics heap].
  all: split;
    [intros mode k Hmode Hk; unfold split_names, epoch_history_keys in *;
     rewrite !elem_of_cons, elem_of_nil in Hmode;
     rewrite !elem_of_cons, elem_of_nil in Hk;
     destruct Hmode as [->|[->|[->|[]]]]; destruct Hk as [->|[->|[]]];
     py_lookup; cbn [lookup];
     repeat first [ apply heap_lookup_alloc | apply heap_lookup_old ]|].
  all: split;
    [py_lookup; cbn [lookup]; repeat first [ apply heap_lookup_alloc | apply heap_lookup_old ]|].
  all: split; [py_lookup|]; split; [py_lookup|].
  all: split;
    [|split;
      [intros mode Hmode; unfold split_names in Hmode;
       rewrite !elem_of_cons, elem_of_nil in Hmode;
       destruct Hmode as [->|[->|[->|[]]]]; py_lookup
      |intros g Hg; unfold split_names in Hg; cbn [app] in Hg;
       rewrite !elem_of_cons, elem_of_nil in Hg;
       rewrite !lookup_insert_ne by (intros <-; tauto); apply lookup_empty]].
  all: unfold split_names, epoch_history_keys; cbn [mbind list_bind app concat fmap list_fmap].
  all: py_lookup; rewrite ?lookup_insert_eq, ?length_app; cbn [length].
  all: repeat (apply NoDup_cons; split;
                 [rewrite ?elem_of_cons, elem_of_nil; intros H;
                  repeat (destruct H as [H|H]; [injection H as H; lia|]); exact H|]).
  all: apply NoDup_nil_2.
Qed.

(** ** What a training batch logs *)

Lemma with_trace_inj t1 t2 t s :
  with_trace (t ++ t1) s = with_trace (t ++ t2) s -> t1 = t2.
Proof. intros H. apply (f_equal trace) in H. cbn in H. by apply app_inv_head in H. Qed.

Lemma log_and_print args now start s :
  loggable args s ->
  exists row line lrs lr,
    log_batch now start "train" false None s
    = (Ret tt, with_trace (trace s ++ [ECsvRow row]) s) /\
    print_status_train_epoch args (with_trace (trace s ++ [ECsvRow row]) s)
    = (Ret tt, with_trace (trace s ++ [ECsvRow row; line]) s) /\
    lr_history s = Some lrs /\
    last lrs = Some lr /\
    row !! 5%nat = Some (CVal lr) /\
    is_status_line line = true.
Proof.
  intros Hlog.
  destruct (log_batch_ok args now start s Hlog) as [row Hrow].
  destruct (log_batch_cells _ _ _ _ _ _ _ Hrow)
    as (c1 & c2 & mse & c3 & c4 & c5 & lrs & c6 & c9 & c10 & Heq & _ & _ & _ & _ & _ & _
          & Hlrs & Hlast & _).
  apply with_trace_inj in Heq. injection Heq as ->.
  set (row := [CVal c1; CVal c2; CVal c3; CVal c4; CVal c5; CVal c6; CStr "train";
               CStr "epoch"; CVal c9; CVal c10]) in *.
  destruct (print_status_ok args _
              (loggable_with_trace args (trace s ++ [ECsvRow row]) s Hlog)) as [t' Ht'].
  pose proof (print_status_line args (with_trace (trace s ++ [ECsvRow row]) s)) as Hline.
  rewrite Ht' in Hline. destruct Hline as (tpl & fargs & losses & Heq & _).
  apply with_trace_inj in Heq. subst t'.
  eexists _, _, lrs, c6.
  split; [exact Hrow|split; [|split; [exact Hlrs|split; [exact Hlast|split]]]].
  - rewrite Ht'. unfold with_trace. cbn [metrics heap trace]. by rewrite <- app_assoc.
  - reflexivity.
  - by destruct (cluster args).
Qed.

Lemma train_logging_effect args now1 now2 now3 x1 x2 x3 x4 seq loss lr start step bs last s :
  in_epoch s "train" bs last ->
  lr_ready args s ->
  metrics s !! "history-lr" <> field s "train" "speed-history" ->
  metrics s !! "history-lr" <> field s "train" "batch-history" ->
  defined (throughput seq now1 last) = true ->
  let c1 := Z.eqb step 0 || Z.eqb (log_wandb_step args mod step) 0 in
  let c2 := Z.eqb step 0 || Z.eqb (log_structure_step args mod step) 0 in
  exists s' speed lrs row line,
    do_train_batch_logging now1 now2 now3 x1 x2 x3 x4 seq loss lr args start step s
    = (if PrimFloat.is_nan loss then Raise (SystemExit 1) else Ret tt, s') /\
    lr_history s = Some lrs /\
    lr_history s' = Some (if lr_scheduling args then lrs ++ [VFloat lr] else lrs) /\
    row !! 5%nat = (if lr_scheduling args then Some (CVal (VFloat lr)) else CVal <$> list.last lrs) /\
    is_status_line line = true /\
    trace s' = trace s
      ++ (if c1 then [EWandbLog [("Train RMSE", VFloat (PrimFloat.sqrt x3));
                                 ("Train DRMSD", VFloat x1);
                                 ("Train ln-DRMSD", VFloat x2);
                                 ("Train Combined Loss", VFloat x4);
                                 ("Train Speed", speed)]
                        (Some (negb (lr_scheduling args) && negb c2))]
          else [])
      ++ (if lr_scheduling args && c1
          then [EWandbLog [("Learning Rate", VFloat lr)] (Some (negb c2))] else [])
      ++ [ECsvRow row; line]
      ++ (if PrimFloat.is_nan loss then [nan_message]
          else if c2 then [EWandbCloud "backbone_cloud" (Some false);
                           EWandbCloud "structure_cloud" None]
          else []).
Proof.
  intros Hin Hlr Hns Hnb Hclock c1 c2.
  set (b := Batch now1 now2 x1 x2 x3 x4 seq None (Some loss) true).
  destruct (update_spec "train" b bs last s Hin Hclock (fun _ => eq_refl))
    as (s1 & Hrun & Hin1 & Htr1 & Hb & _ & Hv & _ & Hframe).
  destruct (update_effect "train" b bs last s Hin Hclock (fun _ => eq_refl))
    as (s1' & q & l_s & l_b & speeds & Hrun' & _ & Hfs & _ & Hfb & _ & _ & Hheap & _).
  rewrite Hrun in Hrun'. injection Hrun' as <-.
  destruct (loggable_after_update args bs last s b s1 Hin Hlr eq_refl Hrun Hin1
              (Hb eq_refl) Hv Hframe)
    as (l & lrs & v & Hl1 & Hlrs1 & Fv & Hlog0 & Hlog1).
  assert (Hl : metrics s !! "history-lr" = Some (VRef l)) by (by rewrite <- Hframe).
  assert (Hlrs : heap s !! l = Some lrs).
  { rewrite <- Hheap; [done|intros ->; apply Hns; congruence|intros ->; apply Hnb; congruence]. }
  assert (Hlen : (l < length (heap s1))%nat) by (by eapply lookup_lt_Some).
  unfold do_train_batch_logging. rewrite run_bind.
  change (update_metrics now1 now2 "train" x1 x2 x3 x4 seq None (Some loss) true)
    with (run_op (Update "train" b)).
  rewrite Hrun. cbv beta iota.
  fold c1 c2. clearbody c1 c2.
  destruct c1, (lr_scheduling args) eqn:Hsched.
  all: repeat first
    [ rewrite run_bind
    | rewrite run_ret'
    | rewrite emit_run
    | erewrite (getitem2_run "train" "speed") by exact Fv
    | erewrite (getitem_run "history-lr") by exact Hl1
    | erewrite list_append_run by exact Hlrs1
    | progress cbv beta iota ].
  all: match goal with
       | |- context [log_batch _ _ _ _ _ ?s2] =>
           assert (Hlog : loggable args s2)
             by (first [ exact (Hlog0 eq_refl) | apply Hlog1 ]);
           destruct (log_and_print args now3 start s2 Hlog)
             as (row & line & lrs2 & lr2 & Hrow & Hprint & Hlrs2 & Hlast & Hcell & Hline)
       end.
  all: rewrite Hrow; cbv beta iota; rewrite ?run_bind, Hprint; clear Hrow Hprint.
  all: destruct (PrimFloat.is_nan loss), c2.
  all: repeat first
    [ rewrite run_bind
    | rewrite run_ret'
    | rewrite run_raise
    | rewrite emit_run
    | progress unfold log_structure
    | progress cbv beta iota ].
  all: eexists _, (VFloat v), lrs, row, line; split; [reflexivity|].
  all: unfold lr_history, elements_of in *;
    cbn [metrics heap trace with_trace with_heap] in *; rewrite Hl, ?Hl1 in *.
  all: split; [exact Hlrs|].
  all: rewrite ?list_lookup_insert_eq in * by lia.
  all: split; [first [reflexivity | exact Hlrs1]|].
  all: rewrite ?Hlrs1 in *; injection Hlrs2 as <-; rewrite ?last_snoc in Hlast.
  all: split; [first [by injection Hlast as <- | by rewrite Hlast]|].
  all: split; [exact Hline|].
  all: rewrite Htr1; cbn [andb]; rewrite <- ?app_assoc; reflexivity.
Qed.

(** The row that a training batch writes carries the learning rate of the
    optimizer when [lr_scheduling] is on: the rate is appended to the
    learning-rate history before the row is written.  Without
    [lr_scheduling] the history is not touched and the row repeats its last
    entry, the 0 of [init_metrics]. *)
Theorem row_carries_current_lr args now1 now2 now3 x1 x2 x3 x4 seq loss lr start step
    bs last s :
  in_epoch s "train" bs last ->
  lr_ready args s ->
  metrics s !! "history-lr" <> field s "train" "speed-history" ->
  metrics s !! "history-lr" <> field s "train" "batch-history" ->
  defined (throughput seq now1 last) = true ->
  exists s' lrs row,
    do_train_batch_logging now1 now2 now3 x1 x2 x3 x4 seq loss lr args start step s
    = (if PrimFloat.is_nan loss then Raise (SystemExit 1) else Ret tt, s') /\
    lr_history s = Some lrs /\
    lr_history s' = Some (if lr_scheduling args then lrs ++ [VFloat lr] else lrs) /\
    rows_written (trace s') = rows_written (trace s) ++ [row] /\
    row !! 5%nat = (if lr_scheduling args then Some (CVal (VFloat lr))
                    else CVal <$> list.last lrs).
Proof.
  intros Hin Hlr Hns Hnb Hclock.
  destruct (train_logging_effect args now1 now2 now3 x1 x2 x3 x4 seq loss lr start step
              bs last s Hin Hlr Hns Hnb Hclock)
    as (s' & speed & lrs & row & line & Hrun & Hlrs & Hlrs' & Hcell & Hline & Htrace).
  exists s', lrs, row. repeat split; try done.
  rewrite Htrace. unfold rows_written. rewrite !omap_app.
  destruct line; try discriminate Hline.
  all: repeat match goal with |- context [if ?c then _ else _] => destruct c end.
  all: cbn; by rewrite ?app_nil_r.
Qed.

Lemma row_carries_current_lr_witness :
  let args := Args false true None true false 1 1 in
  exists s' lrs row,
    do_train_batch_logging 1 2 3 1 1 1 1 [[1; 0]; [2; 3]] 4 0.5 args 0 1
      (run_op (Reset 0 "train") (started args)).2
    = (if PrimFloat.is_nan 4 then Raise (SystemExit 1) else Ret tt, s') /\
    lr_history (run_op (Reset 0 "train") (started args)).2 = Some lrs /\
    lr_history s' = Some (if lr_scheduling args then lrs ++ [VFloat 0.5] else lrs) /\
    rows_written (trace s')
    = rows_written (trace (run_op (Reset 0 "train") (started args)).2) ++ [row] /\
    row !! 5%nat = (if lr_scheduling args then Some (CVal (VFloat 0.5))
                    else CVal <$> list.last lrs).
Proof.
  intros args.
  apply (row_carries_current_lr args 1 2 3 1 1 1 1 [[1; 0]; [2; 3]] 4 0.5 0 1 [] 0).
  - edestruct (reset_spec 0 "train" (started args)) as (s1 & Hrun & Hin & _);
      [vm_compute; reflexivity|].
    cbn [run_op]. rewrite Hrun. exact Hin.
  - unfold lr_ready. eexists _, _.
    repeat match goal with |- _ /\ _ => split end.
    all: first [ vm_compute; reflexivity | discriminate ].
  - vm_compute. discriminate.
  - vm_compute. discriminate.
  - vm_compute. reflexivity.
Defined.

(** A training batch with a loss that is not NaN commits at most once to
    wandb, and with its last call of [wandb.log]: every earlier call of the
    batch has [commit=False], so all that the batch logs lands in one wandb
    step.  It logs nothing to wandb only if the step is not zero and divides
    neither [log_wandb_step] nor [log_structure_step]. *)
Theorem one_wandb_commit_per_batch args now1 now2 now3 x1 x2 x3 x4 seq loss lr start step
    bs last s :
  in_epoch s "train" bs last ->
  lr_ready args s ->
  metrics s !! "history-lr" <> field s "train" "speed-history" ->
  metrics s !! "history-lr" <> field s "train" "batch-history" ->
  defined (throughput seq now1 last) = true ->
  PrimFloat.is_nan loss = false ->
  exists s' new,
    do_train_batch_logging now1 now2 now3 x1 x2 x3 x4 seq loss lr args start step s
    = (Ret tt, s') /\
    trace s' = trace s ++ new /\
    (omap wandb_commit new = [] \/
     exists k, omap wandb_commit new = replicate k false ++ [true]) /\
    (omap wandb_commit new = [] <->
     step <> 0 /\ log_wandb_step args mod step <> 0 /\ log_structure_step args mod step <> 0).
Proof.
  intros Hin Hlr Hns Hnb Hclock Hnan.
  destruct (train_logging_effect args now1 now2 now3 x1 x2 x3 x4 seq loss lr start step
              bs last s Hin Hlr Hns Hnb Hclock)
    as (s' & speed & lrs & row & line & Hrun & _ & _ & _ & Hline & Htrace).
  rewrite Hnan in Hrun, Htrace.
  eexists s', _. split; [exact Hrun|]. split; [exact Htrace|].
  rewrite !omap_app.
  assert (Hc : forall x : Z,
            (Z.eqb step 0 || Z.eqb (x mod step) 0 = false) <-> step <> 0 /\ x mod step <> 0).
  { intros x. rewrite orb_false_iff, !Z.eqb_neq. tauto. }
  pose proof (Hc (log_wandb_step args)) as H1.
  pose proof (Hc (log_structure_step args)) as H2.
  destruct (Z.eqb step 0 || Z.eqb (log_wandb_step args mod step) 0),
    (Z.eqb step 0 || Z.eqb (log_structure_step args mod step) 0),
    (lr_scheduling args); destruct line; try discriminate Hline; cbn.
  all: split;
    [first [ by left
           | right; by exists 0%nat | right; by exists 1%nat
           | right; by exists 2%nat | right; by exists 3%nat ]|].
  all: split; [try discriminate|intros (? & ? & ?)].
  all: try (intros _; split; [tauto|split; tauto]).
  all: try (assert (true = false) by (apply H1; tauto); discriminate).
  all: try (assert (true = false) by (apply H2; tauto); discriminate).
  all: try (destruct (proj1 H1 eq_refl); destruct (proj1 H2 eq_refl); tauto).
Qed.

Lemma one_wandb_commit_per_batch_witness :
  let args := Args false true None true false 1 1 in
  exists s' new,
    do_train_batch_logging 1 2 3 1 1 1 1 [[1; 0]; [2; 3]] 4 0.5 args 0 1
      (run_op (Reset 0 "train") (started args)).2 = (Ret tt, s') /\
    trace s' = trace (run_op (Reset 0 "train") (started args)).2 ++ new /\
    (omap wandb_commit new = [] \/
     exists k, omap wandb_commit new = replicate k false ++ [true]) /\
    (omap wandb_commit new = [] <->
     1 <> 0 /\ log_wandb_step args mod 1 <> 0 /\ log_structure_step args mod 1 <> 0).
Proof.
  intros args.
  apply (one_wandb_commit_per_batch args 1 2 3 1 1 1 1 [[1; 0]; [2; 3]] 4 0.5 0 1 [] 0).
  - edestruct (reset_spec 0 "train" (started args)) as (s1 & Hrun & Hin & _);
      [vm_compute; reflexivity|].
    cbn [run_op]. rewrite Hrun. exact Hin.
  - unfold lr_ready. eexists _, _.
    repeat match goal with |- _ /\ _ => split end.
    all: first [ vm_compute; reflexivity | discriminate ].
  - vm_compute. discriminate.
  - vm_compute. discriminate.
  - vm_compute. reflexivity.
  - vm_compute. reflexivity.
Defined.

(** ** The log of an evaluation batch *)

Section FieldFrame.
Context (mode k : string) (v : option val) (E : exn -> Prop).
Context (HE : forall e, lookup_error e -> E e).

Lemma field_frame_setitem2 mode' k' x :
  (mode' = mode -> k' <> k) -> sound (keeps_field mode k v) E (setitem2 mode' k' x).
Proof.
  intros Hne s Hs. unfold setitem2, mbind, M_bind, bind, getitem.
  destruct (metrics s !! mode') as [d|] eqn:Hm; cbn [fst snd].
  2:{ split; [done|]. intros e [= <-]. by apply HE. }
  destruct d; try (split; [done|intros e [= <-]; by apply HE]).
  unfold setitem. cbn [fst snd]. split; [|discriminate].
  unfold keeps_field in *. destruct (decide (mode' = mode)) as [->|Hmode].
  - rewrite field_insert_other_key; [done..|]. by apply Hne.
  - by rewrite field_insert_other_mode.
Qed.

Lemma field_frame_list_append l x : sound (keeps_field mode k v) E (list_append l x).
Proof.
  intros s Hs. unfold list_append.
  destruct l; try (split; [done|intros e [= <-]; by apply HE]).
  destruct (heap s !! l); (split; [done|]); [discriminate|intros e [= <-]; by apply HE].
Qed.

Lemma field_frame_eval_update now1 now2 x1 x2 x3 x4 seq r :
  k ∈ ["batch-drmsd"; "batch-ln-drmsd"; "batch-mse"; "batch-combined"; "batch-rmsd";
       "batch-history"] ->
  sound (keeps_field mode k v) E
    (update_metrics now1 now2 mode x1 x2 x3 x4 seq r None false).
Proof.
  intros Hk. rewrite !elem_of_cons, elem_of_nil in Hk.
  unfold update_metrics, iadd2.
  repeat first
    [ sound_step
    | apply field_frame_setitem2; intros _;
      destruct Hk as [->|[->|[->|[->|[->|[->|[]]]]]]]; discriminate
    | apply field_frame_list_append ].
Qed.

End FieldFrame.

Lemma title_split_names :
  title <$> split_names = ["Train"; "Valid"; "Test"].
Proof. reflexivity. Qed.

(** The log of an evaluation batch inside an epoch adds the losses to the
    running sums of the split and records the speed, but leaves the
    batch-level losses and the batch loss history as they are.  It sends
    one record to wandb, whose keys begin with the name of the split in
    title case ([Valid RMSE], ...), with the default commit, and then,
    unless [args.cluster] is set, one description of the progress bar. *)
Theorem eval_logging_effect now1 now2 x1 x2 x3 x4 r seq args mode bs last s :
  in_epoch s mode bs last ->
  defined (throughput seq now1 last) = true ->
  (mode = "train" -> truthy r = false) ->
  exists s' speed,
    do_eval_epoch_logging now1 now2 x1 x2 x3 x4 r seq args mode s = (Ret tt, s') /\
    in_epoch s' mode (bs ++ [Batch now1 now2 x1 x2 x3 x4 seq r None false]) now2 /\
    (forall k, k ∈ ["batch-drmsd"; "batch-ln-drmsd"; "batch-mse"; "batch-combined";
                    "batch-rmsd"] -> field s' mode k = field s mode k) /\
    history s' mode "batch-history" = history s mode "batch-history" /\
    field s' mode "speed" = Some speed /\
    trace s' = trace s
      ++ [EWandbLog [(title mode +:+ " RMSE", VFloat (PrimFloat.sqrt x3));
                     (title mode +:+ " RMSD", from_option VFloat VNone r);
                     (title mode +:+ " DRMSD", VFloat x1);
                     (title mode +:+ " ln-DRMSD", VFloat x2);
                     (title mode +:+ " Combined Loss", VFloat x4);
                     (title mode +:+ " Speed", speed)] None]
      ++ (if cluster args then []
          else [EPbar "\r  - (Eval-{1}) drmsd = {0:.6f}, rmse = {2:.6f}, comb = {3:.6f}"
                  [FNum x1; FStr mode; FNum (PrimFloat.sqrt x3); FNum x4]]).
Proof.
  intros Hin Hclock Htrain.
  set (b := Batch now1 now2 x1 x2 x3 x4 seq r None false).
  destruct (update_spec mode b bs last s Hin Hclock Htrain)
    as (s1 & Hrun & Hin1 & Htr1 & _ & _ & [v Hv] & _ & _).
  assert (Hkeep : forall k,
            k ∈ ["batch-drmsd"; "batch-ln-drmsd"; "batch-mse"; "batch-combined";
                 "batch-rmsd"; "batch-history"] -> field s1 mode k = field s mode k).
  { intros k Hk.
    destruct (field_frame_eval_update mode k (field s mode k) (fun _ => True) (fun _ _ => I)
                now1 now2 x1 x2 x3 x4 seq r Hk s eq_refl) as [H _].
    cbn [run_op b_now1 b_now2 b_drmsd b_ln_drmsd b_mse b_combined b_src_seq b_rmsd
         b_tracking_loss b_batch_level b] in Hrun.
    by rewrite Hrun in H. }
  exists (with_trace
            (trace s1
             ++ [EWandbLog [(title mode +:+ " RMSE", VFloat (PrimFloat.sqrt x3));
                            (title mode +:+ " RMSD", from_option VFloat VNone r);
                            (title mode +:+ " DRMSD", VFloat x1);
                            (title mode +:+ " ln-DRMSD", VFloat x2);
                            (title mode +:+ " Combined Loss", VFloat x4);
                            (title mode +:+ " Speed", VFloat v)] None]
             ++ (if cluster args then []
                 else [EPbar "\r  - (Eval-{1}) drmsd = {0:.6f}, rmse = {2:.6f}, comb = {3:.6f}"
                         [FNum x1; FStr mode; FNum (PrimFloat.sqrt x3); FNum x4]])) s1),
    (VFloat v).
  split.
  { unfold do_eval_epoch_logging, print_status_eval_epoch. rewrite run_bind.
    change (update_metrics now1 now2 mode x1 x2 x3 x4 seq r None false)
      with (run_op (Update mode b)).
    rewrite Hrun. cbv beta iota. rewrite run_bind.
    rewrite (getitem2_run mode "speed" _ _ Hv). cbv beta iota.
    rewrite run_bind, emit_run. cbv beta iota.
    destruct (cluster args); cbn [negb].
    - rewrite run_ret'. unfold with_trace. cbn. by rewrite ?app_nil_r.
    - rewrite emit_run. unfold with_trace. cbn. by rewrite <- ?app_assoc. }
  split; [exact Hin1|].
  split.
  { intros k Hk. apply (Hkeep k). rewrite !elem_of_cons in *. tauto. }
  split.
  { unfold history. change (field (with_trace ?t s1) mode ?k) with (field s1 mode k).
    rewrite Hkeep by (rewrite !elem_of_cons; tauto).
    destruct (field s mode "batch-history") as [[| | |l|]|] eqn:Hf; try done.
    cbn [elements_of heap with_trace].
    destruct (update_effect mode b bs last s Hin Hclock Htrain)
      as (s1' & q & l_s & l_b & speeds & Hrun' & _ & Hfs & _ & Hfb & _ & _ & Hheap & _).
    rewrite Hrun in Hrun'. injection Hrun' as <-.
    rewrite Hf in Hfb. injection Hfb as <-.
    destruct Hin as (d & l1 & l2 & sh & Hm & _ & _ & _ & _ & _ & _ & _ & H8 & H9 & H10 & H11 & Hne).
    destruct Hin1 as (d' & l1' & l2' & sh' & Hm' & _ & _ & _ & _ & _ & _ & _ & H8' & H9'
                        & H10' & H11' & Hne').
    rewrite (field_of_split _ _ _ _ Hm) in Hf. rewrite H10 in Hf. injection Hf as <-.
    assert (Hf1 : field s1 mode "batch-history" = Some (VRef l2))
      by (rewrite Hkeep by (rewrite !elem_of_cons; tauto);
          by rewrite (field_of_split _ _ _ _ Hm)).
    rewrite (field_of_split _ _ _ _ Hm') in Hf1. rewrite H10' in Hf1. injection Hf1 as ->.
    rewrite H11, H11'. subst b. rewrite !fmap_app. cbn [fmap list_fmap b_tracking_loss].
    rewrite supplied_snoc. cbn. by rewrite app_nil_r. }
  split; [exact Hv|].
  cbn [trace with_trace]. by rewrite Htr1.
Qed.

Lemma eval_logging_effect_witness :
  exists s' speed,
    do_eval_epoch_logging 1 2 3 4 5 6 (Some 7%float) [[1; 0]; [2; 3]] (options true None) "valid"
      (run_op (Reset 0 "valid") (started (options true None))).2 = (Ret tt, s') /\
    field s' "valid" "epoch-rmsd" = Some (VFloat 7) /\
    field s' "valid" "batch-rmsd" = Some (VInt 0) /\
    field s' "valid" "speed" = Some speed /\
    list.last (trace s')
    = Some (EPbar "\r  - (Eval-{1}) drmsd = {0:.6f}, rmse = {2:.6f}, comb = {3:.6f}"
              [FNum 3; FStr "valid"; FNum (PrimFloat.sqrt 5); FNum 6]).
Proof.
  destruct (eval_logging_effect 1 2 3 4 5 6 (Some 7%float) [[1; 0]; [2; 3]]
              (options true None) "valid" [] 0
              (run_op (Reset 0 "valid") (started (options true None))).2)
    as (s' & speed & Hrun & Hin & Hbatch & _ & Hspeed & Htrace).
  - edestruct (reset_spec 0 "valid" (started (options true None))) as (s1 & Hrun & Hin & _);
      [vm_compute; reflexivity|].
    cbn [run_op]. rewrite Hrun. exact Hin.
  - vm_compute. reflexivity.
  - discriminate.
  - exists s', speed. split; [exact Hrun|].
    destruct (in_epoch_views _ _ _ _ Hin) as (_ & _ & _ & _ & Hr & _).
    split; [rewrite Hr; vm_compute; reflexivity|].
    split; [rewrite Hbatch by (rewrite !elem_of_cons; tauto); vm_compute; reflexivity|].
    split; [exact Hspeed|].
    rewrite Htrace. cbn [options cluster]. rewrite app_assoc. apply last_snoc.
Defined.

(** ** The name of the model *)

Lemma rfind_from_absent c i acc s :
  c ∉ list_ascii_of_string s -> rfind_from c i acc s = acc.
Proof.
  revert i acc. induction s as [|c' rest IH]; intros i acc Hc; [reflexivity|].
  cbn [list_ascii_of_string] in Hc. apply not_elem_of_cons in Hc as [Hne Hc].
  cbn [rfind_from]. destruct (Ascii.eqb_spec c' c) as [->|_]; [done|]. by apply IH.
Qed.

Lemma append_nil_l (x : string) : EmptyString +:+ x = x.
Proof. reflexivity. Qed.

Lemma append_cons c (a x : string) : String c a +:+ x = String c (a +:+ x).
Proof. reflexivity. Qed.

Lemma length_append (a b : string) :
  String.length (a +:+ b) = (String.length a + String.length b)%nat.
Proof.
  induction a as [|c rest IH]; [reflexivity|].
  rewrite append_cons. cbn [String.length]. by rewrite IH.
Qed.

Lemma append_assoc (a b c : string) : (a +:+ b) +:+ c = a +:+ (b +:+ c).
Proof.
  induction a as [|x rest IH]; [reflexivity|]. rewrite !append_cons. by rewrite IH.
Qed.

Lemma rfind_from_last c i acc a b :
  c ∉ list_ascii_of_string b ->
  rfind_from c i acc (a +:+ String c b) = i + Z.of_nat (String.length a).
Proof.
  intros Hb. revert i acc. induction a as [|c' rest IH]; intros i acc.
  - rewrite append_nil_l. cbn [rfind_from String.length]. rewrite Ascii.eqb_refl.
    rewrite rfind_from_absent by done. lia.
  - rewrite append_cons. cbn [rfind_from String.length]. rewrite IH. lia.
Qed.

Lemma drop_chars_app a b : drop_chars (String.length a) (a +:+ b) = b.
Proof. induction a as [|c rest IH]; [by destruct b|exact IH]. Qed.

Lemma take_chars_app a b : take_chars (String.length a) (a +:+ b) = a.
Proof.
  induction a as [|c rest IH]; [by destruct b|].
  rewrite append_cons. cbn [String.length take_chars]. by rewrite IH.
Qed.

Lemma basename_of_path dir name :
  "/"%char ∉ list_ascii_of_string name ->
  basename (dir +:+ String "/" name) = name.
Proof.
  intros Hname. unfold basename, rfind. rewrite rfind_from_last by done.
  unfold slice_from. destruct (Z.ltb_spec (0 + Z.of_nat (String.length dir) + 1) 0); [lia|].
  replace (Z.to_nat (0 + Z.of_nat (String.length dir) + 1))
    with (String.length (dir +:+ String "/" EmptyString)).
  - replace (dir +:+ String "/" name) with ((dir +:+ String "/" EmptyString) +:+ name).
    + apply drop_chars_app.
    + by rewrite append_assoc.
  - rewrite length_append. cbn [String.length]. lia.
Qed.

Lemma basename_plain name :
  "/"%char ∉ list_ascii_of_string name -> basename name = name.
Proof.
  intros Hname. unfold basename, rfind. rewrite rfind_from_absent by done.
  reflexivity.
Qed.

Lemma splitext_stem stem ext :
  "/"%char ∉ list_ascii_of_string stem ->
  "/"%char ∉ list_ascii_of_string ext ->
  "."%char ∉ list_ascii_of_string ext ->
  (exists c, c ∈ list_ascii_of_string stem /\ c <> "."%char) ->
  splitext (stem +:+ String "." ext) = (stem, String "." ext).
Proof.
  intros Hs He Hd (c & Hc & Hne). unfold splitext, rfind.
  assert (Hsep : "/"%char ∉ list_ascii_of_string (stem +:+ String "." ext)).
  { clear -Hs He. induction stem as [|c rest IH].
    - rewrite append_nil_l. cbn. apply not_elem_of_cons. split; [discriminate|done].
    - rewrite append_cons. cbn [list_ascii_of_string] in *. apply not_elem_of_cons in Hs as [? ?].
      apply not_elem_of_cons. split; [done|]. by apply IH. }
  rewrite (rfind_from_absent "/") by done.
  rewrite rfind_from_last by done.
  destruct (Z.ltb_spec (-1) (0 + Z.of_nat (String.length stem))); [|lia].
  unfold slice_to, slice_from.
  destruct (Z.ltb_spec (0 + Z.of_nat (String.length stem)) 0); [lia|].
  replace (Z.to_nat (0 + Z.of_nat (String.length stem))) with (String.length stem) by lia.
  rewrite take_chars_app.
  change (Z.to_nat (-1 + 1)) with 0%nat.
  assert (Hdrop0 : forall s, drop_chars 0 s = s) by (by intros []).
  rewrite Hdrop0.
  assert (Hdots : forallb (Ascii.eqb ".") (list_ascii_of_string stem) = false).
  { apply not_true_is_false. rewrite forallb_forall. intros Hall.
    apply list_elem_of_In in Hc. specialize (Hall c Hc).
    apply Ascii.eqb_eq in Hall. congruence. }
  rewrite Hdots. f_equal.
  replace (stem +:+ String "." ext) with (stem +:+ (String "." ext)) by reflexivity.
  apply drop_chars_app.
Qed.

(** [get_model_name] returns the stem of the file: for a path that ends in
    [stem.ext], with or without directories before it, the result is
    [stem], when [ext] has no dot and [stem] is not made of dots only; a
    file name without any dot is returned whole.  This covers the example
    of the docstring, ["logs/0613/0613-q1-0000.train"]. *)
Theorem get_model_name_is_stem dir stem ext :
  "/"%char ∉ list_ascii_of_string stem ->
  "/"%char ∉ list_ascii_of_string ext ->
  "."%char ∉ list_ascii_of_string ext ->
  (exists c, c ∈ list_ascii_of_string stem /\ c <> "."%char) ->
  get_model_name (dir +:+ String "/" (stem +:+ String "." ext)) = stem /\
  get_model_name (stem +:+ String "." ext) = stem /\
  get_model_name (dir +:+ String "/" ext) = ext.
Proof.
  intros Hs He Hd Hc.
  assert (Hname : "/"%char ∉ list_ascii_of_string (stem +:+ String "." ext)).
  { clear -Hs He. induction stem as [|c rest IH].
    - rewrite append_nil_l. cbn. apply not_elem_of_cons. split; [discriminate|done].
    - rewrite append_cons. cbn [list_ascii_of_string] in *. apply not_elem_of_cons in Hs as [? ?].
      apply not_elem_of_cons. split; [done|]. by apply IH. }
  unfold get_model_name. repeat split.
  - rewrite basename_of_path by done. by rewrite splitext_stem.
  - rewrite basename_plain by done. by rewrite splitext_stem.
  - rewrite basename_of_path by done. unfold splitext, rfind.
    rewrite !rfind_from_absent by done. reflexivity.
Qed.

Lemma get_model_name_is_stem_witness :
  get_model_name "logs/0613/0613-q1-0000.train" = "0613-q1-0000"%string.
Proof.
  apply (get_model_name_is_stem "logs/0613" "0613-q1-0000" "train").
  - cbn. rewrite !elem_of_cons, elem_of_nil. intros H.
    repeat (destruct H as [H|H]; [discriminate H|]). exact H.
  - cbn. rewrite !elem_of_cons, elem_of_nil. intros H.
    repeat (destruct H as [H|H]; [discriminate H|]). exact H.
  - cbn. rewrite !elem_of_cons, elem_of_nil. intros H.
    repeat (destruct H as [H|H]; [discriminate H|]). exact H.
  - exists "0"%char. split; [cbn; rewrite elem_of_cons; by left|discriminate].
Defined.

(** ** Titles and file names of the plots *)

Lemma list_ascii_append (a b : string) :
  list_ascii_of_string (a +:+ b) = list_ascii_of_string a ++ list_ascii_of_string b.
Proof.
  induction a as [|c rest IH]; [reflexivity|].
  rewrite append_cons. cbn [list_ascii_of_string app]. by rewrite IH.
Qed.

Lemma prefix_sep old c a b :
  c ∉ list_ascii_of_string old ->
  old <> EmptyString ->
  String.prefix old (a +:+ String c b) = String.prefix old a.
Proof.
  revert a. induction old as [|o old IH]; intros a Hc Hne; [done|].
  cbn [list_ascii_of_string] in Hc. apply not_elem_of_cons in Hc as [Hoc Hc].
  destruct a as [|x a].
  - rewrite append_nil_l. cbn [String.prefix].
    destruct (ascii_dec o c) as [->|_]; [done|reflexivity].
  - rewrite append_cons. cbn [String.prefix].
    destruct (ascii_dec o x) as [_|_]; [|reflexivity].
    destruct old as [|o' old].
    + by destruct a.
    + by apply IH.
Qed.

Lemma prefix_length old a :
  String.prefix old a = true -> (String.length old <= String.length a)%nat.
Proof.
  revert a. induction old as [|o old IH]; intros a H; [cbn; lia|].
  destruct a as [|x a]; [discriminate H|].
  cbn [String.prefix] in H. destruct (ascii_dec o x); [|discriminate H].
  cbn [String.length]. apply IH in H. lia.
Qed.

(** A replacement does not reach across a character that is not in [old]. *)
Lemma replace_from_sep old new c b :
  c ∉ list_ascii_of_string old ->
  old <> EmptyString ->
  forall a skip,
    (skip <= String.length a)%nat ->
    replace_from old new skip (a +:+ String c b)
    = replace_from old new skip a +:+ String c (replace_from old new 0 b).
Proof.
  intros Hc Hne. induction a as [|x a IH]; intros skip Hskip.
  - cbn [String.length] in Hskip. replace skip with 0%nat by lia.
    rewrite append_nil_l. cbn [replace_from].
    rewrite <- (append_nil_l (String c b)) at 1.
    rewrite prefix_sep by done.
    destruct old; [done|]. cbn [String.prefix]. by rewrite append_nil_l.
  - rewrite append_cons. destruct skip as [|k].
    + cbn [replace_from]. rewrite <- append_cons, prefix_sep by done.
      destruct (String.prefix old (String x a)) eqn:Hp.
      * apply prefix_length in Hp. cbn [String.length] in Hp.
        rewrite IH by lia. by rewrite append_assoc.
      * rewrite IH by lia. by rewrite append_cons.
    + cbn [replace_from]. cbn [String.length] in Hskip. apply IH. lia.
Qed.

Lemma replace_sep old new c a b :
  c ∉ list_ascii_of_string old ->
  old <> EmptyString ->
  replace old new (a +:+ String c b)
  = replace old new a +:+ String c (replace old new b).
Proof.
  intros Hc Hne. unfold replace. destruct old; [done|].
  apply replace_from_sep; [done|done|lia].
Qed.

Lemma replace_from_absent old new c :
  c ∉ list_ascii_of_string new ->
  forall s skip,
    c ∉ list_ascii_of_string s ->
    c ∉ list_ascii_of_string (replace_from old new skip s).
Proof.
  intros Hnew. induction s as [|x s IH]; intros skip Hs; [done|].
  cbn [list_ascii_of_string] in Hs. apply not_elem_of_cons in Hs as [Hx Hs].
  destruct skip as [|k]; cbn [replace_from]; [|by apply IH].
  destruct (String.prefix old (String x s)).
  - rewrite list_ascii_append. apply not_elem_of_app. split; [done|by apply IH].
  - cbn [list_ascii_of_string]. apply not_elem_of_cons. split; [done|by apply IH].
Qed.

Lemma replace_absent old new c s :
  old <> EmptyString ->
  c ∉ list_ascii_of_string new ->
  c ∉ list_ascii_of_string s ->
  c ∉ list_ascii_of_string (replace old new s).
Proof.
  intros Hne Hnew Hs. unfold replace. destruct old; [done|]. by apply replace_from_absent.
Qed.

Lemma find_absent c s : c ∉ list_ascii_of_string s -> find c s = -1.
Proof.
  induction s as [|x s IH]; intros Hs; [reflexivity|].
  cbn [list_ascii_of_string] in Hs. apply not_elem_of_cons in Hs as [Hx Hs].
  cbn [find]. destruct (Ascii.eqb_spec x c) as [->|_]; [done|]. by rewrite IH.
Qed.

Lemma find_first c a b :
  c ∉ list_ascii_of_string a -> find c (a +:+ String c b) = Z.of_nat (String.length a).
Proof.
  induction a as [|x a IH]; intros Ha.
  - rewrite append_nil_l. cbn [find]. by rewrite Ascii.eqb_refl.
  - cbn [list_ascii_of_string] in Ha. apply not_elem_of_cons in Ha as [Hx Ha].
    rewrite append_cons. cbn [find String.length].
    destruct (Ascii.eqb_spec x c) as [->|_]; [done|]. rewrite IH by done.
    rewrite Nat2Z.inj_succ. destruct (Z.of_nat (String.length a)) eqn:E; lia.
Qed.

Lemma slice_from_0 s : slice_from 0 s = s.
Proof. unfold slice_from. cbn. by destruct s. Qed.

Lemma slice_after a c b :
  slice_from (Z.of_nat (String.length a) + 1) (a +:+ String c b) = b.
Proof.
  unfold slice_from. destruct (Z.ltb_spec (Z.of_nat (String.length a) + 1) 0); [lia|].
  replace (Z.to_nat (Z.of_nat (String.length a) + 1))
    with (String.length (a +:+ String c EmptyString))
    by (rewrite length_append; cbn [String.length]; lia).
  replace (a +:+ String c b) with ((a +:+ String c EmptyString) +:+ b)
    by (by rewrite append_assoc).
  apply drop_chars_app.
Qed.

(** The three replacements that remove the time notation. *)
Lemma time_notation_sep c a b :
  c ∉ [" "; "="; "["; ","; ")"]%char ->
  replace ", " "_" (replace ", )" "_" (replace " = [" "_" (a +:+ String c b)))
  = replace ", " "_" (replace ", )" "_" (replace " = [" "_" a))
    +:+ String c (replace ", " "_" (replace ", )" "_" (replace " = [" "_" b))).
Proof.
  intros Hc. rewrite !elem_of_cons, elem_of_nil in Hc.
  rewrite !replace_sep; try done.
  all: cbn; rewrite !elem_of_cons, elem_of_nil; intros H;
    repeat (destruct H as [H|H]; [subst c; tauto|]); done.
Qed.

Lemma time_notation_absent c s :
  c <> "_"%char ->
  c ∉ list_ascii_of_string s ->
  c ∉ list_ascii_of_string
        (replace ", " "_" (replace ", )" "_" (replace " = [" "_" s))).
Proof.
  intros Hc Hs.
  assert (Hnew : c ∉ list_ascii_of_string "_").
  { cbn. rewrite elem_of_cons, elem_of_nil. intros [?|[]]. done. }
  repeat apply replace_absent; done.
Qed.

(** [title_to_fn] drops the first line of a title of two lines. *)
Lemma title_to_fn_second_line name t :
  LF ∉ list_ascii_of_string name ->
  LF ∉ list_ascii_of_string t ->
  title_to_fn (name +:+ String LF t) = title_to_fn t.
Proof.
  intros Hname Ht. unfold title_to_fn.
  rewrite time_notation_sep
    by (unfold LF; rewrite !elem_of_cons, elem_of_nil; intros H;
        repeat (destruct H as [H|H]; [discriminate H|]); done).
  rewrite find_first by (apply time_notation_absent; done).
  rewrite slice_after.
  rewrite (find_absent LF) by (apply time_notation_absent; done).
  by rewrite slice_from_0.
Qed.











Lemma absent_by_check (c : ascii) (l : list ascii) :
  forallb (fun x => negb (Ascii.eqb x c)) l = true -> c ∉ l.
Proof.
  rewrite forallb_forall. intros H Hc%list_elem_of_In. specialize (H c Hc).
  by rewrite Ascii.eqb_refl in H.
Qed.







(** [title_to_fn] keeps the second line only: for a title of two lines, as
    [main] builds them with the name of the model in the first line, the
    result is the one for the second line alone, whatever the name of the
    model is. *)
Theorem title_to_fn_drops_first_line name t :
  LF ∉ list_ascii_of_string name ->
  LF ∉ list_ascii_of_string t ->
  title_to_fn (name +:+ String LF t) = title_to_fn t.
Proof. apply title_to_fn_second_line. Qed.

Lemma title_to_fn_drops_first_line_witness :
  title_to_fn ("0613-q1-0000" +:+ String LF "ln_drmsd Loss, t = [100, )")
  = title_to_fn "ln_drmsd Loss, t = [100, )".
Proof.
  apply title_to_fn_drops_first_line; apply absent_by_check; vm_compute; reflexivity.
Defined.






Lemma all_limits_defined fos limits ms lims m :
  all_limits fos limits ms = Ret lims -> m ∈ ms -> defined (limits_of fos limits m) = true.
Proof.
  revert lims. induction ms as [|m' ms IH]; intros lims Hl Hm.
  - by apply elem_of_nil in Hm.
  - cbn [all_limits] in Hl. destruct (limits_of fos limits m') eqn:E; [|discriminate].
    destruct (all_limits fos limits ms); [|discriminate].
    apply elem_of_cons in Hm as [->|Hm]; [by rewrite E|]. by eapply IH.
Qed.

(** [--limits] needs both bounds of a metric: when the name of a metric is
    first found among the last two words of [args.limits], reading its
    bounds fails and [main] makes no plot at all. *)
Theorem limits_need_both_bounds fos model_name val skip_first no_smoothing ls m pos :
  m ∈ metric_names ->
  index_of m ls = Some pos ->
  (length ls <= pos + 2)%nat ->
  defined (all_plots fos model_name val skip_first no_smoothing (Some ls)) = false.
Proof.
  intros Hm Hpos Hlen. unfold all_plots.
  destruct (all_limits fos (Some ls) metric_names) as [lims|e] eqn:Hl; [|reflexivity].
  pose proof (all_limits_defined _ _ _ _ m Hl Hm) as Hd.
  unfold limits_of in Hd. destruct ls as [|l ls]; [discriminate Hpos|].
  rewrite Hpos in Hd.
  assert (Hout : limit_at fos (l :: ls) (pos + 2) = Raise IndexError).
  { unfold limit_at. rewrite lookup_ge_None_2; [done|lia]. }
  rewrite Hout in Hd. by destruct (limit_at fos (l :: ls) (pos + 1)).
Qed.

Lemma limits_need_both_bounds_witness :
  defined (all_plots (fun _ => Ret 1%float) "model" false None false
             (Some ["rmse"; "0"])) = false.
Proof.
  apply (limits_need_both_bounds (fun _ => Ret 1%float) "model" false None false
           ["rmse"; "0"] "rmse" 0).
  - unfold metric_names. rewrite !elem_of_cons. tauto.
  - reflexivity.
  - cbn. lia.
Defined.
